(** * AISC 360-22 compression capacity of W columns

    A shallow embedding of [aisc_360_22/design_requirements.py],
    [aisc_360_22/compression.py] and the filter of [sections_db.py], and the
    properties of the capacity calculation and of the section table proved
    over it.

    Numbers.  The Python code computes with [float]; here every number is a
    real ([R]), so rounding, overflow and underflow are idealised away.
    What is kept of Python's arithmetic is its failures: [x / y] raises
    [ZeroDivisionError] when [y] is zero, [math.sqrt] raises [ValueError]
    on a negative argument, and arithmetic on [None] raises [TypeError].
    Every function that can raise returns a [result].

    What the idealisation loses is the failures of rounding: on floats a
    quotient or a square of non-zero numbers can underflow to [0.0], and the
    next division by it raises [ZeroDivisionError], and [**] raises
    [OverflowError] beyond the largest float.  Properties of values, branches
    and orderings are stated on the reals; where a claim is that no error is
    raised, [Binary64] below evaluates the code on binary64 floats. *)

From Stdlib Require Import Reals Lra Lia ZArith List String.
From Stdlib Require PrimFloat.
Import ListNotations.

Open Scope R_scope.

(** ** Exceptions and the error monad *)

Inductive exn : Type :=
| ZeroDivisionError
| ValueError (msg : string)
| TypeError.

Inductive result (A : Type) : Type :=
| Ok (a : A)
| Raise (e : exn).

Arguments Ok {A} a.
Arguments Raise {A} e.

Definition bind {A B : Type} (m : result A) (k : A -> result B) : result B :=
  match m with
  | Ok a => k a
  | Raise e => Raise e
  end.

Notation "x <- m ;; k" := (bind m (fun x => k))
  (at level 61, m at next level, right associativity).

(** ** Python's arithmetic *)

(** [x / y] on floats. *)
Definition py_div (x y : R) : result R :=
  if Req_dec_T y 0 then Raise ZeroDivisionError else Ok (x / y).

(** [math.sqrt(x)]. *)
Definition py_sqrt (x : R) : result R :=
  if Rlt_dec x 0 then Raise (ValueError "math domain error") else Ok (sqrt x).

(** [b ** y] for a positive float base [b]. *)
Definition py_pow (b y : R) : R := Rpower b y.

(** [min(a, b)] and [max(a, b)]: the first argument is kept unless the
    second is strictly smaller (respectively larger). *)
Definition py_min (a b : R) : R := if Rlt_dec b a then b else a.
Definition py_max (a b : R) : R := if Rlt_dec a b then b else a.

(** The comparisons [a > b], [a <= b] and [a == b] as booleans. *)
Definition py_gt (a b : R) : bool := if Rgt_dec a b then true else false.
Definition py_le (a b : R) : bool := if Rle_dec a b then true else false.
Definition py_eq (a b : R) : bool := if Req_dec_T a b then true else false.

(** Truth value of a float: every number but zero is true. *)
Definition truthy (x : R) : bool := if Req_dec_T x 0 then false else true.

(** ** steel_constants.py *)

Definition STEEL_ELASTIC_MODULUS : R := 29000.
Definition STEEL_SHEAR_MODULUS : R := 11200.

(** ** design_requirements.py *)

Definition is_slender_comp (wt_ratio limiting_wt_ratio : R) : bool :=
  if py_gt wt_ratio limiting_wt_ratio then true else false.

Definition table_case_error : exn :=
  ValueError "Table case must be integer between 1 and 9.".

(** [kc] defaults to [None]; [kc * elastic_modulus] on [None] is a
    [TypeError]. *)
Definition limiting_wt_ratio_comp (table_case : Z) (elastic_modulus yield_strength : R)
    (kc : option R) : result R :=
  let root (c : R) :=
    q <- py_div elastic_modulus yield_strength ;;
    s <- py_sqrt q ;;
    Ok (c * s) in
  match table_case with
  | 1%Z => root 0.56
  | 2%Z =>
      match kc with
      | None => Raise TypeError
      | Some kc =>
          q <- py_div (kc * elastic_modulus) yield_strength ;;
          s <- py_sqrt q ;;
          Ok (0.64 * s)
      end
  | 3%Z => root 0.45
  | 4%Z => root 0.75
  | 5%Z => root 1.49
  | 6%Z => root 1.40
  | 7%Z => root 0.40
  | 8%Z => root 1.49
  | 9%Z => py_div (0.11 * elastic_modulus) yield_strength
  | _ => Raise table_case_error
  end.

Definition w_is_slender_comp (flange_width flange_thickness section_depth kdes
    web_thickness yield_stress elastic_modulus : R) : result bool :=
  flange_wt_ratio <- py_div flange_width (2 * flange_thickness) ;;
  let web_height := section_depth - kdes in
  web_wt_ratio <- py_div web_height web_thickness ;;
  flange_limiting_wt_ratio <- limiting_wt_ratio_comp 1 elastic_modulus yield_stress None ;;
  web_limiting_wt_ratio <- limiting_wt_ratio_comp 5 elastic_modulus yield_stress None ;;
  if (py_gt flange_wt_ratio flange_limiting_wt_ratio
      || py_gt web_wt_ratio web_limiting_wt_ratio)%bool
  then Ok true else Ok false.

(** ** compression.py *)

(** LRFD strength reduction factor and ASD safety factor for compression. *)
Definition PHI_C : R := 0.90.
Definition OMEGA_C : R := 1.67.

(** Table E7.1: description, [c1] and [c2] of each case. *)
Inductive ew_case : Type := case_a | case_b | case_c.

Definition EFFECTIVE_WIDTH_ADJUSTMENT_FACTORS (key : ew_case) : string * R * R :=
  match key with
  | case_a => ("Stiffened elements except walls of suare and rectangular HSS"%string, 0.18, 1.31)
  | case_b => ("Walls of square and rectangular HSS"%string, 0.20, 1.38)
  | case_c => ("All other elements"%string, 0.22, 1.49)
  end.

Definition factor_c1 (row : string * R * R) : R := snd (fst row).
Definition factor_c2 (row : string * R * R) : R := snd row.

Definition member_slenderness (unbraced_length radius_of_gyration effective_length_factor : R)
    : result R :=
  py_div (effective_length_factor * unbraced_length) radius_of_gyration.

Definition elastic_buckling_stress (slenderness elastic_modulus : R) : result R :=
  py_div (PI ^ 2 * elastic_modulus) (slenderness ^ 2).

Definition ft_elastic_buckling_stress_doubly_symmetric
    (z_effective_length warping_constant Ix Iy J elastic_modulus shear_modulus : R) : result R :=
  w <- py_div (PI ^ 2 * elastic_modulus * warping_constant) (z_effective_length ^ 2) ;;
  py_div ((w + shear_modulus * J) * 1) (Ix + Iy).

(** [elastic_stress] and [slenderness] default to [None].  A missing or
    zero [elastic_stress] is false under [not], and is recomputed from the
    slenderness; squaring a missing slenderness is a [TypeError]. *)
Definition nominal_flexural_buckling_stress (yield_stress : R)
    (elastic_stress slenderness : option R) (elastic_modulus : R) : result R :=
  let from_slenderness :=
    match slenderness with
    | Some s => elastic_buckling_stress s elastic_modulus
    | None => Raise TypeError
    end in
  elastic_stress <-
    match elastic_stress with
    | Some fe => if truthy fe then Ok fe else from_slenderness
    | None => from_slenderness
    end ;;
  ratio <- py_div yield_stress elastic_stress ;;
  if py_le ratio 2.25
  then Ok (py_pow 0.658 ratio * yield_stress)
  else Ok (0.877 * elastic_stress).

Definition nominal_ft_buckling_stress_doubly_symmetric
    (yield_stress z_effective_length warping_constant Ix Iy J elastic_modulus shear_modulus : R)
    : result R :=
  elastic_stress <- ft_elastic_buckling_stress_doubly_symmetric z_effective_length
                      warping_constant Ix Iy J elastic_modulus shear_modulus ;;
  nominal_flexural_buckling_stress yield_stress (Some elastic_stress) None STEEL_ELASTIC_MODULUS.

Definition ft_elastic_buckling_stress_i_minor_axis_offset
    (z_effective_length Iy J area r0 h0 y_offset elastic_modulus shear_modulus : R) : result R :=
  w <- py_div (PI ^ 2 * elastic_modulus * Iy) (z_effective_length ^ 2) ;;
  py_div ((w * (h0 ^ 2 / 4 + y_offset ^ 2) + shear_modulus * J) * 1) (area * r0 ^ 2).

Definition ft_elastic_buckling_stress_i_major_axis_offset
    (z_effective_length Ix Iy J area r0 h0 x_offset elastic_modulus shear_modulus : R) : result R :=
  w <- py_div (PI ^ 2 * elastic_modulus * Iy) (z_effective_length ^ 2) ;;
  i <- py_div Ix Iy ;;
  py_div ((w * (h0 ^ 2 / 4 + i * x_offset ^ 2) + shear_modulus * J) * 1) (area * r0 ^ 2).

Definition calc_r0 (rx ry xa ya : R) : R := rx ^ 2 + ry ^ 2 + xa ^ 2 + ya ^ 2.

Definition nominal_ft_buckling_stress_i_bracing_offset
    (yield_stress z_effective_length Ix Iy J area r0 h0 x_offset y_offset
     elastic_modulus shear_modulus : R) : result R :=
  x_elastic_stress <- ft_elastic_buckling_stress_i_major_axis_offset z_effective_length
                        Ix Iy J area r0 h0 x_offset elastic_modulus shear_modulus ;;
  y_elastic_stress <- ft_elastic_buckling_stress_i_minor_axis_offset z_effective_length
                        Iy J area r0 h0 y_offset elastic_modulus shear_modulus ;;
  let elastic_stress := py_min x_elastic_stress y_elastic_stress in
  nominal_flexural_buckling_stress yield_stress (Some elastic_stress) None STEEL_ELASTIC_MODULUS.

Definition elastic_local_buckling_stress (c2 wt_ratio limiting_wt_ratio yield_stress : R)
    : result R :=
  q <- py_div (c2 * limiting_wt_ratio) wt_ratio ;;
  Ok (q ^ 2 * yield_stress).

Definition effective_width (nominal_width wt_ratio limiting_wt_ratio yield_stress
    nominal_stress elastic_local_stress c1 : R) : result R :=
  q <- py_div yield_stress nominal_stress ;;
  s <- py_sqrt q ;;
  if py_le wt_ratio (limiting_wt_ratio * s)
  then Ok nominal_width
  else
    ql <- py_div elastic_local_stress nominal_stress ;;
    sl <- py_sqrt ql ;;
    Ok (nominal_width * (1 - c1 * sl) * sl).

Definition w_section_effective_area (gross_area flange_width flange_thickness
    section_depth kdes web_thickness yield_stress nominal_stress : R) : result R :=
  flange_wt_ratio <- py_div flange_width (2 * flange_thickness) ;;
  let web_height := section_depth - 2 * kdes in
  web_wt_ratio <- py_div web_height web_thickness ;;
  let flange_c1 := factor_c1 (EFFECTIVE_WIDTH_ADJUSTMENT_FACTORS case_c) in
  let flange_c2 := factor_c2 (EFFECTIVE_WIDTH_ADJUSTMENT_FACTORS case_c) in
  flange_limiting_wt_ratio <-
    limiting_wt_ratio_comp 1 STEEL_ELASTIC_MODULUS yield_stress None ;;
  flange_elastic_local_buckling_stress <-
    elastic_local_buckling_stress flange_c2 flange_wt_ratio flange_limiting_wt_ratio
      yield_stress ;;
  effective_flange_width <-
    effective_width flange_width flange_wt_ratio flange_limiting_wt_ratio yield_stress
      nominal_stress flange_elastic_local_buckling_stress flange_c1 ;;
  let web_c1 := factor_c1 (EFFECTIVE_WIDTH_ADJUSTMENT_FACTORS case_a) in
  let web_c2 := factor_c2 (EFFECTIVE_WIDTH_ADJUSTMENT_FACTORS case_a) in
  web_limiting_wt_ratio <-
    limiting_wt_ratio_comp 5 STEEL_ELASTIC_MODULUS yield_stress None ;;
  web_elastic_local_buckling_stress <-
    elastic_local_buckling_stress web_c2 web_wt_ratio web_limiting_wt_ratio yield_stress ;;
  effective_web_height <-
    effective_width web_height web_wt_ratio web_limiting_wt_ratio yield_stress
      nominal_stress web_elastic_local_buckling_stress web_c1 ;;
  if (is_slender_comp flange_wt_ratio flange_limiting_wt_ratio
      || is_slender_comp web_wt_ratio web_limiting_wt_ratio)%bool
  then Ok (gross_area
           - 2 * flange_thickness * (flange_width - effective_flange_width)
           - web_thickness * (web_height - effective_web_height))
  else Ok gross_area.

(** The report is a [dict] from a label to [[value, dimension]]; a Python
    [dict] keeps its keys in insertion order, and [update] overwrites the
    value of a key already present. *)
Definition report_row : Type := (string * (R * string))%type.

Fixpoint dict_update (report : list report_row) (label : string) (value : R * string)
    : list report_row :=
  match report with
  | [] => [(label, value)]
  | (l, v) :: rest =>
      if String.eqb l label then (l, value) :: rest
      else (l, v) :: dict_update rest label value
  end.

Fixpoint dict_get (report : list report_row) (label : string) : option (R * string) :=
  match report with
  | [] => None
  | (l, v) :: rest => if String.eqb l label then Some v else dict_get rest label
  end.

(** First component of the returned tuple: the strength, or the report when
    [return_report] is set. *)
Inductive capacity_value : Type :=
| Strength (p : R)
| Report (rows : list report_row).

Definition design_method_error : exn :=
  ValueError "Design method must be 'nominal', 'LRFD', or 'ASD'.".

(** Make zero lengths nonzero to avoid division by zero errors. *)
Definition nonzero_length (unbraced_length : R) : R :=
  if py_eq unbraced_length 0 then 0.00001 else unbraced_length.

Definition w_section_capacity
    (area Ix Iy J warping_constant flange_width flange_thickness section_depth kdes
     web_thickness unbraced_length_x unbraced_length_y unbraced_length_z yield_stress : R)
    (design_method : string)
    (elastic_modulus shear_modulus kx ky kz x_brace_offset y_brace_offset : R)
    (return_report : bool)
    : result (capacity_value * list string * list string) :=
  let unbraced_length_x := nonzero_length unbraced_length_x in
  let unbraced_length_y := nonzero_length unbraced_length_y in
  let unbraced_length_z := nonzero_length unbraced_length_z in
  let warnings : list string := [] in
  let notes : list string := [] in
  let report : list report_row := [] in
  qx <- py_div Ix area ;;
  rx <- py_sqrt qx ;;
  qy <- py_div Iy area ;;
  ry <- py_sqrt qy ;;
  let r0 := calc_r0 rx ry x_brace_offset y_brace_offset in
  let h0 := section_depth - flange_thickness in
  slenderness_x <- member_slenderness unbraced_length_x rx kx ;;
  slenderness_y <- member_slenderness unbraced_length_y ry ky ;;
  let design_slenderness := py_max slenderness_x slenderness_y in
  let report :=
    dict_update report "Governing slenderness ratio, Lc/r" (design_slenderness, ""%string) in
  let warnings :=
    if py_gt design_slenderness 200
    then warnings ++ ["Slenderness ratio exceeds 200."%string]
    else warnings in
  let effective_length_z := unbraced_length_z * kz in
  flexural_buckling_stress <-
    nominal_flexural_buckling_stress yield_stress None (Some design_slenderness)
      elastic_modulus ;;
  let report :=
    dict_update report "Nominal flexural buckling stress (Eqns E3-2, E3-3)"
      (flexural_buckling_stress, "stress"%string) in
  torsional <-
    (if (truthy x_brace_offset || truthy y_brace_offset)%bool
     then
       torsional_buckling_stress <-
         nominal_ft_buckling_stress_i_bracing_offset yield_stress effective_length_z
           Ix Iy J area r0 h0 x_brace_offset y_brace_offset elastic_modulus shear_modulus ;;
       Ok (torsional_buckling_stress,
           dict_update report "Nominal torsional buckling stress (Eqn E4-2)"
             (torsional_buckling_stress, "stress"%string))
     else
       torsional_buckling_stress <-
         nominal_ft_buckling_stress_doubly_symmetric yield_stress effective_length_z
           warping_constant Ix Iy J elastic_modulus shear_modulus ;;
       Ok (torsional_buckling_stress,
           dict_update report "Nominal torsional buckling stress (Eqns E4-10, E4-12)"
             (torsional_buckling_stress, "stress"%string))) ;;
  let torsional_buckling_stress := fst torsional in
  let report := snd torsional in
  let warnings :=
    if (truthy x_brace_offset && truthy y_brace_offset)%bool
    then warnings
           ++ ["Torsional buckling results not valid with bracing offset in both axes."%string]
    else warnings in
  let nominal_stress := py_min flexural_buckling_stress torsional_buckling_stress in
  let report :=
    dict_update report "Governing nominal buckling stress, Fn"
      (nominal_stress, "stress"%string) in
  effective_area <-
    w_section_effective_area area flange_width flange_thickness section_depth kdes
      web_thickness yield_stress nominal_stress ;;
  let report :=
    dict_update report "Effective area accounting for slender elements, Ae (Sect. E7)"
      (effective_area, "area"%string) in
  slender <-
    w_is_slender_comp flange_width flange_thickness section_depth kdes web_thickness
      yield_stress elastic_modulus ;;
  let notes :=
    if slender then notes ++ ["Shape is slender for compression."%string] else notes in
  let nominal_compressive_strength := nominal_stress * effective_area in
  let report :=
    dict_update report "Nominal compressive strength, Pn (Eqns E3-1, E4-1, E7-1)"
      (nominal_compressive_strength, "force"%string) in
  if String.eqb design_method "nominal" then
    if return_report then Ok (Report report, warnings, notes)
    else Ok (Strength nominal_compressive_strength, warnings, notes)
  else if String.eqb design_method "LRFD" then
    let factored_strength := PHI_C * nominal_compressive_strength in
    let report := dict_update report "Resistance factor, φ" (PHI_C, ""%string) in
    let report :=
      dict_update report "Factored compressive strength, φPn"
        (factored_strength, "force"%string) in
    if return_report then Ok (Report report, warnings, notes)
    else Ok (Strength factored_strength, warnings, notes)
  else if String.eqb design_method "ASD" then
    allowable_strength <- py_div nominal_compressive_strength OMEGA_C ;;
    let report := dict_update report "Safety factor, Ω" (OMEGA_C, ""%string) in
    let report :=
      dict_update report "Allowable compressive strength, Pn/Ω"
        (allowable_strength, "force"%string) in
    if return_report then Ok (Report report, warnings, notes)
    else Ok (Strength allowable_strength, warnings, notes)
  else Raise design_method_error.

(** ** Look-ups by label in pandas

    [w_section_capacity_from_series] and [sections_db.py] work on pandas
    values.  What is embedded of pandas is the look-up by label, which
    raises [KeyError] on a label that is not there, the comparison of a
    column with a number, and the selection of rows by a boolean mask.
    Labels are taken to be distinct and cells to be numbers, as in the table
    the application reads.

    The cells of a table read by pandas are [numpy.float64], whose division
    by zero gives [inf] with a warning where Python's [float] raises.  Here a
    cell is a number like every other, so where the model of
    [w_section_capacity] raises [ZeroDivisionError] on a divisor computed from
    a cell, the call on a row of the table can return instead. *)

Inductive pandas_exn : Type :=
| KeyError (label : string)
| Python (e : exn).

Inductive pandas_result (A : Type) : Type :=
| Returns (a : A)
| Raises (e : pandas_exn).

Arguments Returns {A} a.
Arguments Raises {A} e.

Definition pandas_bind {A B : Type} (m : pandas_result A) (k : A -> pandas_result B)
    : pandas_result B :=
  match m with
  | Returns a => k a
  | Raises e => Raises e
  end.

Notation "x <~ m ;; k" := (pandas_bind m (fun x => k))
  (at level 61, m at next level, right associativity).

(** A [pandas.Series] with string labels: a row of the section table, the
    column names being its labels. *)
Definition Series : Type := list (string * R).

(** [section.loc[label]]. *)
Definition Series_loc (section : Series) (label : string) : pandas_result R :=
  match find (fun entry => String.eqb (fst entry) label) section with
  | Some entry => Returns (snd entry)
  | None => Raises (KeyError label)
  end.

(** What [w_section_capacity_from_series] returns: the capacity alone when
    [value_only] is set, the tuple of [w_section_capacity] otherwise. *)
Inductive series_capacity : Type :=
| ValueOnly (capacity : capacity_value)
| WithMessages (capacity : capacity_value) (warnings notes : list string).

Definition w_section_capacity_from_series (section : Series)
    (unbraced_length_x unbraced_length_y unbraced_length_z yield_stress : R)
    (design_method : string)
    (elastic_modulus shear_modulus kx ky kz x_brace_offset y_brace_offset : R)
    (value_only return_report : bool)
    : pandas_result series_capacity :=
  area <~ Series_loc section "A" ;;
  Ix <~ Series_loc section "Ix" ;;
  Iy <~ Series_loc section "Iy" ;;
  J <~ Series_loc section "J" ;;
  warping_constant <~ Series_loc section "Cw" ;;
  flange_width <~ Series_loc section "bf" ;;
  flange_thickness <~ Series_loc section "tf" ;;
  section_depth <~ Series_loc section "d" ;;
  kdes <~ Series_loc section "kdes" ;;
  web_thickness <~ Series_loc section "tw" ;;
  match
    w_section_capacity area Ix Iy J warping_constant flange_width flange_thickness
      section_depth kdes web_thickness unbraced_length_x unbraced_length_y
      unbraced_length_z yield_stress design_method elastic_modulus shear_modulus
      kx ky kz x_brace_offset y_brace_offset return_report
  with
  | Raise e => Raises (Python e)
  | Ok (capacity, warnings, notes) =>
      if value_only then Returns (ValueOnly capacity)
      else Returns (WithMessages capacity warnings notes)
  end.

(** ** sections_db.py *)

(** A [pandas.DataFrame]: the column names, and the rows in order, each with
    its index label and one cell per column. *)
Definition frame_row : Type := (string * list R)%type.

Record DataFrame : Type := mk_DataFrame {
  frame_columns : list string;
  frame_rows : list frame_row
}.

(** Position of a label among the column names ([Index.get_loc]). *)
Fixpoint get_loc (labels : list string) (label : string) : option nat :=
  match labels with
  | [] => None
  | l :: rest => if String.eqb l label then Some 0%nat else option_map S (get_loc rest label)
  end.

Definition cell (position : nat) (row : frame_row) : R := nth position (snd row) 0.

(** [df[parameter]]: the column of that name. *)
Definition DataFrame_getitem (df : DataFrame) (parameter : string) : pandas_result (list R) :=
  match get_loc (frame_columns df) parameter with
  | Some position => Returns (map (cell position) (frame_rows df))
  | None => Raises (KeyError parameter)
  end.

(** The comparison [a >= b] as a boolean. *)
Definition py_ge (a b : R) : bool := if Rge_dec a b then true else false.

(** Selection by a boolean mask: the entries at which the mask is true, in
    their order. *)
Fixpoint select {A : Type} (entries : list A) (mask : list bool) : list A :=
  match entries, mask with
  | entry :: entries', keep :: mask' =>
      if keep then entry :: select entries' mask' else select entries' mask'
  | _, _ => []
  end.

(** [df.loc[mask]]. *)
Definition DataFrame_loc (df : DataFrame) (mask : list bool) : DataFrame :=
  {| frame_columns := frame_columns df; frame_rows := select (frame_rows df) mask |}.

Definition comparison_error : exn := ValueError "Invalid comparison type".

(** The loop of [sections_filter] over the keyword arguments, in the order
    they were passed, on the current [sub_df]. *)
Fixpoint sections_filter_loop (sub_df : DataFrame) (operator : string)
    (kwargs : list (string * R)) : pandas_result DataFrame :=
  match kwargs with
  | [] => Returns sub_df
  | (parameter, value) :: rest =>
      mask <~
        (if String.eqb operator "ge" then
           column <~ DataFrame_getitem sub_df parameter ;;
           Returns (map (fun x => py_ge x value) column)
         else if String.eqb operator "le" then
           column <~ DataFrame_getitem sub_df parameter ;;
           Returns (map (fun x => py_le x value) column)
         else Raises (Python comparison_error)) ;;
      sections_filter_loop (DataFrame_loc sub_df mask) operator rest
  end.

Definition sections_filter (df : DataFrame) (operator : string) (kwargs : list (string * R))
    : pandas_result DataFrame :=
  let sub_df := df in
  sections_filter_loop sub_df operator kwargs.

(** ** Binary64 evaluation

    The evaluation on binary64 floats of the statements of
    [w_section_capacity] that lead to the governing slenderness ratio (lines
    174-189): the substitution of zero lengths, the two radii of gyration,
    the two slenderness ratios and their maximum.  Rocq's primitive floats
    are IEEE 754 binary64 with rounding to nearest, ties to even, as
    Python's [float]; [*], [/], [math.sqrt] and the comparisons are the IEEE
    operations, and a decimal literal is the nearest float in both.  [r0] and
    [h0] (lines 185-186) are a sum of squares and a difference whose values
    are not used before line 198; they are left out. *)

Module Binary64.

Import PrimFloat.

#[local] Set Warnings "-inexact-float".

(** [x / y]. *)
Definition py_div (x y : float) : result float :=
  if (y =? 0)%float then Raise ZeroDivisionError else Ok (x / y)%float.

(** [math.sqrt(x)]. *)
Definition py_sqrt (x : float) : result float :=
  if (x <? 0)%float then Raise (ValueError "math domain error") else Ok (sqrt x).

(** [max(a, b)]. *)
Definition py_max (a b : float) : float := if (a <? b)%float then b else a.

Definition nonzero_length (unbraced_length : float) : float :=
  if (unbraced_length =? 0)%float then 0.00001%float else unbraced_length.

Definition member_slenderness (unbraced_length radius_of_gyration effective_length_factor : float)
    : result float :=
  py_div (effective_length_factor * unbraced_length)%float radius_of_gyration.

(** The value of [design_slenderness] at line 189 of [w_section_capacity],
    or the exception raised before. *)
Definition design_slenderness (area Ix Iy unbraced_length_x unbraced_length_y kx ky : float)
    : result float :=
  let unbraced_length_x := nonzero_length unbraced_length_x in
  let unbraced_length_y := nonzero_length unbraced_length_y in
  qx <- py_div Ix area ;;
  rx <- py_sqrt qx ;;
  qy <- py_div Iy area ;;
  ry <- py_sqrt qy ;;
  slenderness_x <- member_slenderness unbraced_length_x rx kx ;;
  slenderness_y <- member_slenderness unbraced_length_y ry ky ;;
  Ok (py_max slenderness_x slenderness_y).

(** [x > 0] on floats, for the positivity preconditions. *)
Definition positive (x : float) : bool := (0 <? x)%float.

End Binary64.

(** * Quantities the statements speak of

    None of what follows is in the Python source: these are the closed
    forms, preconditions and intermediate records in which the properties of
    the source functions above are stated and proved. *)

(** ** Closed forms of the component functions *)

(** Equations E3-2 and E3-3 as one expression. *)
Definition critical_stress (Fy Fe : R) : R :=
  if py_le (Fy / Fe) 2.25 then py_pow 0.658 (Fy / Fe) * Fy else 0.877 * Fe.

(** Equation E4-2 as the code evaluates it. *)
Definition doubly_symmetric_stress (Lcz Cw Ix Iy J E G : R) : R :=
  (PI ^ 2 * E * Cw / Lcz ^ 2 + G * J) * 1 / (Ix + Iy).

(** Equations E4-10 and E4-12 as the code evaluates them; [r0] is what
    [calc_r0] returned. *)
Definition minor_axis_offset_stress (Lcz Iy J A r0 h0 ya E G : R) : R :=
  (PI ^ 2 * E * Iy / Lcz ^ 2 * (h0 ^ 2 / 4 + ya ^ 2) + G * J) * 1 / (A * r0 ^ 2).

Definition major_axis_offset_stress (Lcz Ix Iy J A r0 h0 xa E G : R) : R :=
  (PI ^ 2 * E * Iy / Lcz ^ 2 * (h0 ^ 2 / 4 + Ix / Iy * xa ^ 2) + G * J) * 1 / (A * r0 ^ 2).

(** ** Effective width and effective area (Section E7) *)

(** Equation E7-5. *)
Definition local_buckling_stress (c2 ratio limit Fy : R) : R :=
  (c2 * limit / ratio) ^ 2 * Fy.

(** Equations E7-2 and E7-3 in the words of the specification: a plate of
    width [b] and width-to-thickness ratio [ratio] is fully effective when
    [ratio <= limit * sqrt (Fy / Fn)], and is reduced otherwise. *)
Definition effective_width_formula (b ratio limit c1 c2 Fy Fn : R) : R :=
  let Fel := local_buckling_stress c2 ratio limit Fy in
  if Rle_dec ratio (limit * sqrt (Fy / Fn)) then b
  else b * (1 - c1 * sqrt (Fel / Fn)) * sqrt (Fel / Fn).

(** The effective area in the words of the specification.  The limiting
    ratios are those of table cases 1 and 5 at the code-defined steel
    modulus; the web height is [d - 2 * kdes]. *)
Definition flange_limit (Fy : R) : R := 0.56 * sqrt (STEEL_ELASTIC_MODULUS / Fy).
Definition web_limit (Fy : R) : R := 1.49 * sqrt (STEEL_ELASTIC_MODULUS / Fy).

Definition effective_flange_width_formula (bf tf Fy Fn : R) : R :=
  effective_width_formula bf (bf / (2 * tf)) (flange_limit Fy) 0.22 1.49 Fy Fn.

Definition effective_web_height_formula (d kdes tw Fy Fn : R) : R :=
  effective_width_formula (d - 2 * kdes) ((d - 2 * kdes) / tw) (web_limit Fy) 0.18 1.31 Fy Fn.

Definition effective_area_formula (A bf tf d kdes tw Fy Fn : R) : R :=
  if (py_gt (bf / (2 * tf)) (flange_limit Fy)
      || py_gt ((d - 2 * kdes) / tw) (web_limit Fy))%bool
  then A - 2 * tf * (bf - effective_flange_width_formula bf tf Fy Fn)
         - tw * ((d - 2 * kdes) - effective_web_height_formula d kdes tw Fy Fn)
  else A.

(** The classification of [w_is_slender_comp], with its own web height
    [d - kdes]. *)
Definition w_slender_condition (bf tf d kdes tw Fy E : R) : Prop :=
  bf / (2 * tf) > 0.56 * sqrt (E / Fy) \/ (d - kdes) / tw > 1.49 * sqrt (E / Fy).

(** ** A brace offset, in the words of the specification *)

(** Equations E4-10 and E4-12 in the words of the specification: the
    divisor is [A * r0 ^ 2] with [r0 ^ 2 = rx ^ 2 + ry ^ 2 + xa ^ 2 + ya ^ 2]. *)
Definition polar_radius_squared (Ix Iy A xa ya : R) : R :=
  sqrt (Ix / A) ^ 2 + sqrt (Iy / A) ^ 2 + xa ^ 2 + ya ^ 2.

Definition claimed_minor_axis_offset_stress (Lcz Ix Iy J A h0 xa ya E G : R) : R :=
  (PI ^ 2 * E * Iy / Lcz ^ 2 * (h0 ^ 2 / 4 + ya ^ 2) + G * J)
  / (A * polar_radius_squared Ix Iy A xa ya).

Definition claimed_major_axis_offset_stress (Lcz Ix Iy J A h0 xa ya E G : R) : R :=
  (PI ^ 2 * E * Iy / Lcz ^ 2 * (h0 ^ 2 / 4 + Ix / Iy * xa ^ 2) + G * J)
  / (A * polar_radius_squared Ix Iy A xa ya).

(** ** Preconditions *)

(** The positivity preconditions of the calculation. *)
Definition valid_section (area Ix Iy J warping_constant flange_width flange_thickness
    section_depth kdes web_thickness : R) : Prop :=
  0 < area /\ 0 < Ix /\ 0 < Iy /\ 0 < J /\ 0 < warping_constant
  /\ 0 < flange_width /\ 0 < flange_thickness /\ 0 < web_thickness
  /\ 0 < 2 * kdes /\ 2 * kdes < section_depth.

Definition valid_material (yield_stress elastic_modulus shear_modulus : R) : Prop :=
  0 < yield_stress /\ 0 < elastic_modulus /\ 0 < shear_modulus.

Definition valid_bracing (unbraced_length_x unbraced_length_y unbraced_length_z
    kx ky kz : R) : Prop :=
  0 < kx /\ 0 < ky /\ 0 < kz
  /\ 0 <= unbraced_length_x /\ 0 <= unbraced_length_y /\ 0 <= unbraced_length_z.

(** The design methods the code recognises. *)
Definition recognised (design_method : string) : Prop :=
  design_method = "nominal"%string \/ design_method = "LRFD"%string
  \/ design_method = "ASD"%string.

(** ** The stages of [w_section_capacity]

    [w_section_capacity] is one long function.  Its proofs go through
    [w_section_stages], which computes the same intermediate quantities in
    the same order, and [conclude], which builds the returned tuple from
    them; [w_section_capacity_stages] shows that the two compose to the
    function itself. *)

Record stages : Type := mk_stages {
  st_rx : R;
  st_ry : R;
  st_slenderness_x : R;
  st_slenderness_y : R;
  st_flexural : R;
  st_torsional : R;
  st_effective_area : R;
  st_slender : bool
}.

Definition st_design_slenderness (s : stages) : R :=
  py_max (st_slenderness_x s) (st_slenderness_y s).

Definition st_nominal_stress (s : stages) : R :=
  py_min (st_flexural s) (st_torsional s).

Definition st_nominal_strength (s : stages) : R :=
  st_nominal_stress s * st_effective_area s.

(** The branch on the brace offsets. *)
Definition torsional_stage (yield_stress effective_length_z warping_constant Ix Iy J area
    r0 h0 x_brace_offset y_brace_offset elastic_modulus shear_modulus : R) : result R :=
  if (truthy x_brace_offset || truthy y_brace_offset)%bool
  then nominal_ft_buckling_stress_i_bracing_offset yield_stress effective_length_z
         Ix Iy J area r0 h0 x_brace_offset y_brace_offset elastic_modulus shear_modulus
  else nominal_ft_buckling_stress_doubly_symmetric yield_stress effective_length_z
         warping_constant Ix Iy J elastic_modulus shear_modulus.

Definition w_section_stages
    (area Ix Iy J warping_constant flange_width flange_thickness section_depth kdes
     web_thickness unbraced_length_x unbraced_length_y unbraced_length_z yield_stress
     elastic_modulus shear_modulus kx ky kz x_brace_offset y_brace_offset : R)
    : result stages :=
  qx <- py_div Ix area ;;
  rx <- py_sqrt qx ;;
  qy <- py_div Iy area ;;
  ry <- py_sqrt qy ;;
  slenderness_x <- member_slenderness (nonzero_length unbraced_length_x) rx kx ;;
  slenderness_y <- member_slenderness (nonzero_length unbraced_length_y) ry ky ;;
  flexural <-
    nominal_flexural_buckling_stress yield_stress None
      (Some (py_max slenderness_x slenderness_y)) elastic_modulus ;;
  torsional <-
    torsional_stage yield_stress (nonzero_length unbraced_length_z * kz) warping_constant
      Ix Iy J area (calc_r0 rx ry x_brace_offset y_brace_offset)
      (section_depth - flange_thickness) x_brace_offset y_brace_offset
      elastic_modulus shear_modulus ;;
  effective_area <-
    w_section_effective_area area flange_width flange_thickness section_depth kdes
      web_thickness yield_stress (py_min flexural torsional) ;;
  slender <-
    w_is_slender_comp flange_width flange_thickness section_depth kdes web_thickness
      yield_stress elastic_modulus ;;
  Ok (mk_stages rx ry slenderness_x slenderness_y flexural torsional effective_area slender).

Definition torsional_label (x_brace_offset y_brace_offset : R) : string :=
  if (truthy x_brace_offset || truthy y_brace_offset)%bool
  then "Nominal torsional buckling stress (Eqn E4-2)"
  else "Nominal torsional buckling stress (Eqns E4-10, E4-12)".

(** The rows written before the design method is looked at. *)
Definition nominal_report (s : stages) (x_brace_offset y_brace_offset : R) : list report_row :=
  [ ("Governing slenderness ratio, Lc/r"%string, (st_design_slenderness s, ""%string));
    ("Nominal flexural buckling stress (Eqns E3-2, E3-3)"%string,
      (st_flexural s, "stress"%string));
    (torsional_label x_brace_offset y_brace_offset, (st_torsional s, "stress"%string));
    ("Governing nominal buckling stress, Fn"%string, (st_nominal_stress s, "stress"%string));
    ("Effective area accounting for slender elements, Ae (Sect. E7)"%string,
      (st_effective_area s, "area"%string));
    ("Nominal compressive strength, Pn (Eqns E3-1, E4-1, E7-1)"%string,
      (st_nominal_strength s, "force"%string)) ].

Definition stage_warnings (s : stages) (x_brace_offset y_brace_offset : R) : list string :=
  (if py_gt (st_design_slenderness s) 200
   then ["Slenderness ratio exceeds 200."%string] else [])
  ++ (if (truthy x_brace_offset && truthy y_brace_offset)%bool
      then ["Torsional buckling results not valid with bracing offset in both axes."%string]
      else []).

Definition stage_notes (s : stages) : list string :=
  if st_slender s then ["Shape is slender for compression."%string] else [].

(** The strength returned for a recognised design method. *)
Definition design_strength (design_method : string) (nominal_strength : R) : option R :=
  if String.eqb design_method "nominal" then Some nominal_strength
  else if String.eqb design_method "LRFD" then Some (PHI_C * nominal_strength)
  else if String.eqb design_method "ASD" then Some (nominal_strength / OMEGA_C)
  else None.

(** The rows a design method adds to the report. *)
Definition design_rows (design_method : string) (nominal_strength : R) : list report_row :=
  if String.eqb design_method "nominal" then []
  else if String.eqb design_method "LRFD" then
    [ ("Resistance factor, φ"%string, (PHI_C, ""%string));
      ("Factored compressive strength, φPn"%string,
        (PHI_C * nominal_strength, "force"%string)) ]
  else if String.eqb design_method "ASD" then
    [ ("Safety factor, Ω"%string, (OMEGA_C, ""%string));
      ("Allowable compressive strength, Pn/Ω"%string,
        (nominal_strength / OMEGA_C, "force"%string)) ]
  else [].

Definition conclude (s : stages) (design_method : string) (x_brace_offset y_brace_offset : R)
    (return_report : bool) : result (capacity_value * list string * list string) :=
  match design_strength design_method (st_nominal_strength s) with
  | Some p =>
      Ok (if return_report
          then Report (nominal_report s x_brace_offset y_brace_offset
                       ++ design_rows design_method (st_nominal_strength s))
          else Strength p,
          stage_warnings s x_brace_offset y_brace_offset, stage_notes s)
  | None => Raise design_method_error
  end.

(** ** What a returning call has computed

    [computed_stresses] says of four numbers that they are the nominal
    flexural stress, the nominal torsional stress, the governing stress and
    the effective area which the component functions give on the inputs of
    [w_section_capacity], the lengths entering through [nonzero_length];
    [returned_capacity] says of a returned first component that it is the
    design strength of the governing stress times the effective area: the
    strength itself, or the report that shows the three quantities and ends
    with the strength. *)

Definition computed_stresses
    (area Ix Iy J warping_constant flange_width flange_thickness section_depth kdes
     web_thickness unbraced_length_x unbraced_length_y unbraced_length_z yield_stress
     elastic_modulus shear_modulus kx ky kz x_brace_offset y_brace_offset : R)
    (flexural torsional Fn Ae : R) : Prop :=
  let rx := sqrt (Ix / area) in
  let ry := sqrt (Iy / area) in
  let design_slenderness :=
    Rmax (kx * nonzero_length unbraced_length_x / rx)
         (ky * nonzero_length unbraced_length_y / ry) in
  nominal_flexural_buckling_stress yield_stress None (Some design_slenderness)
    elastic_modulus = Ok flexural
  /\ torsional_stage yield_stress (nonzero_length unbraced_length_z * kz)
       warping_constant Ix Iy J area (calc_r0 rx ry x_brace_offset y_brace_offset)
       (section_depth - flange_thickness) x_brace_offset y_brace_offset
       elastic_modulus shear_modulus = Ok torsional
  /\ Fn = Rmin flexural torsional
  /\ w_section_effective_area area flange_width flange_thickness section_depth kdes
       web_thickness yield_stress Fn = Ok Ae.

Definition returned_capacity (design_method : string) (return_report : bool)
    (Fn Ae : R) (value : capacity_value) : Prop :=
  exists p,
    design_strength design_method (Fn * Ae) = Some p
    /\ (return_report = false -> value = Strength p)
    /\ (return_report = true ->
        exists rows label,
          value = Report rows
          /\ dict_get rows "Governing nominal buckling stress, Fn"
             = Some (Fn, "stress"%string)
          /\ dict_get rows "Effective area accounting for slender elements, Ae (Sect. E7)"
             = Some (Ae, "area"%string)
          /\ dict_get rows "Nominal compressive strength, Pn (Eqns E3-1, E4-1, E7-1)"
             = Some (Fn * Ae, "force"%string)
          /\ last rows (""%string, (0, ""%string)) = (label, (p, "force"%string))).

(** ** The section table

    The labels [w_section_capacity_from_series] reads, in the order it reads
    them, and the bound a keyword argument of [sections_filter] puts on a
    row. *)

Definition section_labels : list string :=
  ["A"; "Ix"; "Iy"; "J"; "Cw"; "bf"; "tf"; "d"; "kdes"; "tw"]%string.

Definition meets_bound (columns : list string) (operator : string) (row : frame_row)
    (bound : string * R) : bool :=
  match get_loc columns (fst bound) with
  | Some position =>
      if String.eqb operator "ge" then py_ge (cell position row) (snd bound)
      else py_le (cell position row) (snd bound)
  | None => false
  end.

Definition meets_bounds (columns : list string) (operator : string)
    (kwargs : list (string * R)) (row : frame_row) : bool :=
  forallb (meets_bound columns operator row) kwargs.

(** The units table of [app.py]: the dimension tags it can print. *)
Definition units : list string := [""; "force"; "stress"; "area"]%string.

(** The frame of [test_sections_db.py] and the W10X33 of [test_compression.py]
    as a row of the section table. *)
Definition test_df : DataFrame :=
  {| frame_columns := ["A"; "B"; "C"; "D"]%string;
     frame_rows := [ ("0"%string, [3; 4; 5; 6]); ("1"%string, [6; 8; 10; 12]);
                     ("2"%string, [9; 12; 15; 18]); ("3"%string, [12; 16; 20; 24]) ] |}.

Definition W10X33 : Series :=
  [ ("W"%string, 33); ("A"%string, 9.71); ("d"%string, 9.73); ("bf"%string, 7.96);
    ("tw"%string, 0.290); ("tf"%string, 0.435); ("kdes"%string, 0.935);
    ("Ix"%string, 171); ("Iy"%string, 36.6); ("J"%string, 0.583); ("Cw"%string, 791) ].

(** * Properties *)

(** ** The arithmetic primitives *)

Lemma bind_Ok_inv {A B : Type} (m : result A) (k : A -> result B) (b : B) :
  bind m k = Ok b -> exists a, m = Ok a /\ k a = Ok b.
Proof.
  destruct m as [a|e]; simpl; intros H; [exists a; auto | discriminate].
Qed.

Lemma py_div_Ok (x y : R) : y <> 0 -> py_div x y = Ok (x / y).
Proof.
  intros Hy. unfold py_div. destruct (Req_dec_T y 0); [contradiction | reflexivity].
Qed.

Lemma py_div_inv (x y q : R) : py_div x y = Ok q -> y <> 0 /\ q = x / y.
Proof.
  unfold py_div. destruct (Req_dec_T y 0); [discriminate|].
  intros H; injection H as <-; auto.
Qed.

Lemma py_div_zero (x : R) : py_div x 0 = Raise ZeroDivisionError.
Proof.
  unfold py_div. destruct (Req_dec_T 0 0); [reflexivity | contradiction].
Qed.

Lemma py_sqrt_Ok (x : R) : 0 <= x -> py_sqrt x = Ok (sqrt x).
Proof.
  intros Hx. unfold py_sqrt. destruct (Rlt_dec x 0); [lra | reflexivity].
Qed.

Lemma py_sqrt_inv (x s : R) : py_sqrt x = Ok s -> 0 <= x /\ s = sqrt x.
Proof.
  unfold py_sqrt. destruct (Rlt_dec x 0); [discriminate|].
  intros H; injection H as <-; split; [lra | reflexivity].
Qed.

Lemma py_min_Rmin (a b : R) : py_min a b = Rmin a b.
Proof.
  unfold py_min, Rmin.
  destruct (Rlt_dec b a), (Rle_dec a b); try reflexivity; lra.
Qed.

Lemma py_max_Rmax (a b : R) : py_max a b = Rmax a b.
Proof.
  unfold py_max, Rmax.
  destruct (Rlt_dec a b), (Rle_dec a b); try reflexivity; lra.
Qed.

Lemma py_gt_true (a b : R) : py_gt a b = true <-> a > b.
Proof.
  unfold py_gt. destruct (Rgt_dec a b); split; intros; try discriminate; auto; contradiction.
Qed.

Lemma py_le_true (a b : R) : py_le a b = true <-> a <= b.
Proof.
  unfold py_le. destruct (Rle_dec a b); split; intros; try discriminate; auto; contradiction.
Qed.

Lemma truthy_true (x : R) : truthy x = true <-> x <> 0.
Proof.
  unfold truthy. destruct (Req_dec_T x 0); split; intros; try discriminate; auto; contradiction.
Qed.

Lemma truthy_false (x : R) : truthy x = false <-> x = 0.
Proof.
  unfold truthy. destruct (Req_dec_T x 0); split; intros; try discriminate; auto; contradiction.
Qed.

Lemma is_slender_comp_true (wt lim : R) : is_slender_comp wt lim = true <-> wt > lim.
Proof.
  unfold is_slender_comp. rewrite <- py_gt_true. destruct (py_gt wt lim); tauto.
Qed.

Lemma nonzero_length_zero : nonzero_length 0 = 0.00001.
Proof.
  unfold nonzero_length, py_eq. destruct (Req_dec_T 0 0); [reflexivity | contradiction].
Qed.

Lemma nonzero_length_other (L : R) : L <> 0 -> nonzero_length L = L.
Proof.
  intros HL. unfold nonzero_length, py_eq.
  destruct (Req_dec_T L 0); [contradiction | reflexivity].
Qed.

Lemma nonzero_length_neq (L : R) : nonzero_length L <> 0.
Proof.
  destruct (Req_dec_T L 0) as [->|HL].
  - rewrite nonzero_length_zero. lra.
  - rewrite nonzero_length_other; assumption.
Qed.

Lemma nonzero_length_idem (L : R) : nonzero_length (nonzero_length L) = nonzero_length L.
Proof. apply nonzero_length_other, nonzero_length_neq. Qed.

Lemma nonzero_length_pos (L : R) : 0 <= L -> 0 < nonzero_length L.
Proof.
  intros HL. destruct (Req_dec_T L 0) as [->|HL0].
  - rewrite nonzero_length_zero. lra.
  - rewrite nonzero_length_other; lra.
Qed.

(** The two slenderness values of [test_member_slenderness]. *)
Example member_slenderness_test_1 : member_slenderness 144.5 2.0 1.0 = Ok 72.25.
Proof. unfold member_slenderness. rewrite py_div_Ok by lra. f_equal. lra. Qed.

Example member_slenderness_test_2 : member_slenderness 166 1.6 0.8 = Ok 83.0.
Proof. unfold member_slenderness. rewrite py_div_Ok by lra. f_equal. lra. Qed.

(** ** [w_section_capacity] is its stages followed by [conclude] *)

Lemma OMEGA_C_neq : OMEGA_C <> 0.
Proof. unfold OMEGA_C. lra. Qed.

(** One step through a chain of binds: case analysis on the first
    computation of the left-hand side. *)
Ltac first_computation m :=
  lazymatch m with
  | bind ?m' _ => first_computation m'
  | _ => m
  end.

Ltac bind_step :=
  lazymatch goal with
  | |- bind ?m _ = _ =>
      let c := first_computation m in
      destruct c; cbn [bind fst snd]; [|reflexivity]
  end.

Lemma w_section_capacity_stages
    (area Ix Iy J warping_constant flange_width flange_thickness section_depth kdes
     web_thickness unbraced_length_x unbraced_length_y unbraced_length_z yield_stress : R)
    (design_method : string)
    (elastic_modulus shear_modulus kx ky kz x_brace_offset y_brace_offset : R)
    (return_report : bool) :
  w_section_capacity area Ix Iy J warping_constant flange_width flange_thickness
    section_depth kdes web_thickness unbraced_length_x unbraced_length_y unbraced_length_z
    yield_stress design_method elastic_modulus shear_modulus kx ky kz
    x_brace_offset y_brace_offset return_report
  = (s <- w_section_stages area Ix Iy J warping_constant flange_width flange_thickness
            section_depth kdes web_thickness unbraced_length_x unbraced_length_y
            unbraced_length_z yield_stress elastic_modulus shear_modulus kx ky kz
            x_brace_offset y_brace_offset ;;
     conclude s design_method x_brace_offset y_brace_offset return_report).
Proof.
  unfold w_section_capacity, w_section_stages, torsional_stage.
  do 7 bind_step.
  unfold conclude, design_strength, design_rows, nominal_report, torsional_label,
    stage_warnings, stage_notes, st_nominal_strength, st_nominal_stress,
    st_design_slenderness.
  destruct (truthy x_brace_offset || truthy y_brace_offset)%bool;
    do 3 bind_step; cbn [st_slenderness_x st_slenderness_y st_flexural st_torsional
                         st_effective_area st_slender].
  all: rewrite (py_div_Ok _ OMEGA_C OMEGA_C_neq); cbn [bind].
  all: destruct (String.eqb design_method "nominal"), (String.eqb design_method "LRFD"),
         (String.eqb design_method "ASD"), return_report,
         (truthy x_brace_offset && truthy y_brace_offset)%bool,
         (py_gt (py_max a3 a4) 200), a8; reflexivity.
Qed.

(** ** Closed forms of the component functions *)

Lemma critical_stress_pos (Fy Fe : R) : 0 < Fy -> 0 < Fe -> 0 < critical_stress Fy Fe.
Proof.
  intros HFy HFe. unfold critical_stress, py_pow, Rpower.
  destruct (py_le (Fy / Fe) 2.25).
  - apply Rmult_lt_0_compat; [apply exp_pos | assumption].
  - lra.
Qed.

Lemma nominal_flexural_given (Fy Fe : R) (sl : option R) (E : R) :
  Fe <> 0 ->
  nominal_flexural_buckling_stress Fy (Some Fe) sl E = Ok (critical_stress Fy Fe).
Proof.
  intros HFe. unfold nominal_flexural_buckling_stress.
  apply truthy_true in HFe as Ht. rewrite Ht. cbn [bind].
  rewrite py_div_Ok by assumption. cbn [bind]. unfold critical_stress.
  destruct (py_le (Fy / Fe) 2.25); reflexivity.
Qed.

Lemma pow2_neq (x : R) : x <> 0 -> x ^ 2 <> 0.
Proof. intros Hx. apply pow_nonzero. assumption. Qed.

Lemma pow2_pos (x : R) : x <> 0 -> 0 < x ^ 2.
Proof.
  intros Hx. apply Rsqr_pos_lt in Hx. unfold Rsqr in Hx.
  replace (x ^ 2) with (x * x) by ring. assumption.
Qed.

Lemma elastic_buckling_stress_Ok (sl E : R) :
  sl <> 0 -> elastic_buckling_stress sl E = Ok (PI ^ 2 * E / sl ^ 2).
Proof. intros Hsl. apply py_div_Ok, pow2_neq, Hsl. Qed.

Lemma euler_stress_pos (sl E : R) : sl <> 0 -> 0 < E -> 0 < PI ^ 2 * E / sl ^ 2.
Proof.
  intros Hsl HE. apply Rdiv_lt_0_compat; [|apply pow2_pos, Hsl].
  apply Rmult_lt_0_compat; [apply pow2_pos, PI_neq0 | assumption].
Qed.

Lemma nominal_flexural_from_slenderness (Fy sl E : R) :
  sl <> 0 -> 0 < E ->
  nominal_flexural_buckling_stress Fy None (Some sl) E
  = Ok (critical_stress Fy (PI ^ 2 * E / sl ^ 2)).
Proof.
  intros Hsl HE. pose proof (euler_stress_pos sl E Hsl HE) as Hpos.
  unfold nominal_flexural_buckling_stress.
  rewrite elastic_buckling_stress_Ok by assumption. cbn [bind].
  rewrite py_div_Ok by lra. cbn [bind]. unfold critical_stress.
  destruct (py_le _ 2.25); reflexivity.
Qed.

Lemma ft_doubly_symmetric_Ok (Lcz Cw Ix Iy J E G : R) :
  Lcz <> 0 -> Ix + Iy <> 0 ->
  ft_elastic_buckling_stress_doubly_symmetric Lcz Cw Ix Iy J E G
  = Ok (doubly_symmetric_stress Lcz Cw Ix Iy J E G).
Proof.
  intros HL HI. unfold ft_elastic_buckling_stress_doubly_symmetric.
  rewrite py_div_Ok by (apply pow2_neq, HL). cbn [bind].
  rewrite py_div_Ok by assumption. reflexivity.
Qed.

Lemma doubly_symmetric_stress_pos (Lcz Cw Ix Iy J E G : R) :
  Lcz <> 0 -> 0 < Cw -> 0 < Ix -> 0 < Iy -> 0 < J -> 0 < E -> 0 < G ->
  0 < doubly_symmetric_stress Lcz Cw Ix Iy J E G.
Proof.
  intros HL HCw HIx HIy HJ HE HG. unfold doubly_symmetric_stress.
  pose proof (pow2_pos Lcz HL) as HL2. pose proof (pow2_pos PI PI_neq0) as HPI.
  assert (0 < PI ^ 2 * E * Cw / Lcz ^ 2).
  { apply Rdiv_lt_0_compat; [|assumption].
    apply Rmult_lt_0_compat; [apply Rmult_lt_0_compat|]; assumption. }
  assert (0 < G * J) by (apply Rmult_lt_0_compat; assumption).
  apply Rdiv_lt_0_compat; lra.
Qed.

Lemma ft_minor_axis_offset_Ok (Lcz Iy J A r0 h0 ya E G : R) :
  Lcz <> 0 -> A <> 0 -> r0 <> 0 ->
  ft_elastic_buckling_stress_i_minor_axis_offset Lcz Iy J A r0 h0 ya E G
  = Ok (minor_axis_offset_stress Lcz Iy J A r0 h0 ya E G).
Proof.
  intros HL HA Hr. unfold ft_elastic_buckling_stress_i_minor_axis_offset.
  rewrite py_div_Ok by (apply pow2_neq, HL). cbn [bind].
  rewrite py_div_Ok; [reflexivity|].
  apply Rmult_integral_contrapositive_currified; [assumption | apply pow2_neq, Hr].
Qed.

Lemma ft_major_axis_offset_Ok (Lcz Ix Iy J A r0 h0 xa E G : R) :
  Lcz <> 0 -> Iy <> 0 -> A <> 0 -> r0 <> 0 ->
  ft_elastic_buckling_stress_i_major_axis_offset Lcz Ix Iy J A r0 h0 xa E G
  = Ok (major_axis_offset_stress Lcz Ix Iy J A r0 h0 xa E G).
Proof.
  intros HL HIy HA Hr. unfold ft_elastic_buckling_stress_i_major_axis_offset.
  rewrite py_div_Ok by (apply pow2_neq, HL). cbn [bind].
  rewrite py_div_Ok by assumption. cbn [bind].
  rewrite py_div_Ok; [reflexivity|].
  apply Rmult_integral_contrapositive_currified; [assumption | apply pow2_neq, Hr].
Qed.

Lemma pow2_nonneg (x : R) : 0 <= x ^ 2.
Proof. replace (x ^ 2) with (x * x) by ring. apply Rle_0_sqr. Qed.

Lemma offset_stress_pos (w t G J A r0 : R) :
  0 <= w -> 0 <= t -> 0 < G -> 0 < J -> 0 < A -> r0 <> 0 ->
  0 < (w * t + G * J) * 1 / (A * r0 ^ 2).
Proof.
  intros Hw Ht HG HJ HA Hr.
  assert (0 <= w * t) by (apply Rmult_le_pos; assumption).
  assert (0 < G * J) by (apply Rmult_lt_0_compat; assumption).
  apply Rdiv_lt_0_compat; [lra|].
  apply Rmult_lt_0_compat; [assumption | apply pow2_pos, Hr].
Qed.

Lemma warping_term_nonneg (E Iy Lcz : R) :
  0 < E -> 0 < Iy -> Lcz <> 0 -> 0 <= PI ^ 2 * E * Iy / Lcz ^ 2.
Proof.
  intros HE HIy HL. apply Rlt_le, Rdiv_lt_0_compat; [|apply pow2_pos, HL].
  apply Rmult_lt_0_compat; [apply Rmult_lt_0_compat|]; try assumption.
  apply pow2_pos, PI_neq0.
Qed.

Lemma minor_axis_offset_stress_pos (Lcz Iy J A r0 h0 ya E G : R) :
  Lcz <> 0 -> 0 < Iy -> 0 < J -> 0 < A -> r0 <> 0 -> 0 < E -> 0 < G ->
  0 < minor_axis_offset_stress Lcz Iy J A r0 h0 ya E G.
Proof.
  intros HL HIy HJ HA Hr HE HG. unfold minor_axis_offset_stress.
  apply offset_stress_pos; try assumption.
  - apply warping_term_nonneg; assumption.
  - pose proof (pow2_nonneg h0). pose proof (pow2_nonneg ya). lra.
Qed.

Lemma major_axis_offset_stress_pos (Lcz Ix Iy J A r0 h0 xa E G : R) :
  Lcz <> 0 -> 0 < Ix -> 0 < Iy -> 0 < J -> 0 < A -> r0 <> 0 -> 0 < E -> 0 < G ->
  0 < major_axis_offset_stress Lcz Ix Iy J A r0 h0 xa E G.
Proof.
  intros HL HIx HIy HJ HA Hr HE HG. unfold major_axis_offset_stress.
  apply offset_stress_pos; try assumption.
  - apply warping_term_nonneg; assumption.
  - pose proof (pow2_nonneg h0). pose proof (pow2_nonneg xa).
    assert (0 < Ix / Iy) by (apply Rdiv_lt_0_compat; assumption).
    assert (0 <= Ix / Iy * xa ^ 2) by (apply Rmult_le_pos; lra).
    lra.
Qed.

Lemma py_min_pos (a b : R) : 0 < a -> 0 < b -> 0 < py_min a b.
Proof. intros Ha Hb. unfold py_min. destruct (Rlt_dec b a); assumption. Qed.

Lemma nominal_ft_doubly_symmetric_Ok (Fy Lcz Cw Ix Iy J E G : R) :
  Lcz <> 0 -> 0 < Cw -> 0 < Ix -> 0 < Iy -> 0 < J -> 0 < E -> 0 < G ->
  nominal_ft_buckling_stress_doubly_symmetric Fy Lcz Cw Ix Iy J E G
  = Ok (critical_stress Fy (doubly_symmetric_stress Lcz Cw Ix Iy J E G)).
Proof.
  intros HL HCw HIx HIy HJ HE HG.
  pose proof (doubly_symmetric_stress_pos Lcz Cw Ix Iy J E G HL HCw HIx HIy HJ HE HG).
  unfold nominal_ft_buckling_stress_doubly_symmetric.
  rewrite ft_doubly_symmetric_Ok by lra. cbn [bind].
  apply nominal_flexural_given. lra.
Qed.

Lemma nominal_ft_bracing_offset_Ok (Fy Lcz Ix Iy J A r0 h0 xa ya E G : R) :
  Lcz <> 0 -> 0 < Ix -> 0 < Iy -> 0 < J -> 0 < A -> r0 <> 0 -> 0 < E -> 0 < G ->
  nominal_ft_buckling_stress_i_bracing_offset Fy Lcz Ix Iy J A r0 h0 xa ya E G
  = Ok (critical_stress Fy
          (py_min (major_axis_offset_stress Lcz Ix Iy J A r0 h0 xa E G)
                  (minor_axis_offset_stress Lcz Iy J A r0 h0 ya E G))).
Proof.
  intros HL HIx HIy HJ HA Hr HE HG.
  pose proof (major_axis_offset_stress_pos Lcz Ix Iy J A r0 h0 xa E G
                HL HIx HIy HJ HA Hr HE HG).
  pose proof (minor_axis_offset_stress_pos Lcz Iy J A r0 h0 ya E G HL HIy HJ HA Hr HE HG).
  unfold nominal_ft_buckling_stress_i_bracing_offset.
  rewrite ft_major_axis_offset_Ok by lra. cbn [bind].
  rewrite ft_minor_axis_offset_Ok by lra. cbn [bind].
  apply nominal_flexural_given.
  apply Rgt_not_eq, Rlt_gt, py_min_pos; assumption.
Qed.

(** ** Limiting ratios and the slenderness classification *)

(** Inversion of a successful chain of binds in a hypothesis. *)
Ltac invert_Ok :=
  repeat match goal with
         | H : bind _ _ = Ok _ |- _ =>
             let a := fresh "v" in
             let Ha := fresh "Hv" in
             apply bind_Ok_inv in H; destruct H as (a & Ha & H)
         | H : py_div _ _ = Ok _ |- _ =>
             let Hn := fresh "Hnz" in
             apply py_div_inv in H; destruct H as (Hn & H)
         | H : py_sqrt _ = Ok _ |- _ =>
             let Hn := fresh "Hnn" in
             apply py_sqrt_inv in H; destruct H as (Hn & H)
         | H : Ok _ = Ok _ |- _ => injection H as H
         end.

Lemma limiting_wt_ratio_root (c E Fy : R) :
  0 <= E -> 0 < Fy ->
  (q <- py_div E Fy ;; s <- py_sqrt q ;; Ok (c * s)) = Ok (c * sqrt (E / Fy)).
Proof.
  intros HE HFy. rewrite py_div_Ok by lra. cbn [bind].
  rewrite py_sqrt_Ok; [reflexivity|].
  apply Rmult_le_pos; [assumption | apply Rlt_le, Rinv_0_lt_compat, HFy].
Qed.

Lemma limiting_wt_ratio_flange (E Fy : R) (kc : option R) :
  0 <= E -> 0 < Fy -> limiting_wt_ratio_comp 1 E Fy kc = Ok (0.56 * sqrt (E / Fy)).
Proof. intros. cbn [limiting_wt_ratio_comp]. apply limiting_wt_ratio_root; assumption. Qed.

Lemma limiting_wt_ratio_web (E Fy : R) (kc : option R) :
  0 <= E -> 0 < Fy -> limiting_wt_ratio_comp 5 E Fy kc = Ok (1.49 * sqrt (E / Fy)).
Proof. intros. cbn [limiting_wt_ratio_comp]. apply limiting_wt_ratio_root; assumption. Qed.

Lemma limiting_wt_ratio_flange_inv (E Fy l : R) (kc : option R) :
  limiting_wt_ratio_comp 1 E Fy kc = Ok l -> l = 0.56 * sqrt (E / Fy).
Proof. cbn [limiting_wt_ratio_comp]. intros H. invert_Ok. subst. reflexivity. Qed.

Lemma limiting_wt_ratio_web_inv (E Fy l : R) (kc : option R) :
  limiting_wt_ratio_comp 5 E Fy kc = Ok l -> l = 1.49 * sqrt (E / Fy).
Proof. cbn [limiting_wt_ratio_comp]. intros H. invert_Ok. subst. reflexivity. Qed.

Lemma w_is_slender_comp_inv (bf tf d kdes tw Fy E : R) (b : bool) :
  w_is_slender_comp bf tf d kdes tw Fy E = Ok b ->
  (b = true <-> w_slender_condition bf tf d kdes tw Fy E).
Proof.
  unfold w_is_slender_comp, w_slender_condition. intros H.
  apply bind_Ok_inv in H as (fr & Hfr & H). apply py_div_inv in Hfr as (_ & ->).
  apply bind_Ok_inv in H as (wr & Hwr & H). apply py_div_inv in Hwr as (_ & ->).
  apply bind_Ok_inv in H as (lf & Hlf & H). apply limiting_wt_ratio_flange_inv in Hlf as ->.
  apply bind_Ok_inv in H as (lw & Hlw & H). apply limiting_wt_ratio_web_inv in Hlw as ->.
  rewrite <- !py_gt_true.
  destruct (py_gt (bf / (2 * tf)) _), (py_gt ((d - kdes) / tw) _);
    cbn in H; injection H as <-; intuition discriminate.
Qed.

Lemma w_is_slender_comp_Ok (bf tf d kdes tw Fy E : R) :
  tf <> 0 -> tw <> 0 -> 0 < Fy -> 0 <= E ->
  exists b, w_is_slender_comp bf tf d kdes tw Fy E = Ok b.
Proof.
  intros Htf Htw HFy HE. unfold w_is_slender_comp.
  rewrite py_div_Ok by lra. cbn [bind].
  rewrite py_div_Ok by assumption. cbn [bind].
  rewrite limiting_wt_ratio_flange, limiting_wt_ratio_web by assumption. cbn [bind].
  match goal with |- context [if ?c then _ else _] => destruct c end; eauto.
Qed.

(** ** Effective width and effective area (Section E7) *)

Lemma elastic_local_buckling_stress_Ok (c2 ratio limit Fy : R) :
  ratio <> 0 ->
  elastic_local_buckling_stress c2 ratio limit Fy
  = Ok (local_buckling_stress c2 ratio limit Fy).
Proof.
  intros Hr. unfold elastic_local_buckling_stress.
  rewrite py_div_Ok by assumption. reflexivity.
Qed.

Lemma local_buckling_stress_nonneg (c2 ratio limit Fy : R) :
  0 < Fy -> 0 <= local_buckling_stress c2 ratio limit Fy.
Proof.
  intros HFy. unfold local_buckling_stress.
  apply Rmult_le_pos; [apply pow2_nonneg | lra].
Qed.

Lemma effective_width_Ok (b ratio limit c1 c2 Fy Fn : R) :
  0 < Fy -> 0 < Fn ->
  effective_width b ratio limit Fy Fn (local_buckling_stress c2 ratio limit Fy) c1
  = Ok (effective_width_formula b ratio limit c1 c2 Fy Fn).
Proof.
  intros HFy HFn. unfold effective_width, effective_width_formula.
  pose proof (Rinv_0_lt_compat Fn HFn) as Hinv.
  rewrite py_div_Ok by lra. cbn [bind].
  rewrite py_sqrt_Ok by (apply Rmult_le_pos; lra). cbn [bind].
  unfold py_le. destruct (Rle_dec ratio (limit * sqrt (Fy / Fn))); [reflexivity|].
  rewrite py_div_Ok by lra. cbn [bind].
  rewrite py_sqrt_Ok; [reflexivity|].
  apply Rmult_le_pos; [apply local_buckling_stress_nonneg, HFy | lra].
Qed.

Lemma STEEL_ELASTIC_MODULUS_pos : 0 < STEEL_ELASTIC_MODULUS.
Proof. unfold STEEL_ELASTIC_MODULUS. lra. Qed.

Lemma w_section_effective_area_Ok (A bf tf d kdes tw Fy Fn : R) :
  bf <> 0 -> tf <> 0 -> d - 2 * kdes <> 0 -> tw <> 0 -> 0 < Fy -> 0 < Fn ->
  w_section_effective_area A bf tf d kdes tw Fy Fn
  = Ok (effective_area_formula A bf tf d kdes tw Fy Fn).
Proof.
  intros Hbf Htf Hh Htw HFy HFn. pose proof STEEL_ELASTIC_MODULUS_pos as HE.
  assert (Hfr : bf / (2 * tf) <> 0).
  { apply Rmult_integral_contrapositive_currified; [assumption|].
    apply Rinv_neq_0_compat. lra. }
  assert (Hwr : (d - 2 * kdes) / tw <> 0).
  { apply Rmult_integral_contrapositive_currified; [assumption|].
    apply Rinv_neq_0_compat. assumption. }
  unfold w_section_effective_area.
  rewrite py_div_Ok by lra. cbn [bind].
  rewrite py_div_Ok by assumption. cbn [bind].
  rewrite limiting_wt_ratio_flange by lra. cbn [bind].
  rewrite elastic_local_buckling_stress_Ok by assumption. cbn [bind].
  rewrite effective_width_Ok by assumption. cbn [bind].
  rewrite limiting_wt_ratio_web by lra. cbn [bind].
  rewrite elastic_local_buckling_stress_Ok by assumption. cbn [bind].
  rewrite effective_width_Ok by assumption. cbn [bind].
  unfold effective_area_formula, is_slender_comp, effective_flange_width_formula,
    effective_web_height_formula, flange_limit, web_limit.
  cbn [EFFECTIVE_WIDTH_ADJUSTMENT_FACTORS factor_c1 factor_c2 fst snd].
  destruct (py_gt (bf / (2 * tf)) _), (py_gt ((d - 2 * kdes) / tw) _); reflexivity.
Qed.

(** ** What the stages compute *)

Section Stages.

Variables area Ix Iy J warping_constant flange_width flange_thickness section_depth
  kdes web_thickness unbraced_length_x unbraced_length_y unbraced_length_z
  yield_stress elastic_modulus shear_modulus kx ky kz x_brace_offset y_brace_offset : R.

Let run_stages : result stages :=
  w_section_stages area Ix Iy J warping_constant flange_width flange_thickness
    section_depth kdes web_thickness unbraced_length_x unbraced_length_y
    unbraced_length_z yield_stress elastic_modulus shear_modulus kx ky kz
    x_brace_offset y_brace_offset.

(** Every successful run computed its quantities by these equations. *)
Lemma w_section_stages_inv (s : stages) :
  run_stages = Ok s ->
  st_rx s = sqrt (Ix / area)
  /\ st_ry s = sqrt (Iy / area)
  /\ st_slenderness_x s = kx * nonzero_length unbraced_length_x / st_rx s
  /\ st_slenderness_y s = ky * nonzero_length unbraced_length_y / st_ry s
  /\ nominal_flexural_buckling_stress yield_stress None
       (Some (st_design_slenderness s)) elastic_modulus = Ok (st_flexural s)
  /\ torsional_stage yield_stress (nonzero_length unbraced_length_z * kz)
       warping_constant Ix Iy J area
       (calc_r0 (st_rx s) (st_ry s) x_brace_offset y_brace_offset)
       (section_depth - flange_thickness) x_brace_offset y_brace_offset
       elastic_modulus shear_modulus = Ok (st_torsional s)
  /\ w_section_effective_area area flange_width flange_thickness section_depth kdes
       web_thickness yield_stress (st_nominal_stress s) = Ok (st_effective_area s)
  /\ w_is_slender_comp flange_width flange_thickness section_depth kdes web_thickness
       yield_stress elastic_modulus = Ok (st_slender s).
Proof.
  unfold run_stages, w_section_stages, member_slenderness. intros H.
  apply bind_Ok_inv in H as (qx & Hqx & H). apply py_div_inv in Hqx as (_ & ->).
  apply bind_Ok_inv in H as (rx & Hrx & H). apply py_sqrt_inv in Hrx as (_ & ->).
  apply bind_Ok_inv in H as (qy & Hqy & H). apply py_div_inv in Hqy as (_ & ->).
  apply bind_Ok_inv in H as (ry & Hry & H). apply py_sqrt_inv in Hry as (_ & ->).
  apply bind_Ok_inv in H as (sx & Hsx & H). apply py_div_inv in Hsx as (_ & ->).
  apply bind_Ok_inv in H as (sy & Hsy & H). apply py_div_inv in Hsy as (_ & ->).
  apply bind_Ok_inv in H as (flex & Hflex & H).
  apply bind_Ok_inv in H as (tors & Htors & H).
  apply bind_Ok_inv in H as (ae & Hae & H).
  apply bind_Ok_inv in H as (sl & Hsl & H).
  injection H as <-. cbn. repeat split; assumption.
Qed.

(** Under the preconditions every stage succeeds, and the governing
    nominal stress is positive. *)
Lemma w_section_stages_total :
  valid_section area Ix Iy J warping_constant flange_width flange_thickness
    section_depth kdes web_thickness ->
  valid_material yield_stress elastic_modulus shear_modulus ->
  valid_bracing unbraced_length_x unbraced_length_y unbraced_length_z kx ky kz ->
  exists s, run_stages = Ok s /\ 0 < st_nominal_stress s.
Proof.
  intros (HA & HIx & HIy & HJ & HCw & Hbf & Htf & Htw & Hk & Hd)
         (HFy & HE & HG) (Hkx & Hky & Hkz & HLx & HLy & HLz).
  pose proof (nonzero_length_pos _ HLx) as HLx'.
  pose proof (nonzero_length_pos _ HLy) as HLy'.
  pose proof (nonzero_length_pos _ HLz) as HLz'.
  assert (Hqx : 0 < Ix / area) by (apply Rdiv_lt_0_compat; assumption).
  assert (Hqy : 0 < Iy / area) by (apply Rdiv_lt_0_compat; assumption).
  pose proof (sqrt_lt_R0 _ Hqx) as Hrx. pose proof (sqrt_lt_R0 _ Hqy) as Hry.
  set (rx := sqrt (Ix / area)) in *. set (ry := sqrt (Iy / area)) in *.
  assert (Hsx : 0 < kx * nonzero_length unbraced_length_x / rx).
  { apply Rdiv_lt_0_compat; [apply Rmult_lt_0_compat|]; assumption. }
  assert (Hsy : 0 < ky * nonzero_length unbraced_length_y / ry).
  { apply Rdiv_lt_0_compat; [apply Rmult_lt_0_compat|]; assumption. }
  set (sx := kx * nonzero_length unbraced_length_x / rx) in *.
  set (sy := ky * nonzero_length unbraced_length_y / ry) in *.
  assert (Hsl : py_max sx sy <> 0).
  { unfold py_max. destruct (Rlt_dec sx sy); lra. }
  assert (HLcz : nonzero_length unbraced_length_z * kz <> 0).
  { apply Rgt_not_eq, Rlt_gt, Rmult_lt_0_compat; assumption. }
  assert (Hr0 : calc_r0 rx ry x_brace_offset y_brace_offset <> 0).
  { unfold calc_r0. pose proof (pow2_pos rx ltac:(lra)).
    pose proof (pow2_nonneg ry). pose proof (pow2_nonneg x_brace_offset).
    pose proof (pow2_nonneg y_brace_offset). lra. }
  pose proof (critical_stress_pos yield_stress _ HFy
                (euler_stress_pos _ _ Hsl HE)) as Hflex.
  assert (Htors : exists tors,
    torsional_stage yield_stress (nonzero_length unbraced_length_z * kz)
      warping_constant Ix Iy J area (calc_r0 rx ry x_brace_offset y_brace_offset)
      (section_depth - flange_thickness) x_brace_offset y_brace_offset
      elastic_modulus shear_modulus = Ok tors /\ 0 < tors).
  { unfold torsional_stage.
    destruct (truthy x_brace_offset || truthy y_brace_offset)%bool.
    - rewrite nominal_ft_bracing_offset_Ok by assumption.
      eexists; split; [reflexivity|].
      apply critical_stress_pos; [assumption|]. apply py_min_pos.
      + apply major_axis_offset_stress_pos; assumption.
      + apply minor_axis_offset_stress_pos; assumption.
    - rewrite nominal_ft_doubly_symmetric_Ok by assumption.
      eexists; split; [reflexivity|].
      apply critical_stress_pos; [assumption|].
      apply doubly_symmetric_stress_pos; assumption. }
  destruct Htors as (tors & Htors & Htors_pos).
  pose proof (py_min_pos _ _ Hflex Htors_pos) as HFn.
  destruct (w_is_slender_comp_Ok flange_width flange_thickness section_depth kdes
              web_thickness yield_stress elastic_modulus) as (sl & Hslender);
    try lra.
  unfold run_stages, w_section_stages, member_slenderness.
  rewrite py_div_Ok by lra. cbn [bind]. rewrite py_sqrt_Ok by lra. cbn [bind].
  rewrite py_div_Ok by lra. cbn [bind]. rewrite py_sqrt_Ok by lra. cbn [bind].
  fold rx ry.
  rewrite py_div_Ok by lra. cbn [bind]. rewrite py_div_Ok by lra. cbn [bind].
  fold sx sy.
  rewrite nominal_flexural_from_slenderness by assumption. cbn [bind].
  rewrite Htors. cbn [bind].
  rewrite w_section_effective_area_Ok by (assumption || lra). cbn [bind].
  rewrite Hslender. cbn [bind].
  eexists; split; [reflexivity|]. exact HFn.
Qed.

End Stages.

(** ** What [conclude] returns *)

Lemma conclude_inv (s : stages) (design_method : string) (xa ya : R) (return_report : bool)
    (v : capacity_value) (w n : list string) :
  conclude s design_method xa ya return_report = Ok (v, w, n) ->
  exists p,
    design_strength design_method (st_nominal_strength s) = Some p
    /\ v = (if return_report
            then Report (nominal_report s xa ya
                         ++ design_rows design_method (st_nominal_strength s))
            else Strength p)
    /\ w = stage_warnings s xa ya
    /\ n = stage_notes s.
Proof.
  unfold conclude. destruct (design_strength _ _) as [p|]; [|discriminate].
  intros H. injection H as <- <- <-. exists p. repeat split.
Qed.

Lemma w_section_capacity_inv
    (area Ix Iy J warping_constant flange_width flange_thickness section_depth kdes
     web_thickness unbraced_length_x unbraced_length_y unbraced_length_z yield_stress : R)
    (design_method : string)
    (elastic_modulus shear_modulus kx ky kz x_brace_offset y_brace_offset : R)
    (return_report : bool) (r : capacity_value * list string * list string) :
  w_section_capacity area Ix Iy J warping_constant flange_width flange_thickness
    section_depth kdes web_thickness unbraced_length_x unbraced_length_y unbraced_length_z
    yield_stress design_method elastic_modulus shear_modulus kx ky kz
    x_brace_offset y_brace_offset return_report = Ok r ->
  exists s,
    w_section_stages area Ix Iy J warping_constant flange_width flange_thickness
      section_depth kdes web_thickness unbraced_length_x unbraced_length_y
      unbraced_length_z yield_stress elastic_modulus shear_modulus kx ky kz
      x_brace_offset y_brace_offset = Ok s
    /\ conclude s design_method x_brace_offset y_brace_offset return_report = Ok r.
Proof.
  rewrite w_section_capacity_stages. apply bind_Ok_inv.
Qed.

Lemma design_strength_recognised (design_method : string) (Pn : R) :
  recognised design_method -> exists p, design_strength design_method Pn = Some p.
Proof.
  intros [-> | [-> | ->]]; cbn; eauto.
Qed.

Lemma design_strength_unrecognised (design_method : string) (Pn : R) :
  ~ recognised design_method -> design_strength design_method Pn = None.
Proof.
  intros Hdm. unfold design_strength, recognised in *.
  destruct (String.eqb_spec design_method "nominal"); [tauto|].
  destruct (String.eqb_spec design_method "LRFD"); [tauto|].
  destruct (String.eqb_spec design_method "ASD"); [tauto|reflexivity].
Qed.

Lemma dict_get_nominal_report (s : stages) (xa ya : R) (extra : list report_row) :
  let rows := nominal_report s xa ya ++ extra in
  dict_get rows "Governing slenderness ratio, Lc/r"
    = Some (st_design_slenderness s, ""%string)
  /\ dict_get rows "Nominal flexural buckling stress (Eqns E3-2, E3-3)"
    = Some (st_flexural s, "stress"%string)
  /\ dict_get rows (torsional_label xa ya) = Some (st_torsional s, "stress"%string)
  /\ dict_get rows "Governing nominal buckling stress, Fn"
    = Some (st_nominal_stress s, "stress"%string)
  /\ dict_get rows "Effective area accounting for slender elements, Ae (Sect. E7)"
    = Some (st_effective_area s, "area"%string)
  /\ dict_get rows "Nominal compressive strength, Pn (Eqns E3-1, E4-1, E7-1)"
    = Some (st_nominal_strength s, "force"%string).
Proof.
  unfold nominal_report, torsional_label.
  destruct (truthy xa || truthy ya)%bool; repeat split.
Qed.

(** ** Totality *)

Lemma w_section_capacity_returns
    (area Ix Iy J warping_constant flange_width flange_thickness section_depth kdes
     web_thickness unbraced_length_x unbraced_length_y unbraced_length_z yield_stress : R)
    (design_method : string)
    (elastic_modulus shear_modulus kx ky kz x_brace_offset y_brace_offset : R)
    (return_report : bool) :
  valid_section area Ix Iy J warping_constant flange_width flange_thickness
    section_depth kdes web_thickness ->
  valid_material yield_stress elastic_modulus shear_modulus ->
  valid_bracing unbraced_length_x unbraced_length_y unbraced_length_z kx ky kz ->
  recognised design_method ->
  exists s p,
    w_section_stages area Ix Iy J warping_constant flange_width flange_thickness
      section_depth kdes web_thickness unbraced_length_x unbraced_length_y
      unbraced_length_z yield_stress elastic_modulus shear_modulus kx ky kz
      x_brace_offset y_brace_offset = Ok s
    /\ design_strength design_method (st_nominal_strength s) = Some p
    /\ w_section_capacity area Ix Iy J warping_constant flange_width flange_thickness
         section_depth kdes web_thickness unbraced_length_x unbraced_length_y
         unbraced_length_z yield_stress design_method elastic_modulus shear_modulus
         kx ky kz x_brace_offset y_brace_offset return_report
       = Ok (if return_report
             then Report (nominal_report s x_brace_offset y_brace_offset
                          ++ design_rows design_method (st_nominal_strength s))
             else Strength p,
             stage_warnings s x_brace_offset y_brace_offset, stage_notes s).
Proof.
  intros Hsec Hmat Hbr Hdm.
  destruct (w_section_stages_total area Ix Iy J warping_constant flange_width
              flange_thickness section_depth kdes web_thickness unbraced_length_x
              unbraced_length_y unbraced_length_z yield_stress elastic_modulus
              shear_modulus kx ky kz x_brace_offset y_brace_offset Hsec Hmat Hbr)
    as (s & Hs & _).
  destruct (design_strength_recognised design_method (st_nominal_strength s) Hdm)
    as (p & Hp).
  exists s, p. split; [assumption|]. split; [assumption|].
  rewrite w_section_capacity_stages, Hs. cbn [bind]. unfold conclude. rewrite Hp.
  reflexivity.
Qed.

Lemma warning_in_stage_warnings (s : stages) (xa ya : R) :
  In "Slenderness ratio exceeds 200."%string (stage_warnings s xa ya)
  <-> st_design_slenderness s > 200.
Proof.
  unfold stage_warnings. rewrite <- py_gt_true.
  destruct (py_gt (st_design_slenderness s) 200), (truthy xa && truthy ya)%bool;
    cbn; intuition discriminate.
Qed.

Lemma note_in_stage_notes (s : stages) :
  In "Shape is slender for compression."%string (stage_notes s) <-> st_slender s = true.
Proof.
  unfold stage_notes. destruct (st_slender s); cbn; intuition discriminate.
Qed.

(** ** What a returning call has computed *)

Lemma last_nominal_report (s : stages) (xa ya : R) (design_method : string) (p : R) :
  design_strength design_method (st_nominal_strength s) = Some p ->
  exists label,
    last (nominal_report s xa ya ++ design_rows design_method (st_nominal_strength s))
      (""%string, (0, ""%string)) = (label, (p, "force"%string)).
Proof.
  unfold design_strength, design_rows, nominal_report.
  destruct (String.eqb design_method "nominal");
    [|destruct (String.eqb design_method "LRFD");
      [|destruct (String.eqb design_method "ASD"); [|discriminate]]];
    intros Hp; injection Hp as <-; eexists; cbn [app last]; reflexivity.
Qed.

(** The first component [conclude] returns is the capacity of the stages. *)
Lemma conclude_returned_capacity (s : stages) (design_method : string) (xa ya : R)
    (return_report : bool) (p : R) :
  design_strength design_method (st_nominal_strength s) = Some p ->
  returned_capacity design_method return_report
    (Rmin (st_flexural s) (st_torsional s)) (st_effective_area s)
    (if return_report
     then Report (nominal_report s xa ya
                  ++ design_rows design_method (st_nominal_strength s))
     else Strength p).
Proof.
  intros Hp. pose proof Hp as Hp'.
  unfold st_nominal_strength, st_nominal_stress in Hp'. rewrite py_min_Rmin in Hp'.
  exists p. split; [exact Hp'|]. split.
  - intros ->. reflexivity.
  - intros ->. destruct (last_nominal_report s xa ya design_method p Hp) as (label & Hlast).
    pose proof (dict_get_nominal_report s xa ya
                  (design_rows design_method (st_nominal_strength s)))
      as (_ & _ & _ & HFn & HAe & HPn).
    unfold st_nominal_strength, st_nominal_stress in HFn, HPn.
    rewrite py_min_Rmin in HFn, HPn.
    eexists _, label. split; [reflexivity|].
    split; [exact HFn|]. split; [exact HAe|]. split; [exact HPn | exact Hlast].
Qed.

(** Every returning call returns the capacity which the component functions
    give on its inputs. *)
Lemma w_section_capacity_computed
    (area Ix Iy J warping_constant flange_width flange_thickness section_depth kdes
     web_thickness unbraced_length_x unbraced_length_y unbraced_length_z yield_stress : R)
    (design_method : string)
    (elastic_modulus shear_modulus kx ky kz x_brace_offset y_brace_offset : R)
    (return_report : bool) (value : capacity_value) (warnings notes : list string) :
  w_section_capacity area Ix Iy J warping_constant flange_width flange_thickness
    section_depth kdes web_thickness unbraced_length_x unbraced_length_y unbraced_length_z
    yield_stress design_method elastic_modulus shear_modulus kx ky kz
    x_brace_offset y_brace_offset return_report = Ok (value, warnings, notes) ->
  exists s,
    w_section_stages area Ix Iy J warping_constant flange_width flange_thickness
      section_depth kdes web_thickness unbraced_length_x unbraced_length_y
      unbraced_length_z yield_stress elastic_modulus shear_modulus kx ky kz
      x_brace_offset y_brace_offset = Ok s
    /\ warnings = stage_warnings s x_brace_offset y_brace_offset
    /\ notes = stage_notes s
    /\ computed_stresses area Ix Iy J warping_constant flange_width flange_thickness
         section_depth kdes web_thickness unbraced_length_x unbraced_length_y
         unbraced_length_z yield_stress elastic_modulus shear_modulus kx ky kz
         x_brace_offset y_brace_offset
         (st_flexural s) (st_torsional s) (Rmin (st_flexural s) (st_torsional s))
         (st_effective_area s)
    /\ returned_capacity design_method return_report
         (Rmin (st_flexural s) (st_torsional s)) (st_effective_area s) value.
Proof.
  intros H. apply w_section_capacity_inv in H as (s & Hs & Hc).
  apply conclude_inv in Hc as (p & Hp & -> & -> & ->).
  exists s. split; [exact Hs|]. split; [reflexivity|]. split; [reflexivity|].
  split; [|apply conclude_returned_capacity; exact Hp].
  apply w_section_stages_inv in Hs
    as (Hrx & Hry & Hsx & Hsy & Hflex & Htors & Hae & _).
  unfold st_design_slenderness in Hflex. rewrite py_max_Rmax, Hsx, Hsy, Hrx, Hry in Hflex.
  rewrite Hrx, Hry in Htors.
  unfold st_nominal_stress in Hae. rewrite py_min_Rmin in Hae.
  unfold computed_stresses. cbv zeta.
  split; [exact Hflex|]. split; [exact Htors|]. split; [reflexivity | exact Hae].
Qed.

(** The calculation goes on when every step of it succeeds: nothing else
    stops it. *)
Lemma w_section_capacity_proceeds
    (area Ix Iy J warping_constant flange_width flange_thickness section_depth kdes
     web_thickness unbraced_length_x unbraced_length_y unbraced_length_z yield_stress : R)
    (design_method : string)
    (elastic_modulus shear_modulus kx ky kz x_brace_offset y_brace_offset : R)
    (return_report : bool)
    (rx ry slenderness_x slenderness_y flexural torsional Ae p : R) (slender : bool) :
  (qx <- py_div Ix area ;; py_sqrt qx) = Ok rx ->
  (qy <- py_div Iy area ;; py_sqrt qy) = Ok ry ->
  member_slenderness (nonzero_length unbraced_length_x) rx kx = Ok slenderness_x ->
  member_slenderness (nonzero_length unbraced_length_y) ry ky = Ok slenderness_y ->
  nominal_flexural_buckling_stress yield_stress None
    (Some (Rmax slenderness_x slenderness_y)) elastic_modulus = Ok flexural ->
  torsional_stage yield_stress (nonzero_length unbraced_length_z * kz) warping_constant
    Ix Iy J area (calc_r0 rx ry x_brace_offset y_brace_offset)
    (section_depth - flange_thickness) x_brace_offset y_brace_offset
    elastic_modulus shear_modulus = Ok torsional ->
  w_section_effective_area area flange_width flange_thickness section_depth kdes
    web_thickness yield_stress (Rmin flexural torsional) = Ok Ae ->
  w_is_slender_comp flange_width flange_thickness section_depth kdes web_thickness
    yield_stress elastic_modulus = Ok slender ->
  design_strength design_method (Rmin flexural torsional * Ae) = Some p ->
  exists value warnings notes,
    w_section_capacity area Ix Iy J warping_constant flange_width flange_thickness
      section_depth kdes web_thickness unbraced_length_x unbraced_length_y
      unbraced_length_z yield_stress design_method elastic_modulus shear_modulus
      kx ky kz x_brace_offset y_brace_offset return_report = Ok (value, warnings, notes)
    /\ (In "Slenderness ratio exceeds 200."%string warnings
        <-> Rmax slenderness_x slenderness_y > 200)
    /\ returned_capacity design_method return_report (Rmin flexural torsional) Ae value.
Proof.
  intros Hrx Hry Hsx Hsy Hflex Htors Hae Hsl Hp.
  apply bind_Ok_inv in Hrx as (qx & Hqx & Hrx).
  apply bind_Ok_inv in Hry as (qy & Hqy & Hry).
  rewrite <- py_max_Rmax in Hflex |- *. rewrite <- py_min_Rmin in Hae, Hp |- *.
  set (s := mk_stages rx ry slenderness_x slenderness_y flexural torsional Ae slender).
  assert (Hs : w_section_stages area Ix Iy J warping_constant flange_width
                 flange_thickness section_depth kdes web_thickness unbraced_length_x
                 unbraced_length_y unbraced_length_z yield_stress elastic_modulus
                 shear_modulus kx ky kz x_brace_offset y_brace_offset = Ok s).
  { unfold w_section_stages. rewrite Hqx. cbn [bind]. rewrite Hrx. cbn [bind].
    rewrite Hqy. cbn [bind]. rewrite Hry. cbn [bind].
    rewrite Hsx. cbn [bind]. rewrite Hsy. cbn [bind].
    rewrite Hflex. cbn [bind]. rewrite Htors. cbn [bind].
    rewrite Hae. cbn [bind]. rewrite Hsl. cbn [bind]. reflexivity. }
  assert (Hp' : design_strength design_method (st_nominal_strength s) = Some p)
    by exact Hp.
  eexists _, _, _. rewrite w_section_capacity_stages, Hs. cbn [bind].
  unfold conclude. rewrite Hp'. split; [reflexivity|]. split.
  - apply (warning_in_stage_warnings s).
  - rewrite py_min_Rmin. apply (conclude_returned_capacity s _ _ _ _ _ Hp').
Qed.

(** With both effective-length factors zero the governing slenderness is
    zero, whatever the lengths, and the Euler stress divides by its square. *)
Lemma zero_slenderness_raises
    (area Ix Iy J warping_constant flange_width flange_thickness section_depth kdes
     web_thickness unbraced_length_x unbraced_length_y unbraced_length_z yield_stress : R)
    (design_method : string)
    (elastic_modulus shear_modulus kz x_brace_offset y_brace_offset : R)
    (return_report : bool) :
  0 < area -> 0 < Ix -> 0 < Iy ->
  w_section_capacity area Ix Iy J warping_constant flange_width flange_thickness
    section_depth kdes web_thickness unbraced_length_x unbraced_length_y
    unbraced_length_z yield_stress design_method elastic_modulus shear_modulus
    0 0 kz x_brace_offset y_brace_offset return_report
  = Raise ZeroDivisionError.
Proof.
  intros HA HIx HIy.
  assert (Hqx : 0 < Ix / area) by (apply Rdiv_lt_0_compat; assumption).
  assert (Hqy : 0 < Iy / area) by (apply Rdiv_lt_0_compat; assumption).
  pose proof (sqrt_lt_R0 _ Hqx) as Hrx. pose proof (sqrt_lt_R0 _ Hqy) as Hry.
  rewrite w_section_capacity_stages. unfold w_section_stages, member_slenderness.
  rewrite py_div_Ok by lra. cbn [bind]. rewrite py_sqrt_Ok by lra. cbn [bind].
  rewrite py_div_Ok by lra. cbn [bind]. rewrite py_sqrt_Ok by lra. cbn [bind].
  rewrite py_div_Ok by lra. cbn [bind]. rewrite py_div_Ok by lra. cbn [bind].
  unfold nominal_flexural_buckling_stress, elastic_buckling_stress.
  assert (Hzero : py_max (0 * nonzero_length unbraced_length_x / sqrt (Ix / area))
                         (0 * nonzero_length unbraced_length_y / sqrt (Iy / area)) ^ 2 = 0).
  { unfold py_max. destruct (Rlt_dec _ _); unfold Rdiv; ring. }
  rewrite Hzero, py_div_zero. reflexivity.
Qed.

(** * The claims *)

(** ** Nominal flexural buckling stress *)

(** C2.  For a yield stress [Fy > 0] and an elastic buckling stress
    [Fe > 0], the nominal flexural buckling stress is [0.658 ^ (Fy / Fe) * Fy]
    when [Fy / Fe <= 2.25] and [0.877 * Fe] otherwise: the threshold is the
    constant 2.25 and belongs to the inelastic regime. *)
Theorem nominal_flexural_buckling_stress_regimes (Fy Fe : R) (slenderness : option R)
    (elastic_modulus : R) :
  0 < Fy -> 0 < Fe ->
  (Fy / Fe <= 2.25 ->
   nominal_flexural_buckling_stress Fy (Some Fe) slenderness elastic_modulus
   = Ok (Rpower 0.658 (Fy / Fe) * Fy))
  /\ (Fy / Fe > 2.25 ->
      nominal_flexural_buckling_stress Fy (Some Fe) slenderness elastic_modulus
      = Ok (0.877 * Fe)).
Proof.
  intros HFy HFe.
  rewrite nominal_flexural_given by lra. unfold critical_stress, py_pow, py_le.
  destruct (Rle_dec (Fy / Fe) 2.25); split; intros; (reflexivity || lra).
Qed.

(** At the threshold itself: [Fy = 45], [Fe = 20]. *)
Lemma nominal_flexural_buckling_stress_regimes_witness :
  nominal_flexural_buckling_stress 45 (Some 20) None STEEL_ELASTIC_MODULUS
  = Ok (Rpower 0.658 (45 / 20) * 45).
Proof.
  apply (nominal_flexural_buckling_stress_regimes 45 20 None STEEL_ELASTIC_MODULUS);
    lra.
Defined.

(** ** Effective area *)

(** C4.  When neither the flange ratio [bf / (2 * tf)] nor the web ratio
    [(d - 2 * kdes) / tw] exceeds its limiting ratio (table case 1 and table
    case 5), the effective area is the gross area.  Otherwise it is the
    gross area less [2 * tf * (bf - be)] and [tw * ((d - 2 * kdes) - he)],
    where the effective flange width [be] follows the effective-width formula
    with [c1 = 0.22], [c2 = 1.49] and the effective web height [he] follows it
    with [c1 = 0.18], [c2 = 1.31]. *)
Theorem w_section_effective_area_cases (A bf tf d kdes tw Fy Fn : R) :
  bf <> 0 -> tf <> 0 -> d - 2 * kdes <> 0 -> tw <> 0 -> 0 < Fy -> 0 < Fn ->
  let flange_ratio := bf / (2 * tf) in
  let web_height := d - 2 * kdes in
  let web_ratio := web_height / tw in
  let flange_limiting := 0.56 * sqrt (STEEL_ELASTIC_MODULUS / Fy) in
  let web_limiting := 1.49 * sqrt (STEEL_ELASTIC_MODULUS / Fy) in
  let be := effective_width_formula bf flange_ratio flange_limiting 0.22 1.49 Fy Fn in
  let he := effective_width_formula web_height web_ratio web_limiting 0.18 1.31 Fy Fn in
  limiting_wt_ratio_comp 1 STEEL_ELASTIC_MODULUS Fy None = Ok flange_limiting
  /\ limiting_wt_ratio_comp 5 STEEL_ELASTIC_MODULUS Fy None = Ok web_limiting
  /\ (flange_ratio <= flange_limiting -> web_ratio <= web_limiting ->
      w_section_effective_area A bf tf d kdes tw Fy Fn = Ok A)
  /\ (flange_ratio > flange_limiting \/ web_ratio > web_limiting ->
      w_section_effective_area A bf tf d kdes tw Fy Fn
      = Ok (A - 2 * tf * (bf - be) - tw * (web_height - he))).
Proof.
  intros Hbf Htf Hh Htw HFy HFn. cbv zeta.
  pose proof STEEL_ELASTIC_MODULUS_pos as HE.
  rewrite limiting_wt_ratio_flange, limiting_wt_ratio_web by lra.
  rewrite w_section_effective_area_Ok by assumption.
  unfold effective_area_formula, effective_flange_width_formula,
    effective_web_height_formula, flange_limit, web_limit, py_gt.
  repeat split.
  - intros Hf Hw.
    destruct (Rgt_dec (bf / (2 * tf)) _); [lra|].
    destruct (Rgt_dec ((d - 2 * kdes) / tw) _); [lra | reflexivity].
  - intros Hs.
    destruct (Rgt_dec (bf / (2 * tf)) _); [reflexivity|].
    destruct (Rgt_dec ((d - 2 * kdes) / tw) _); [reflexivity | lra].
Qed.

(** Bounds on [sqrt (E / Fy)] for the code-defined modulus and
    [Fy = 50]: [24 ^ 2 = 576 < 580 < 580.81 = 24.1 ^ 2]. *)
Lemma sqrt_580_bounds : 24 < sqrt (STEEL_ELASTIC_MODULUS / 50) < 24.1.
Proof.
  unfold STEEL_ELASTIC_MODULUS. split.
  - rewrite <- (sqrt_square 24) at 1 by lra. apply sqrt_lt_1_alt. lra.
  - rewrite <- (sqrt_square 24.1) at 1 by lra. apply sqrt_lt_1_alt. lra.
Qed.

(** The W10X22 of the test suite has a slender web: at [Fy = 50] and a
    nominal stress of 30 its effective area is the reduced one. *)
Lemma w_section_effective_area_cases_witness :
  w_section_effective_area 6.49 5.75 0.360 10.2 0.660 0.240 50 30
  = Ok (6.49
        - 2 * 0.360
          * (5.75
             - effective_width_formula 5.75 (5.75 / (2 * 0.360))
                 (0.56 * sqrt (STEEL_ELASTIC_MODULUS / 50)) 0.22 1.49 50 30)
        - 0.240
          * ((10.2 - 2 * 0.660)
             - effective_width_formula (10.2 - 2 * 0.660) ((10.2 - 2 * 0.660) / 0.240)
                 (1.49 * sqrt (STEEL_ELASTIC_MODULUS / 50)) 0.18 1.31 50 30)).
Proof.
  apply (w_section_effective_area_cases 6.49 5.75 0.360 10.2 0.660 0.240 50 30);
    try lra.
  right. pose proof sqrt_580_bounds. lra.
Defined.

(** ** Limiting width-to-thickness ratios *)

Lemma table_case_outside (table_case : Z) (E Fy : R) (kc : option R) :
  (table_case < 1 \/ 9 < table_case)%Z ->
  limiting_wt_ratio_comp table_case E Fy kc = Raise table_case_error.
Proof.
  intros Hout. destruct table_case as [|p|p]; try reflexivity.
  repeat (destruct p as [p|p|]; try reflexivity; try lia).
Qed.

Lemma root_not_table_case_error (c E Fy : R) :
  (q <- py_div E Fy ;; s <- py_sqrt q ;; Ok (c * s)) <> Raise table_case_error.
Proof.
  unfold py_div, py_sqrt. destruct (Req_dec_T Fy 0); cbn [bind]; [discriminate|].
  destruct (Rlt_dec (E / Fy) 0); cbn [bind]; discriminate.
Qed.

Lemma table_case_inside (table_case : Z) (E Fy : R) (kc : option R) :
  (1 <= table_case <= 9)%Z ->
  limiting_wt_ratio_comp table_case E Fy kc <> Raise table_case_error.
Proof.
  intros Hin.
  assert (Hcases : (table_case = 1 \/ table_case = 2 \/ table_case = 3 \/ table_case = 4
                    \/ table_case = 5 \/ table_case = 6 \/ table_case = 7
                    \/ table_case = 8 \/ table_case = 9)%Z) by lia.
  repeat (destruct Hcases as [-> | Hcases]); try subst table_case;
    cbn [limiting_wt_ratio_comp]; try apply root_not_table_case_error.
  - destruct kc as [k|]; [apply root_not_table_case_error | discriminate].
  - unfold py_div. destruct (Req_dec_T Fy 0); discriminate.
Qed.

(** C5, as the code has it.  The table-case error is raised exactly when
    the selector is outside 1..9.  Omitting [kc] where case 2 needs it is not
    checked: the product [kc * elastic_modulus] fails with a [TypeError].
    For positive [E] and [Fy], every selector in 1..9 (case 2 with a
    non-negative [kc] supplied) returns its closed form. *)
Theorem limiting_wt_ratio_comp_cases (E Fy : R) :
  0 < E -> 0 < Fy ->
  (forall table_case kc,
     limiting_wt_ratio_comp table_case E Fy kc = Raise table_case_error
     <-> (table_case < 1 \/ 9 < table_case)%Z)
  /\ limiting_wt_ratio_comp 2 E Fy None = Raise TypeError
  /\ (forall kc, limiting_wt_ratio_comp 1 E Fy kc = Ok (0.56 * sqrt (E / Fy)))
  /\ (forall k, 0 <= k ->
        limiting_wt_ratio_comp 2 E Fy (Some k) = Ok (0.64 * sqrt (k * E / Fy)))
  /\ (forall kc, limiting_wt_ratio_comp 3 E Fy kc = Ok (0.45 * sqrt (E / Fy)))
  /\ (forall kc, limiting_wt_ratio_comp 4 E Fy kc = Ok (0.75 * sqrt (E / Fy)))
  /\ (forall kc, limiting_wt_ratio_comp 5 E Fy kc = Ok (1.49 * sqrt (E / Fy)))
  /\ (forall kc, limiting_wt_ratio_comp 6 E Fy kc = Ok (1.40 * sqrt (E / Fy)))
  /\ (forall kc, limiting_wt_ratio_comp 7 E Fy kc = Ok (0.40 * sqrt (E / Fy)))
  /\ (forall kc, limiting_wt_ratio_comp 8 E Fy kc = Ok (1.49 * sqrt (E / Fy)))
  /\ (forall kc, limiting_wt_ratio_comp 9 E Fy kc = Ok (0.11 * E / Fy)).
Proof.
  intros HE HFy. split; [|split; [reflexivity|]].
  - intros table_case kc. split.
    + intros Herr. destruct (Z_le_gt_dec 1 table_case) as [H1|H1]; [|lia].
      destruct (Z_le_gt_dec table_case 9) as [H9|H9]; [|lia].
      exfalso. apply (table_case_inside table_case E Fy kc); [lia | assumption].
    + apply table_case_outside.
  - repeat split; intros; cbn [limiting_wt_ratio_comp];
      try (apply limiting_wt_ratio_root; lra).
    + apply limiting_wt_ratio_root; [|assumption].
      apply Rmult_le_pos; lra.
    + apply py_div_Ok. lra.
Qed.

Lemma limiting_wt_ratio_comp_cases_witness :
  limiting_wt_ratio_comp 5 STEEL_ELASTIC_MODULUS 50 None
  = Ok (1.49 * sqrt (STEEL_ELASTIC_MODULUS / 50)).
Proof.
  apply (limiting_wt_ratio_comp_cases STEEL_ELASTIC_MODULUS 50);
    unfold STEEL_ELASTIC_MODULUS; lra.
Defined.

(** Case 2 without [kc] does not fail with the table-case error. *)
Lemma limiting_wt_ratio_comp_missing_kc :
  limiting_wt_ratio_comp 2 STEEL_ELASTIC_MODULUS 50 None = Raise TypeError
  /\ limiting_wt_ratio_comp 2 STEEL_ELASTIC_MODULUS 50 None <> Raise table_case_error.
Proof. split; [reflexivity | discriminate]. Qed.

(** ** Flexural-torsional buckling with a brace offset *)

(** [calc_r0] returns the sum of squares itself, and both formulas square
    what they are given: the code divides by [A * (r0 ^ 2) ^ 2]. *)
Lemma calc_r0_is_squared (Ix Iy A xa ya : R) :
  calc_r0 (sqrt (Ix / A)) (sqrt (Iy / A)) xa ya = polar_radius_squared Ix Iy A xa ya.
Proof. reflexivity. Qed.

Lemma offset_stress_over_r0_squared (n A s : R) :
  0 < A -> s <> 0 -> n * 1 / (A * s ^ 2) = n / (A * s) / s.
Proof. intros HA Hs. field. split; lra. Qed.

Lemma minor_axis_offset_stress_vs_claimed (Lcz Ix Iy J A h0 xa ya E G : R) :
  0 < A -> polar_radius_squared Ix Iy A xa ya <> 0 ->
  minor_axis_offset_stress Lcz Iy J A (polar_radius_squared Ix Iy A xa ya) h0 ya E G
  = claimed_minor_axis_offset_stress Lcz Ix Iy J A h0 xa ya E G
    / polar_radius_squared Ix Iy A xa ya.
Proof.
  intros HA Hs. unfold minor_axis_offset_stress, claimed_minor_axis_offset_stress.
  apply offset_stress_over_r0_squared; assumption.
Qed.

Lemma major_axis_offset_stress_vs_claimed (Lcz Ix Iy J A h0 xa ya E G : R) :
  0 < A -> polar_radius_squared Ix Iy A xa ya <> 0 ->
  major_axis_offset_stress Lcz Ix Iy J A (polar_radius_squared Ix Iy A xa ya) h0 xa E G
  = claimed_major_axis_offset_stress Lcz Ix Iy J A h0 xa ya E G
    / polar_radius_squared Ix Iy A xa ya.
Proof.
  intros HA Hs. unfold major_axis_offset_stress, claimed_major_axis_offset_stress.
  apply offset_stress_over_r0_squared; assumption.
Qed.

Lemma quotient_smaller (c s : R) : 0 < c -> 1 < s -> c / s < c.
Proof.
  intros Hc Hs. apply (Rmult_lt_reg_r s); [lra|].
  unfold Rdiv. rewrite Rmult_assoc, Rinv_l by lra. nra.
Qed.

(** C1 does not hold of the code.  For the W10X33 of the test suite braced
    at [z = 120] with offsets [xa = 1], [ya = 0], both elastic stresses that
    [w_section_capacity] computes are strictly below the closed forms with
    divisor [A * r0 ^ 2], because [r0 ^ 2 > 1] is squared once more.  The
    governing elastic stress is the minimum of the two computed values. *)
Theorem offset_stress_divisor_squared_twice :
  let r0 := calc_r0 (sqrt (171 / 9.71)) (sqrt (36.6 / 9.71)) 1 0 in
  let h0 := 9.73 - 0.435 in
  exists code_major code_minor,
    ft_elastic_buckling_stress_i_major_axis_offset 120 171 36.6 0.583 9.71 r0 h0 1
      STEEL_ELASTIC_MODULUS STEEL_SHEAR_MODULUS = Ok code_major
    /\ ft_elastic_buckling_stress_i_minor_axis_offset 120 36.6 0.583 9.71 r0 h0 0
         STEEL_ELASTIC_MODULUS STEEL_SHEAR_MODULUS = Ok code_minor
    /\ code_major
       < claimed_major_axis_offset_stress 120 171 36.6 0.583 9.71 h0 1 0
           STEEL_ELASTIC_MODULUS STEEL_SHEAR_MODULUS
    /\ code_minor
       < claimed_minor_axis_offset_stress 120 171 36.6 0.583 9.71 h0 1 0
           STEEL_ELASTIC_MODULUS STEEL_SHEAR_MODULUS
    /\ nominal_ft_buckling_stress_i_bracing_offset 50 120 171 36.6 0.583 9.71 r0 h0 1 0
         STEEL_ELASTIC_MODULUS STEEL_SHEAR_MODULUS
       = nominal_flexural_buckling_stress 50 (Some (Rmin code_major code_minor)) None
           STEEL_ELASTIC_MODULUS.
Proof.
  cbv zeta. rewrite calc_r0_is_squared.
  set (s := polar_radius_squared 171 36.6 9.71 1 0).
  assert (Hs : 1 < s).
  { unfold s, polar_radius_squared.
    assert (0 < 171 / 9.71) as Hx by lra. apply sqrt_lt_R0 in Hx.
    pose proof (pow2_pos _ (Rgt_not_eq _ _ Hx)).
    pose proof (pow2_nonneg (sqrt (36.6 / 9.71))). lra. }
  pose proof STEEL_ELASTIC_MODULUS_pos as HE.
  assert (HG : 0 < STEEL_SHEAR_MODULUS) by (unfold STEEL_SHEAR_MODULUS; lra).
  assert (Hmajor : 0 < major_axis_offset_stress 120 171 36.6 0.583 9.71 s
                         (9.73 - 0.435) 1 STEEL_ELASTIC_MODULUS STEEL_SHEAR_MODULUS).
  { apply major_axis_offset_stress_pos; lra. }
  assert (Hminor : 0 < minor_axis_offset_stress 120 36.6 0.583 9.71 s
                         (9.73 - 0.435) 0 STEEL_ELASTIC_MODULUS STEEL_SHEAR_MODULUS).
  { apply minor_axis_offset_stress_pos; lra. }
  eexists; eexists. split; [apply ft_major_axis_offset_Ok; lra|].
  split; [apply ft_minor_axis_offset_Ok; lra|].
  unfold s in Hmajor, Hminor |- *.
  rewrite major_axis_offset_stress_vs_claimed in Hmajor |- * by (fold s; lra).
  rewrite minor_axis_offset_stress_vs_claimed in Hminor |- * by (fold s; lra).
  fold s in Hmajor, Hminor |- *.
  assert (Hpos : forall c, 0 < c / s -> 0 < c).
  { intros c Hc. assert (Hc' : c = c / s * s) by (field; lra).
    assert (0 < c / s * s) by (apply Rmult_lt_0_compat; lra). lra. }
  split; [apply quotient_smaller; [apply Hpos, Hmajor | exact Hs]|].
  split; [apply quotient_smaller; [apply Hpos, Hminor | exact Hs]|].
  unfold nominal_ft_buckling_stress_i_bracing_offset.
  rewrite ft_major_axis_offset_Ok by lra. cbn [bind].
  rewrite ft_minor_axis_offset_Ok by lra. cbn [bind].
  rewrite py_min_Rmin. unfold s.
  rewrite major_axis_offset_stress_vs_claimed, minor_axis_offset_stress_vs_claimed
    by (fold s; lra).
  reflexivity.
Qed.

(** ** The capacity calculation *)

Section Capacity.

Variables area Ix Iy J warping_constant flange_width flange_thickness section_depth
  kdes web_thickness unbraced_length_x unbraced_length_y unbraced_length_z
  yield_stress : R.
Variables elastic_modulus shear_modulus kx ky kz x_brace_offset y_brace_offset : R.

(** C9.  Relative to the nominal result of the same input, the LRFD
    capacity is [0.90] times the nominal capacity and the ASD capacity is
    the nominal capacity divided by [1.67], with the same warnings and
    notes; the nominal method returns the nominal compressive strength of the
    report unchanged; any other design method fails with the design-method
    error. *)
Theorem design_method_reduction (Pn : R) (warnings notes : list string) :
  w_section_capacity area Ix Iy J warping_constant flange_width flange_thickness
    section_depth kdes web_thickness unbraced_length_x unbraced_length_y
    unbraced_length_z yield_stress "nominal" elastic_modulus shear_modulus kx ky kz
    x_brace_offset y_brace_offset false = Ok (Strength Pn, warnings, notes) ->
  w_section_capacity area Ix Iy J warping_constant flange_width flange_thickness
    section_depth kdes web_thickness unbraced_length_x unbraced_length_y
    unbraced_length_z yield_stress "LRFD" elastic_modulus shear_modulus kx ky kz
    x_brace_offset y_brace_offset false = Ok (Strength (0.90 * Pn), warnings, notes)
  /\ w_section_capacity area Ix Iy J warping_constant flange_width flange_thickness
       section_depth kdes web_thickness unbraced_length_x unbraced_length_y
       unbraced_length_z yield_stress "ASD" elastic_modulus shear_modulus kx ky kz
       x_brace_offset y_brace_offset false = Ok (Strength (Pn / 1.67), warnings, notes)
  /\ (exists rows,
        w_section_capacity area Ix Iy J warping_constant flange_width flange_thickness
          section_depth kdes web_thickness unbraced_length_x unbraced_length_y
          unbraced_length_z yield_stress "nominal" elastic_modulus shear_modulus kx ky kz
          x_brace_offset y_brace_offset true = Ok (Report rows, warnings, notes)
        /\ dict_get rows "Nominal compressive strength, Pn (Eqns E3-1, E4-1, E7-1)"
           = Some (Pn, "force"%string))
  /\ (forall design_method return_report,
        ~ recognised design_method ->
        w_section_capacity area Ix Iy J warping_constant flange_width flange_thickness
          section_depth kdes web_thickness unbraced_length_x unbraced_length_y
          unbraced_length_z yield_stress design_method elastic_modulus shear_modulus
          kx ky kz x_brace_offset y_brace_offset return_report
        = Raise design_method_error).
Proof.
  intros H. apply w_section_capacity_inv in H as (s & Hs & Hc).
  apply conclude_inv in Hc as (p & Hp & Hv & -> & ->).
  cbn in Hp. injection Hp as <-. injection Hv as ->.
  rewrite !w_section_capacity_stages, Hs. cbn [bind].
  split; [reflexivity|]. split; [reflexivity|]. split.
  - eexists. split; [reflexivity|].
    apply (dict_get_nominal_report s x_brace_offset y_brace_offset).
  - intros design_method return_report Hdm. rewrite w_section_capacity_stages, Hs.
    cbn [bind]. unfold conclude.
    rewrite design_strength_unrecognised by assumption. reflexivity.
Qed.

(** C3.  Whenever the calculation returns, the governing nominal buckling
    stress is the minimum of the nominal flexural buckling stress and the
    nominal torsional (or flexural-torsional) buckling stress: it is what the
    report shows as [Fn], what the effective area is computed at, and what
    the returned strength is the design reduction of, times the effective
    area. *)
Theorem governing_stress_is_minimum (design_method : string) (return_report : bool)
    (value : capacity_value) (warnings notes : list string) :
  w_section_capacity area Ix Iy J warping_constant flange_width flange_thickness
    section_depth kdes web_thickness unbraced_length_x unbraced_length_y
    unbraced_length_z yield_stress design_method elastic_modulus shear_modulus kx ky kz
    x_brace_offset y_brace_offset return_report = Ok (value, warnings, notes) ->
  let rx := sqrt (Ix / area) in
  let ry := sqrt (Iy / area) in
  let design_slenderness :=
    Rmax (kx * nonzero_length unbraced_length_x / rx)
         (ky * nonzero_length unbraced_length_y / ry) in
  exists flexural torsional Fn Ae p,
    nominal_flexural_buckling_stress yield_stress None (Some design_slenderness)
      elastic_modulus = Ok flexural
    /\ torsional_stage yield_stress (nonzero_length unbraced_length_z * kz)
         warping_constant Ix Iy J area (calc_r0 rx ry x_brace_offset y_brace_offset)
         (section_depth - flange_thickness) x_brace_offset y_brace_offset
         elastic_modulus shear_modulus = Ok torsional
    /\ Fn = Rmin flexural torsional
    /\ w_section_effective_area area flange_width flange_thickness section_depth kdes
         web_thickness yield_stress Fn = Ok Ae
    /\ design_strength design_method (Fn * Ae) = Some p
    /\ (return_report = false -> value = Strength p)
    /\ (return_report = true ->
        exists rows,
          value = Report rows
          /\ dict_get rows "Nominal flexural buckling stress (Eqns E3-2, E3-3)"
             = Some (flexural, "stress"%string)
          /\ dict_get rows (torsional_label x_brace_offset y_brace_offset)
             = Some (torsional, "stress"%string)
          /\ dict_get rows "Governing nominal buckling stress, Fn"
             = Some (Fn, "stress"%string)
          /\ dict_get rows "Nominal compressive strength, Pn (Eqns E3-1, E4-1, E7-1)"
             = Some (Fn * Ae, "force"%string)).
Proof.
  intros H. cbv zeta. apply w_section_capacity_inv in H as (s & Hs & Hc).
  apply conclude_inv in Hc as (p & Hp & Hv & _ & _).
  apply w_section_stages_inv in Hs
    as (Hrx & Hry & Hsx & Hsy & Hflex & Htors & Hae & _).
  unfold st_design_slenderness in Hflex. rewrite py_max_Rmax, Hsx, Hsy, Hrx, Hry in Hflex.
  rewrite Hrx, Hry in Htors.
  unfold st_nominal_strength in Hp, Hv.
  unfold st_nominal_stress in Hae, Hp, Hv. rewrite py_min_Rmin in Hae, Hp, Hv.
  exists (st_flexural s), (st_torsional s),
    (Rmin (st_flexural s) (st_torsional s)), (st_effective_area s), p.
  repeat (split; [assumption || reflexivity|]). split.
  - intros ->. exact Hv.
  - intros ->. eexists. split; [exact Hv|].
    pose proof (dict_get_nominal_report s x_brace_offset y_brace_offset
                  (design_rows design_method
                     (Rmin (st_flexural s) (st_torsional s) * st_effective_area s)))
      as (_ & Hf & Ht & Hn & _ & HPn).
    unfold st_nominal_strength, st_nominal_stress in Hn, HPn.
    rewrite py_min_Rmin in Hn, HPn. repeat split; assumption.
Qed.

(** C10.  Totality.  With area, moments of inertia, torsional and warping
    constants, flange width and thickness, web thickness, yield stress and
    both moduli strictly positive, [depth > 2 * kdes > 0], positive
    effective-length factors, non-negative unbraced lengths and a design
    method among nominal, LRFD and ASD, the calculation returns a result: no
    division meets a zero divisor and no square root a negative radicand. *)
Theorem w_section_capacity_total (design_method : string) (return_report : bool) :
  0 < area -> 0 < Ix -> 0 < Iy -> 0 < J -> 0 < warping_constant ->
  0 < flange_width -> 0 < flange_thickness -> 0 < web_thickness ->
  0 < yield_stress -> 0 < elastic_modulus -> 0 < shear_modulus ->
  0 < 2 * kdes -> 2 * kdes < section_depth ->
  0 < kx -> 0 < ky -> 0 < kz ->
  0 <= unbraced_length_x -> 0 <= unbraced_length_y -> 0 <= unbraced_length_z ->
  design_method = "nominal"%string \/ design_method = "LRFD"%string
  \/ design_method = "ASD"%string ->
  exists value warnings notes,
    w_section_capacity area Ix Iy J warping_constant flange_width flange_thickness
      section_depth kdes web_thickness unbraced_length_x unbraced_length_y
      unbraced_length_z yield_stress design_method elastic_modulus shear_modulus
      kx ky kz x_brace_offset y_brace_offset return_report
    = Ok (value, warnings, notes).
Proof.
  intros HA HIx HIy HJ HCw Hbf Htf Htw HFy HE HG Hk Hd Hkx Hky Hkz HLx HLy HLz Hdm.
  destruct (w_section_capacity_returns area Ix Iy J warping_constant flange_width
              flange_thickness section_depth kdes web_thickness unbraced_length_x
              unbraced_length_y unbraced_length_z yield_stress design_method
              elastic_modulus shear_modulus kx ky kz x_brace_offset y_brace_offset
              return_report) as (s & p & _ & _ & Hrun);
    [repeat split; assumption .. | exact Hdm |].
  rewrite Hrun. eauto.
Qed.

(** C8.  The warning that the slenderness ratio exceeds 200 is among the
    returned warnings if and only if the governing slenderness ratio, the
    larger of [kx * Lx / rx] and [ky * Ly / ry], is strictly greater than 200.
    The lengths are those the calculation uses: the inputs themselves when
    they are not zero, and [0.00001] for a zero input.  The warning does not
    end the calculation.  Every call that returns, with the warning or
    without it, returns the capacity which the component functions give on
    its inputs: the design strength of the governing stress times the
    effective area.  And a call whose slenderness exceeds 200 returns, with
    the warning and that capacity, whenever the steps of the calculation
    themselves succeed. *)
Theorem slenderness_warning (design_method : string) (return_report : bool) :
  (forall value warnings notes,
     w_section_capacity area Ix Iy J warping_constant flange_width flange_thickness
       section_depth kdes web_thickness unbraced_length_x unbraced_length_y
       unbraced_length_z yield_stress design_method elastic_modulus shear_modulus
       kx ky kz x_brace_offset y_brace_offset return_report
     = Ok (value, warnings, notes) ->
     (In "Slenderness ratio exceeds 200."%string warnings
      <-> Rmax (kx * nonzero_length unbraced_length_x / sqrt (Ix / area))
               (ky * nonzero_length unbraced_length_y / sqrt (Iy / area)) > 200))
  /\ (unbraced_length_x <> 0 -> unbraced_length_y <> 0 ->
      forall value warnings notes,
        w_section_capacity area Ix Iy J warping_constant flange_width flange_thickness
          section_depth kdes web_thickness unbraced_length_x unbraced_length_y
          unbraced_length_z yield_stress design_method elastic_modulus shear_modulus
          kx ky kz x_brace_offset y_brace_offset return_report
        = Ok (value, warnings, notes) ->
        (In "Slenderness ratio exceeds 200."%string warnings
         <-> Rmax (kx * unbraced_length_x / sqrt (Ix / area))
                  (ky * unbraced_length_y / sqrt (Iy / area)) > 200))
  /\ (forall value warnings notes,
        w_section_capacity area Ix Iy J warping_constant flange_width flange_thickness
          section_depth kdes web_thickness unbraced_length_x unbraced_length_y
          unbraced_length_z yield_stress design_method elastic_modulus shear_modulus
          kx ky kz x_brace_offset y_brace_offset return_report
        = Ok (value, warnings, notes) ->
        exists flexural torsional Fn Ae,
          computed_stresses area Ix Iy J warping_constant flange_width flange_thickness
            section_depth kdes web_thickness unbraced_length_x unbraced_length_y
            unbraced_length_z yield_stress elastic_modulus shear_modulus kx ky kz
            x_brace_offset y_brace_offset flexural torsional Fn Ae
          /\ returned_capacity design_method return_report Fn Ae value)
  /\ (forall rx ry slenderness_x slenderness_y flexural torsional Ae p slender,
        (qx <- py_div Ix area ;; py_sqrt qx) = Ok rx ->
        (qy <- py_div Iy area ;; py_sqrt qy) = Ok ry ->
        member_slenderness (nonzero_length unbraced_length_x) rx kx = Ok slenderness_x ->
        member_slenderness (nonzero_length unbraced_length_y) ry ky = Ok slenderness_y ->
        Rmax slenderness_x slenderness_y > 200 ->
        nominal_flexural_buckling_stress yield_stress None
          (Some (Rmax slenderness_x slenderness_y)) elastic_modulus = Ok flexural ->
        torsional_stage yield_stress (nonzero_length unbraced_length_z * kz)
          warping_constant Ix Iy J area (calc_r0 rx ry x_brace_offset y_brace_offset)
          (section_depth - flange_thickness) x_brace_offset y_brace_offset
          elastic_modulus shear_modulus = Ok torsional ->
        w_section_effective_area area flange_width flange_thickness section_depth kdes
          web_thickness yield_stress (Rmin flexural torsional) = Ok Ae ->
        w_is_slender_comp flange_width flange_thickness section_depth kdes web_thickness
          yield_stress elastic_modulus = Ok slender ->
        design_strength design_method (Rmin flexural torsional * Ae) = Some p ->
        exists value warnings notes,
          w_section_capacity area Ix Iy J warping_constant flange_width flange_thickness
            section_depth kdes web_thickness unbraced_length_x unbraced_length_y
            unbraced_length_z yield_stress design_method elastic_modulus shear_modulus
            kx ky kz x_brace_offset y_brace_offset return_report
          = Ok (value, warnings, notes)
          /\ In "Slenderness ratio exceeds 200."%string warnings
          /\ returned_capacity design_method return_report (Rmin flexural torsional) Ae
               value).
Proof.
  assert (Hiff : forall value warnings notes,
     w_section_capacity area Ix Iy J warping_constant flange_width flange_thickness
       section_depth kdes web_thickness unbraced_length_x unbraced_length_y
       unbraced_length_z yield_stress design_method elastic_modulus shear_modulus
       kx ky kz x_brace_offset y_brace_offset return_report
     = Ok (value, warnings, notes) ->
     (In "Slenderness ratio exceeds 200."%string warnings
      <-> Rmax (kx * nonzero_length unbraced_length_x / sqrt (Ix / area))
               (ky * nonzero_length unbraced_length_y / sqrt (Iy / area)) > 200)).
  { intros value warnings notes H.
    apply w_section_capacity_inv in H as (s & Hs & Hc).
    apply conclude_inv in Hc as (p & _ & _ & -> & _).
    apply w_section_stages_inv in Hs as (Hrx & Hry & Hsx & Hsy & _).
    rewrite warning_in_stage_warnings. unfold st_design_slenderness.
    rewrite py_max_Rmax, Hsx, Hsy, Hrx, Hry. reflexivity. }
  split; [exact Hiff|]. split; [|split].
  - intros HLx HLy value warnings notes H. apply Hiff in H.
    rewrite !nonzero_length_other in H by assumption. exact H.
  - intros value warnings notes H.
    apply w_section_capacity_computed in H as (s & _ & _ & _ & Hstresses & Hvalue).
    eexists _, _, _, _. split; [exact Hstresses | exact Hvalue].
  - intros rx ry slenderness_x slenderness_y flexural torsional Ae p slender
      Hrx Hry Hsx Hsy Hgt Hflex Htors Hae Hsl Hp.
    destruct (w_section_capacity_proceeds area Ix Iy J warping_constant flange_width
                flange_thickness section_depth kdes web_thickness unbraced_length_x
                unbraced_length_y unbraced_length_z yield_stress design_method
                elastic_modulus shear_modulus kx ky kz x_brace_offset y_brace_offset
                return_report rx ry slenderness_x slenderness_y flexural torsional Ae p
                slender Hrx Hry Hsx Hsy Hflex Htors Hae Hsl Hp)
      as (value & warnings & notes & Hrun & Hwarn & Hvalue).
    exists value, warnings, notes. split; [exact Hrun|].
    split; [apply Hwarn; exact Hgt | exact Hvalue].
Qed.

(** C7.  The note that the shape is slender for compression is returned
    if and only if the flange ratio [bf / (2 * tf)] exceeds
    [0.56 * sqrt (E / Fy)] or the web ratio [(d - kdes) / tw], on the web
    height [d - kdes], exceeds [1.49 * sqrt (E / Fy)]; no other note is
    returned; and with the note or without it the returned capacity is the
    one which the component functions give on the inputs: the design strength
    of the governing stress times the effective area, in which the
    classification has no part. *)
Theorem slender_note (design_method : string) (return_report : bool)
    (value : capacity_value) (warnings notes : list string) :
  w_section_capacity area Ix Iy J warping_constant flange_width flange_thickness
    section_depth kdes web_thickness unbraced_length_x unbraced_length_y
    unbraced_length_z yield_stress design_method elastic_modulus shear_modulus
    kx ky kz x_brace_offset y_brace_offset return_report
  = Ok (value, warnings, notes) ->
  let slender :=
    flange_width / (2 * flange_thickness) > 0.56 * sqrt (elastic_modulus / yield_stress)
    \/ (section_depth - kdes) / web_thickness
       > 1.49 * sqrt (elastic_modulus / yield_stress) in
  (In "Shape is slender for compression."%string notes <-> slender)
  /\ (slender -> notes = ["Shape is slender for compression."%string])
  /\ (~ slender -> notes = [])
  /\ exists flexural torsional Fn Ae,
       computed_stresses area Ix Iy J warping_constant flange_width flange_thickness
         section_depth kdes web_thickness unbraced_length_x unbraced_length_y
         unbraced_length_z yield_stress elastic_modulus shear_modulus kx ky kz
         x_brace_offset y_brace_offset flexural torsional Fn Ae
       /\ returned_capacity design_method return_report Fn Ae value.
Proof.
  intros H. cbv zeta.
  apply w_section_capacity_computed in H as (s & Hs & _ & -> & Hstresses & Hvalue).
  apply w_section_stages_inv in Hs as (_ & _ & _ & _ & _ & _ & _ & Hsl).
  apply w_is_slender_comp_inv in Hsl. unfold w_slender_condition in Hsl.
  split; [rewrite note_in_stage_notes; exact Hsl|].
  split; [|split].
  - intros Hcond. apply Hsl in Hcond. unfold stage_notes. rewrite Hcond. reflexivity.
  - intros Hcond. unfold stage_notes. destruct (st_slender s); [|reflexivity].
    exfalso. apply Hcond, Hsl. reflexivity.
  - eexists _, _, _, _. split; [exact Hstresses | exact Hvalue].
Qed.

(** C6.  A zero unbraced length is replaced by the constant [0.00001] and
    the calculation carried out on it.  The result of a call is that of the
    same call on the replaced lengths; a non-zero length is used as it is;
    and every call that returns, zero lengths included, returns the capacity
    which the component functions give on the replaced lengths.  The
    replacement does not exclude a division by zero: with both
    effective-length factors zero the governing slenderness is zero whatever
    the lengths, and the call fails with [ZeroDivisionError]. *)
Theorem zero_length_substitution (design_method : string) (return_report : bool) :
  w_section_capacity area Ix Iy J warping_constant flange_width flange_thickness
    section_depth kdes web_thickness unbraced_length_x unbraced_length_y
    unbraced_length_z yield_stress design_method elastic_modulus shear_modulus
    kx ky kz x_brace_offset y_brace_offset return_report
  = w_section_capacity area Ix Iy J warping_constant flange_width flange_thickness
      section_depth kdes web_thickness (nonzero_length unbraced_length_x)
      (nonzero_length unbraced_length_y) (nonzero_length unbraced_length_z)
      yield_stress design_method elastic_modulus shear_modulus
      kx ky kz x_brace_offset y_brace_offset return_report
  /\ nonzero_length 0 = 0.00001
  /\ 0 < 0.00001
  /\ (forall L, L <> 0 -> nonzero_length L = L)
  /\ (forall value warnings notes,
        w_section_capacity area Ix Iy J warping_constant flange_width flange_thickness
          section_depth kdes web_thickness unbraced_length_x unbraced_length_y
          unbraced_length_z yield_stress design_method elastic_modulus shear_modulus
          kx ky kz x_brace_offset y_brace_offset return_report
        = Ok (value, warnings, notes) ->
        exists flexural torsional Fn Ae,
          computed_stresses area Ix Iy J warping_constant flange_width flange_thickness
            section_depth kdes web_thickness unbraced_length_x unbraced_length_y
            unbraced_length_z yield_stress elastic_modulus shear_modulus kx ky kz
            x_brace_offset y_brace_offset flexural torsional Fn Ae
          /\ returned_capacity design_method return_report Fn Ae value)
  /\ (0 < area -> 0 < Ix -> 0 < Iy -> kx = 0 -> ky = 0 ->
      w_section_capacity area Ix Iy J warping_constant flange_width flange_thickness
        section_depth kdes web_thickness unbraced_length_x unbraced_length_y
        unbraced_length_z yield_stress design_method elastic_modulus shear_modulus
        kx ky kz x_brace_offset y_brace_offset return_report
      = Raise ZeroDivisionError).
Proof.
  split; [|split; [apply nonzero_length_zero|split; [lra|split; [|split]]]].
  - rewrite !w_section_capacity_stages. unfold w_section_stages.
    rewrite !nonzero_length_idem. reflexivity.
  - apply nonzero_length_other.
  - intros value warnings notes H.
    apply w_section_capacity_computed in H as (s & _ & _ & _ & Hstresses & Hvalue).
    eexists _, _, _, _. split; [exact Hstresses | exact Hvalue].
  - intros HA HIx HIy -> ->. apply zero_slenderness_raises; assumption.
Qed.

End Capacity.

(** ** The sections of the test suite *)

Ltac valid_inputs :=
  unfold valid_section, valid_material, valid_bracing, recognised,
    STEEL_ELASTIC_MODULUS, STEEL_SHEAR_MODULUS;
  repeat split; solve [lra | auto].

(** W10X33, 10 ft unbraced in every axis, [Fy = 50], ASD. *)
Lemma w_section_capacity_total_witness :
  exists value warnings notes,
    w_section_capacity 9.71 171 36.6 0.583 791 7.96 0.435 9.73 0.935 0.290
      120 120 120 50 "ASD" STEEL_ELASTIC_MODULUS STEEL_SHEAR_MODULUS 1 1 1 0 0 false
    = Ok (value, warnings, notes).
Proof.
  apply (w_section_capacity_total 9.71 171 36.6 0.583 791 7.96 0.435 9.73 0.935 0.290
           120 120 120 50 STEEL_ELASTIC_MODULUS STEEL_SHEAR_MODULUS 1 1 1 0 0 "ASD" false);
    valid_inputs.
Defined.

Section Underflow.

Import PrimFloat.

#[local] Set Warnings "-inexact-float".

(** The claim of C10 fails on floats.  The W10X33 with the least positive
    float, [5e-324], as its moment of inertia [Ix]: every number is positive,
    [Ix / area] rounds to [0.0], so [rx = sqrt (Ix / area)] is [0.0], and
    [member_slenderness] divides by it at line 187. *)
Lemma binary64_zero_radius :
  forallb Binary64.positive [9.71; 5e-324; 36.6; 120; 1]%float = true
  /\ (5e-324 / 9.71 = 0)%float
  /\ Binary64.design_slenderness 9.71 5e-324 36.6 120 120 1 1 = Raise ZeroDivisionError.
Proof. repeat split; reflexivity. Qed.

End Underflow.

(** W10X33 again: the three design methods on one input. *)
Lemma design_method_reduction_witness :
  exists Pn warnings notes,
    w_section_capacity 9.71 171 36.6 0.583 791 7.96 0.435 9.73 0.935 0.290
      120 120 120 50 "nominal" STEEL_ELASTIC_MODULUS STEEL_SHEAR_MODULUS 1 1 1 0 0 false
    = Ok (Strength Pn, warnings, notes)
    /\ w_section_capacity 9.71 171 36.6 0.583 791 7.96 0.435 9.73 0.935 0.290
         120 120 120 50 "LRFD" STEEL_ELASTIC_MODULUS STEEL_SHEAR_MODULUS 1 1 1 0 0 false
       = Ok (Strength (0.90 * Pn), warnings, notes)
    /\ w_section_capacity 9.71 171 36.6 0.583 791 7.96 0.435 9.73 0.935 0.290
         120 120 120 50 "ASD" STEEL_ELASTIC_MODULUS STEEL_SHEAR_MODULUS 1 1 1 0 0 false
       = Ok (Strength (Pn / 1.67), warnings, notes).
Proof.
  destruct (w_section_capacity_returns 9.71 171 36.6 0.583 791 7.96 0.435 9.73 0.935
              0.290 120 120 120 50 "nominal" STEEL_ELASTIC_MODULUS STEEL_SHEAR_MODULUS
              1 1 1 0 0 false) as (s & p & _ & _ & Hrun); try valid_inputs.
  cbn [design_strength] in Hrun.
  destruct (design_method_reduction 9.71 171 36.6 0.583 791 7.96 0.435 9.73 0.935 0.290
              120 120 120 50 STEEL_ELASTIC_MODULUS STEEL_SHEAR_MODULUS 1 1 1 0 0
              _ _ _ Hrun) as (HLRFD & HASD & _).
  exists p, (stage_warnings s 0 0), (stage_notes s).
  split; [exact Hrun|]. split; [exact HLRFD | exact HASD].
Defined.

(** W10X33, report requested: the [Fn] row is the minimum of the two
    stress rows. *)
Lemma governing_stress_is_minimum_witness :
  exists rows warnings notes flexural torsional,
    w_section_capacity 9.71 171 36.6 0.583 791 7.96 0.435 9.73 0.935 0.290
      120 120 120 50 "ASD" STEEL_ELASTIC_MODULUS STEEL_SHEAR_MODULUS 1 1 1 0 0 true
    = Ok (Report rows, warnings, notes)
    /\ dict_get rows "Nominal flexural buckling stress (Eqns E3-2, E3-3)"
       = Some (flexural, "stress"%string)
    /\ dict_get rows "Nominal torsional buckling stress (Eqns E4-10, E4-12)"
       = Some (torsional, "stress"%string)
    /\ dict_get rows "Governing nominal buckling stress, Fn"
       = Some (Rmin flexural torsional, "stress"%string).
Proof.
  destruct (w_section_capacity_returns 9.71 171 36.6 0.583 791 7.96 0.435 9.73 0.935
              0.290 120 120 120 50 "ASD" STEEL_ELASTIC_MODULUS STEEL_SHEAR_MODULUS
              1 1 1 0 0 true) as (s & p & _ & _ & Hrun); try valid_inputs.
  destruct (governing_stress_is_minimum 9.71 171 36.6 0.583 791 7.96 0.435 9.73 0.935
              0.290 120 120 120 50 STEEL_ELASTIC_MODULUS STEEL_SHEAR_MODULUS 1 1 1 0 0
              _ _ _ _ _ Hrun)
    as (flexural & torsional & Fn & Ae & p' & _ & _ & HFn & _ & _ & _ & Hrows).
  destruct (Hrows eq_refl) as (rows & Hvalue & Hflex & Htors & HFnrow & _).
  exists rows, (stage_warnings s 0 0), (stage_notes s), flexural, torsional.
  rewrite <- Hvalue, <- HFn. split; [exact Hrun|].
  split; [exact Hflex|]. split; [|exact HFnrow].
  unfold torsional_label, truthy in Htors.
  destruct (Req_dec_T 0 0) as [_|Hne]; [exact Htors | contradiction].
Defined.

(** W14X145 with every unbraced length zero: the call is the call at
    [0.00001], and the strength it returns is computed at [0.00001]. *)
Lemma zero_length_substitution_witness :
  w_section_capacity 42.7 1710 677 15.2 31700 15.5 1.09 14.8 1.69 0.680
    0 0 0 50 "LRFD" STEEL_ELASTIC_MODULUS STEEL_SHEAR_MODULUS 1 1 1 0 0 false
  = w_section_capacity 42.7 1710 677 15.2 31700 15.5 1.09 14.8 1.69 0.680
      0.00001 0.00001 0.00001 50 "LRFD" STEEL_ELASTIC_MODULUS STEEL_SHEAR_MODULUS
      1 1 1 0 0 false
  /\ exists value warnings notes flexural torsional Fn Ae,
       w_section_capacity 42.7 1710 677 15.2 31700 15.5 1.09 14.8 1.69 0.680
         0 0 0 50 "LRFD" STEEL_ELASTIC_MODULUS STEEL_SHEAR_MODULUS 1 1 1 0 0 false
       = Ok (value, warnings, notes)
       /\ computed_stresses 42.7 1710 677 15.2 31700 15.5 1.09 14.8 1.69 0.680
            0 0 0 50 STEEL_ELASTIC_MODULUS STEEL_SHEAR_MODULUS 1 1 1 0 0
            flexural torsional Fn Ae
       /\ returned_capacity "LRFD" false Fn Ae value.
Proof.
  destruct (zero_length_substitution 42.7 1710 677 15.2 31700 15.5 1.09 14.8 1.69 0.680
              0 0 0 50 STEEL_ELASTIC_MODULUS STEEL_SHEAR_MODULUS 1 1 1 0 0 "LRFD" false)
    as (Heq & Hzero & _ & _ & Hcomputed & _).
  split.
  - rewrite Hzero in Heq. exact Heq.
  - destruct (w_section_capacity_returns 42.7 1710 677 15.2 31700 15.5 1.09 14.8 1.69
                0.680 0 0 0 50 "LRFD" STEEL_ELASTIC_MODULUS STEEL_SHEAR_MODULUS
                1 1 1 0 0 false) as (s & p & _ & _ & Hrun); try valid_inputs.
    destruct (Hcomputed _ _ _ Hrun) as (flexural & torsional & Fn & Ae & Hst & Hv).
    exists (Strength p), (stage_warnings s 0 0), (stage_notes s), flexural, torsional,
      Fn, Ae.
    split; [exact Hrun|]. split; [exact Hst | exact Hv].
Defined.

(** The claim of C6 fails as it is stated.  W14X145 with every unbraced
    length zero and both effective-length factors zero: the lengths are
    replaced by [0.00001], the governing slenderness is [0], and the Euler
    stress divides by its square. *)
Lemma zero_length_zero_factors_raise :
  w_section_capacity 42.7 1710 677 15.2 31700 15.5 1.09 14.8 1.69 0.680
    0 0 0 50 "LRFD" STEEL_ELASTIC_MODULUS STEEL_SHEAR_MODULUS 0 0 1 0 0 false
  = Raise ZeroDivisionError.
Proof. apply zero_slenderness_raises; lra. Qed.

(** Bounds on the weak-axis radius of gyration of the W10X22. *)
Lemma W10X22_ry_bound : sqrt (11.4 / 6.49) < 1.44.
Proof.
  rewrite <- (sqrt_square 1.44) at 1 by lra. apply sqrt_lt_1_alt. lra.
Qed.

(** W10X22, 24 ft unbraced in every axis: the slenderness about the weak
    axis is above 200, the warning is raised and a capacity is returned. *)
Lemma slenderness_warning_witness :
  exists value warnings notes,
    w_section_capacity 6.49 118 11.4 0.239 275 5.75 0.360 10.2 0.660 0.240
      288 288 288 50 "LRFD" STEEL_ELASTIC_MODULUS STEEL_SHEAR_MODULUS 1 1 1 0 0 false
    = Ok (value, warnings, notes)
    /\ In "Slenderness ratio exceeds 200."%string warnings.
Proof.
  destruct (slenderness_warning 6.49 118 11.4 0.239 275 5.75 0.360 10.2 0.660 0.240
              288 288 288 50 STEEL_ELASTIC_MODULUS STEEL_SHEAR_MODULUS 1 1 1 0 0
              "LRFD" false) as (Hiff & _ & _ & _).
  destruct (w_section_capacity_returns 6.49 118 11.4 0.239 275 5.75 0.360 10.2 0.660
              0.240 288 288 288 50 "LRFD" STEEL_ELASTIC_MODULUS STEEL_SHEAR_MODULUS
              1 1 1 0 0 false) as (s & p & _ & _ & Hrun); try valid_inputs.
  eexists _, _, _. split; [exact Hrun|].
  apply (Hiff _ _ _ Hrun).
  rewrite (nonzero_length_other 288) by lra.
  apply Rlt_gt. eapply Rlt_le_trans; [|apply Rmax_r].
  pose proof W10X22_ry_bound as Hry.
  assert (Hpos : 0 < sqrt (11.4 / 6.49)) by (apply sqrt_lt_R0; lra).
  apply (Rmult_lt_reg_r (sqrt (11.4 / 6.49))); [exact Hpos|].
  unfold Rdiv. rewrite Rmult_assoc, Rinv_l by lra. lra.
Defined.

(** W10X22, 5 ft unbraced about the weak axis: the web is slender on the
    height [d - kdes] and the note is returned. *)
Lemma slender_note_witness :
  exists value warnings,
    w_section_capacity 6.49 118 11.4 0.239 275 5.75 0.360 10.2 0.660 0.240
      231.12 60 60 50 "LRFD" STEEL_ELASTIC_MODULUS STEEL_SHEAR_MODULUS 1 1 1 0 0 false
    = Ok (value, warnings, ["Shape is slender for compression."%string]).
Proof.
  destruct (w_section_capacity_returns 6.49 118 11.4 0.239 275 5.75 0.360 10.2 0.660
              0.240 231.12 60 60 50 "LRFD" STEEL_ELASTIC_MODULUS STEEL_SHEAR_MODULUS
              1 1 1 0 0 false) as (s & p & _ & _ & Hrun); try valid_inputs.
  destruct (slender_note 6.49 118 11.4 0.239 275 5.75 0.360 10.2 0.660 0.240
              231.12 60 60 50 STEEL_ELASTIC_MODULUS STEEL_SHEAR_MODULUS 1 1 1 0 0
              _ _ _ _ _ Hrun) as (_ & Hnote & _).
  exists (Strength p), (stage_warnings s 0 0).
  rewrite <- Hnote; [exact Hrun|].
  right. pose proof sqrt_580_bounds. lra.
Defined.

(** * Further properties of the code *)

(** ** Powers of 0.658 *)

Lemma ln_658_neg : ln 0.658 < 0.
Proof. rewrite <- ln_1. apply ln_increasing; lra. Qed.

Lemma pow658_pos (r : R) : 0 < Rpower 0.658 r.
Proof. unfold Rpower. apply exp_pos. Qed.

Lemma pow658_decreasing (a b : R) : a < b -> Rpower 0.658 b < Rpower 0.658 a.
Proof.
  intros Hab. unfold Rpower. apply exp_increasing.
  pose proof ln_658_neg. nra.
Qed.

Lemma pow658_lt_1 (r : R) : 0 < r -> Rpower 0.658 r < 1.
Proof.
  intros Hr. rewrite <- (Rpower_O 0.658) by lra. apply pow658_decreasing, Hr.
Qed.

Lemma sqrt_between (x lo hi : R) :
  0 <= lo -> 0 <= hi -> lo * lo < x -> x < hi * hi -> lo < sqrt x < hi.
Proof.
  intros Hlo Hhi Hl Hh. split.
  - rewrite <- (sqrt_square lo) by assumption. apply sqrt_lt_1_alt. nra.
  - rewrite <- (sqrt_square hi) by assumption. apply sqrt_lt_1_alt. nra.
Qed.

(** [0.658 ^ 2.25 = 0.658 ^ 2 * sqrt (sqrt 0.658)]. *)
Lemma pow658_threshold : Rpower 0.658 2.25 = 0.658 ^ 2 * sqrt (sqrt 0.658).
Proof.
  replace 2.25 with (INR 2 + / 2 * / 2) by (simpl; lra).
  rewrite Rpower_plus, Rpower_pow by lra.
  rewrite <- (Rpower_mult 0.658 (/ 2) (/ 2)).
  rewrite (Rpower_sqrt 0.658) by lra.
  rewrite Rpower_sqrt by (apply sqrt_lt_R0; lra). reflexivity.
Qed.

Lemma pow658_threshold_bounds : 0.389944 < Rpower 0.658 2.25 < 0.389954.
Proof.
  rewrite pow658_threshold.
  destruct (sqrt_between 0.658 0.81117 0.81118) as (Hl & Hh); try lra.
  destruct (sqrt_between (sqrt 0.658) 0.90064 0.90066) as (Hl' & Hh'); lra.
Qed.

(** ** Elastic and nominal flexural buckling stress *)

Lemma euler_stress_decreasing (E s1 s2 : R) :
  0 < E -> 0 < s1 -> s1 < s2 -> PI ^ 2 * E / s2 ^ 2 < PI ^ 2 * E / s1 ^ 2.
Proof.
  intros HE Hs1 Hs.
  assert (0 < PI ^ 2 * E).
  { apply Rmult_lt_0_compat; [apply pow2_pos, PI_neq0 | assumption]. }
  unfold Rdiv. apply Rmult_lt_compat_l; [assumption|].
  apply Rinv_lt_contravar; [|nra].
  apply Rmult_lt_0_compat; apply pow2_pos; lra.
Qed.

Lemma critical_stress_inelastic (Fy Fe : R) :
  Fy / Fe <= 2.25 -> critical_stress Fy Fe = Rpower 0.658 (Fy / Fe) * Fy.
Proof.
  intros H. unfold critical_stress, py_le, py_pow.
  destruct (Rle_dec (Fy / Fe) 2.25); [reflexivity | contradiction].
Qed.

Lemma critical_stress_elastic (Fy Fe : R) :
  Fy / Fe > 2.25 -> critical_stress Fy Fe = 0.877 * Fe.
Proof.
  intros H. unfold critical_stress, py_le.
  destruct (Rle_dec (Fy / Fe) 2.25); [lra | reflexivity].
Qed.

Lemma ratio_decreasing (Fy Fe1 Fe2 : R) :
  0 < Fy -> 0 < Fe1 -> Fe1 < Fe2 -> Fy / Fe2 < Fy / Fe1.
Proof.
  intros HFy H1 H12. unfold Rdiv. apply Rmult_lt_compat_l; [assumption|].
  apply Rinv_lt_contravar; nra.
Qed.

Lemma ratio_bound (Fy Fe c : R) : 0 < Fe -> (Fy / Fe <= c <-> Fy <= c * Fe).
Proof.
  intros HFe. split; intros H.
  - apply (Rmult_le_compat_r Fe) in H; [|lra].
    unfold Rdiv in H. rewrite Rmult_assoc, Rinv_l in H by lra. lra.
  - apply (Rmult_le_reg_r Fe); [assumption|].
    unfold Rdiv. rewrite Rmult_assoc, Rinv_l by lra. lra.
Qed.

Lemma critical_stress_increasing (Fy Fe1 Fe2 : R) :
  0 < Fy -> 0 < Fe1 -> Fe1 < Fe2 -> critical_stress Fy Fe1 < critical_stress Fy Fe2.
Proof.
  intros HFy H1 H12.
  pose proof (ratio_decreasing Fy Fe1 Fe2 HFy H1 H12) as Hr.
  destruct (Rle_dec (Fy / Fe1) 2.25) as [Hin1|Hel1].
  - rewrite !critical_stress_inelastic by lra.
    apply Rmult_lt_compat_r; [assumption | apply pow658_decreasing, Hr].
  - destruct (Rle_dec (Fy / Fe2) 2.25) as [Hin2|Hel2].
    + rewrite critical_stress_elastic, critical_stress_inelastic by lra.
      assert (Hb : Fy > 2.25 * Fe1).
      { apply Rnot_le_gt. intros Hc. apply Hel1, ratio_bound; assumption. }
      assert (Hp : Rpower 0.658 2.25 <= Rpower 0.658 (Fy / Fe2)).
      { destruct Hin2 as [Hlt | ->]; [apply Rlt_le, pow658_decreasing, Hlt | lra]. }
      pose proof pow658_threshold_bounds. nra.
    + rewrite !critical_stress_elastic by lra. lra.
Qed.

(** X1.  [elastic_buckling_stress] fails with [ZeroDivisionError] on a
    zero slenderness.  For a positive modulus it is positive and strictly
    decreasing on positive slenderness values: a more slender member has a
    smaller elastic buckling stress. *)
Theorem elastic_buckling_stress_decreasing (E s1 s2 : R) :
  0 < E -> 0 < s1 -> s1 < s2 ->
  elastic_buckling_stress 0 E = Raise ZeroDivisionError
  /\ exists Fe1 Fe2,
       elastic_buckling_stress s1 E = Ok Fe1
       /\ elastic_buckling_stress s2 E = Ok Fe2
       /\ 0 < Fe2 /\ Fe2 < Fe1.
Proof.
  intros HE Hs1 Hs. split.
  - unfold elastic_buckling_stress. replace (0 ^ 2) with 0 by ring. apply py_div_zero.
  - exists (PI ^ 2 * E / s1 ^ 2), (PI ^ 2 * E / s2 ^ 2).
    rewrite !elastic_buckling_stress_Ok by lra.
    repeat split; [apply euler_stress_pos; lra | apply euler_stress_decreasing; lra].
Qed.

(** The two slenderness values of [test_elastic_buckling_stress]. *)
Lemma elastic_buckling_stress_decreasing_witness :
  exists Fe1 Fe2,
    elastic_buckling_stress 68.5 STEEL_ELASTIC_MODULUS = Ok Fe1
    /\ elastic_buckling_stress 145 STEEL_ELASTIC_MODULUS = Ok Fe2
    /\ 0 < Fe2 /\ Fe2 < Fe1.
Proof.
  apply (elastic_buckling_stress_decreasing STEEL_ELASTIC_MODULUS 68.5 145);
    unfold STEEL_ELASTIC_MODULUS; lra.
Defined.

(** X2.  How [nominal_flexural_buckling_stress] reads its optional
    arguments.  A non-zero [elastic_stress] is used as given, and the
    slenderness and the modulus are ignored.  An [elastic_stress] of zero is
    treated like a missing one: the stress is computed from the slenderness,
    and for a non-zero slenderness and modulus the result is that of passing
    the Euler stress itself.  With neither argument the call is a
    [TypeError]; with a zero slenderness it is a [ZeroDivisionError]. *)
Theorem nominal_flexural_buckling_stress_arguments (Fy E : R) :
  (forall Fe sl sl' E',
     Fe <> 0 ->
     nominal_flexural_buckling_stress Fy (Some Fe) sl E
     = nominal_flexural_buckling_stress Fy (Some Fe) sl' E')
  /\ (forall sl,
        nominal_flexural_buckling_stress Fy (Some 0) sl E
        = nominal_flexural_buckling_stress Fy None sl E)
  /\ (forall sl,
        sl <> 0 -> E <> 0 ->
        nominal_flexural_buckling_stress Fy None (Some sl) E
        = nominal_flexural_buckling_stress Fy (Some (PI ^ 2 * E / sl ^ 2)) None E)
  /\ nominal_flexural_buckling_stress Fy None None E = Raise TypeError
  /\ nominal_flexural_buckling_stress Fy None (Some 0) E = Raise ZeroDivisionError.
Proof.
  split; [|split; [|split; [|split]]].
  - intros Fe sl sl' E' HFe. rewrite !nominal_flexural_given by assumption. reflexivity.
  - intros sl. unfold nominal_flexural_buckling_stress, truthy.
    destruct (Req_dec_T 0 0); [reflexivity | contradiction].
  - intros sl Hsl HE.
    assert (HFe : PI ^ 2 * E / sl ^ 2 <> 0).
    { apply Rmult_integral_contrapositive_currified.
      - apply Rmult_integral_contrapositive_currified;
          [apply pow2_neq, PI_neq0 | assumption].
      - apply Rinv_neq_0_compat, pow2_neq, Hsl. }
    rewrite nominal_flexural_given by assumption.
    unfold nominal_flexural_buckling_stress.
    rewrite elastic_buckling_stress_Ok by assumption. cbn [bind].
    rewrite py_div_Ok by assumption. cbn [bind]. unfold critical_stress.
    destruct (py_le _ 2.25); reflexivity.
  - reflexivity.
  - unfold nominal_flexural_buckling_stress, elastic_buckling_stress.
    replace (0 ^ 2) with 0 by ring. rewrite py_div_zero. reflexivity.
Qed.

(** The first case of [test_nominal_flexural_buckling_stress], by its
    slenderness and by its Euler stress. *)
Lemma nominal_flexural_buckling_stress_arguments_witness :
  nominal_flexural_buckling_stress 50 None (Some 68.5) STEEL_ELASTIC_MODULUS
  = nominal_flexural_buckling_stress 50
      (Some (PI ^ 2 * STEEL_ELASTIC_MODULUS / 68.5 ^ 2)) None STEEL_ELASTIC_MODULUS.
Proof.
  apply (proj1 (proj2 (proj2
           (nominal_flexural_buckling_stress_arguments 50 STEEL_ELASTIC_MODULUS))));
    unfold STEEL_ELASTIC_MODULUS; lra.
Defined.

Lemma pow658_at_1 : Rpower 0.658 1 = 0.658.
Proof. apply Rpower_1. lra. Qed.

Lemma pow658_at_2 : Rpower 0.658 2 = 0.658 ^ 2.
Proof. replace 2 with (INR 2) at 1 by (simpl; lra). apply Rpower_pow. lra. Qed.

Lemma pow658_at_1_5 : Rpower 0.658 1.5 < 0.53377.
Proof.
  replace 1.5 with (1 + / 2) by lra.
  rewrite Rpower_plus, pow658_at_1, Rpower_sqrt by lra.
  destruct (sqrt_between 0.658 0.81117 0.81118) as (Hl & Hh); lra.
Qed.

Lemma pow658_at_1_75 : Rpower 0.658 1.75 < 0.48074.
Proof.
  replace 1.75 with (1 + / 2 + / 2 * / 2) by lra.
  rewrite !Rpower_plus, pow658_at_1.
  rewrite <- (Rpower_mult 0.658 (/ 2) (/ 2)).
  rewrite (Rpower_sqrt 0.658) by lra.
  rewrite Rpower_sqrt by (apply sqrt_lt_R0; lra).
  destruct (sqrt_between 0.658 0.81117 0.81118) as (Hl & Hh); try lra.
  destruct (sqrt_between (sqrt 0.658) 0.90064 0.90066) as (Hl' & Hh'); try lra.
  nra.
Qed.

(** [r * 0.658 ^ r < 1] on the inelastic regime: by intervals, on each of
    which the power is bounded by its value at the left end. *)
Lemma ratio_times_pow658 (r : R) : 0 < r -> r <= 2.25 -> r * Rpower 0.658 r < 1.
Proof.
  intros H0 H1. pose proof (pow658_pos r) as Hpos.
  destruct (Rle_dec r 1) as [Ha|Ha].
  { pose proof (pow658_lt_1 r H0). nra. }
  destruct (Rle_dec r 1.5) as [Hb|Hb].
  { pose proof (pow658_decreasing 1 r ltac:(lra)) as Hd. rewrite pow658_at_1 in Hd. nra. }
  destruct (Rle_dec r 1.75) as [Hc|Hc].
  { pose proof (pow658_decreasing 1.5 r ltac:(lra)). pose proof pow658_at_1_5. nra. }
  destruct (Rle_dec r 2) as [Hd|Hd].
  { pose proof (pow658_decreasing 1.75 r ltac:(lra)). pose proof pow658_at_1_75. nra. }
  pose proof (pow658_decreasing 2 r ltac:(lra)) as He. rewrite pow658_at_2 in He. nra.
Qed.

(** X3.  For a positive yield stress and a positive elastic stress the
    nominal flexural buckling stress is positive and strictly below both the
    yield stress and the elastic stress it is computed from. *)
Theorem nominal_flexural_buckling_stress_bounds (Fy Fe : R)
    (slenderness : option R) (elastic_modulus : R) :
  0 < Fy -> 0 < Fe ->
  exists Fn,
    nominal_flexural_buckling_stress Fy (Some Fe) slenderness elastic_modulus = Ok Fn
    /\ 0 < Fn /\ Fn < Fy /\ Fn < Fe.
Proof.
  intros HFy HFe. exists (critical_stress Fy Fe).
  rewrite nominal_flexural_given by lra.
  split; [reflexivity|]. split; [apply critical_stress_pos; assumption|].
  assert (Hr : 0 < Fy / Fe) by (apply Rdiv_lt_0_compat; assumption).
  assert (HFyr : Fy = Fy / Fe * Fe) by (field; lra).
  destruct (Rle_dec (Fy / Fe) 2.25) as [Hin|Hel].
  - rewrite critical_stress_inelastic by assumption.
    pose proof (pow658_lt_1 _ Hr). pose proof (ratio_times_pow658 _ Hr Hin) as Hlt.
    split; [nra|].
    rewrite HFyr at 2. rewrite <- Rmult_assoc, (Rmult_comm (Rpower _ _)). nra.
  - rewrite critical_stress_elastic by lra.
    assert (Fy > 2.25 * Fe).
    { apply Rnot_le_gt. intros Hc. apply Hel, ratio_bound; assumption. }
    lra.
Qed.

Lemma nominal_flexural_buckling_stress_bounds_witness :
  exists Fn,
    nominal_flexural_buckling_stress 50 (Some 20) None STEEL_ELASTIC_MODULUS = Ok Fn
    /\ 0 < Fn /\ Fn < 50 /\ Fn < 20.
Proof.
  apply (nominal_flexural_buckling_stress_bounds 50 20 None STEEL_ELASTIC_MODULUS);
    lra.
Defined.

(** X4.  The two regimes do not meet at the threshold.  At
    [Fy / Fe = 2.25] the inelastic formula applies, and its value is above
    every value of the elastic regime by more than 0.016 % of [Fy]; against
    the elastic formula at the threshold itself the gap is below 0.018 % of
    [Fy]. *)
Theorem nominal_flexural_buckling_stress_threshold_gap (Fy Fe : R)
    (slenderness : option R) (elastic_modulus : R) :
  0 < Fy -> 0 < Fe -> Fe < Fy / 2.25 ->
  exists at_threshold beyond,
    nominal_flexural_buckling_stress Fy (Some (Fy / 2.25)) slenderness elastic_modulus
    = Ok at_threshold
    /\ nominal_flexural_buckling_stress Fy (Some Fe) slenderness elastic_modulus
       = Ok beyond
    /\ beyond = 0.877 * Fe
    /\ 0.00016 * Fy < at_threshold - beyond
    /\ at_threshold - 0.877 * (Fy / 2.25) < 0.00018 * Fy.
Proof.
  intros HFy HFe Hb.
  assert (Hratio : Fy / (Fy / 2.25) = 2.25) by (field; lra).
  assert (Hel : Fy / Fe > 2.25).
  { apply Rnot_le_gt. intros Hc. apply (proj1 (ratio_bound Fy Fe 2.25 HFe)) in Hc. lra. }
  exists (critical_stress Fy (Fy / 2.25)), (critical_stress Fy Fe).
  rewrite !nominal_flexural_given by lra.
  rewrite critical_stress_inelastic by lra.
  rewrite critical_stress_elastic by assumption. rewrite Hratio.
  pose proof pow658_threshold_bounds.
  repeat split; nra.
Qed.

Lemma nominal_flexural_buckling_stress_threshold_gap_witness :
  exists at_threshold beyond,
    nominal_flexural_buckling_stress 45 (Some (45 / 2.25)) None STEEL_ELASTIC_MODULUS
    = Ok at_threshold
    /\ nominal_flexural_buckling_stress 45 (Some 19) None STEEL_ELASTIC_MODULUS
       = Ok beyond
    /\ beyond = 0.877 * 19
    /\ 0.00016 * 45 < at_threshold - beyond
    /\ at_threshold - 0.877 * (45 / 2.25) < 0.00018 * 45.
Proof.
  apply (nominal_flexural_buckling_stress_threshold_gap 45 19 None STEEL_ELASTIC_MODULUS);
    lra.
Defined.

(** X5.  Computed from the slenderness, the nominal flexural buckling
    stress is strictly decreasing in the slenderness, across both regimes
    and the threshold between them. *)
Theorem nominal_flexural_buckling_stress_decreasing (Fy E s1 s2 : R) :
  0 < Fy -> 0 < E -> 0 < s1 -> s1 < s2 ->
  exists Fn1 Fn2,
    nominal_flexural_buckling_stress Fy None (Some s1) E = Ok Fn1
    /\ nominal_flexural_buckling_stress Fy None (Some s2) E = Ok Fn2
    /\ Fn2 < Fn1.
Proof.
  intros HFy HE Hs1 Hs.
  exists (critical_stress Fy (PI ^ 2 * E / s1 ^ 2)), (critical_stress Fy (PI ^ 2 * E / s2 ^ 2)).
  rewrite !nominal_flexural_from_slenderness by lra.
  split; [reflexivity|]. split; [reflexivity|].
  apply critical_stress_increasing; [assumption | apply euler_stress_pos; lra |].
  apply euler_stress_decreasing; assumption.
Qed.

(** The two slenderness values of [test_nominal_flexural_buckling_stress]:
    68.5 is in the inelastic regime and 145 in the elastic one. *)
Lemma nominal_flexural_buckling_stress_decreasing_witness :
  exists Fn1 Fn2,
    nominal_flexural_buckling_stress 50 None (Some 68.5) STEEL_ELASTIC_MODULUS = Ok Fn1
    /\ nominal_flexural_buckling_stress 50 None (Some 145) STEEL_ELASTIC_MODULUS = Ok Fn2
    /\ Fn2 < Fn1.
Proof.
  apply (nominal_flexural_buckling_stress_decreasing 50 STEEL_ELASTIC_MODULUS 68.5 145);
    unfold STEEL_ELASTIC_MODULUS; lra.
Defined.

(** ** Torsional and flexural-torsional elastic stresses *)

(** X6.  [ft_elastic_buckling_stress_doubly_symmetric] fails with
    [ZeroDivisionError] on a zero torsional length.  On positive inputs it
    is strictly decreasing in the torsional length and stays above
    [G * J / (Ix + Iy)], the value it tends to for a long member. *)
Theorem ft_doubly_symmetric_decreasing (L1 L2 Cw Ix Iy J E G : R) :
  0 < Cw -> 0 < Ix -> 0 < Iy -> 0 < J -> 0 < E -> 0 < G -> 0 < L1 -> L1 < L2 ->
  ft_elastic_buckling_stress_doubly_symmetric 0 Cw Ix Iy J E G = Raise ZeroDivisionError
  /\ exists Fe1 Fe2,
       ft_elastic_buckling_stress_doubly_symmetric L1 Cw Ix Iy J E G = Ok Fe1
       /\ ft_elastic_buckling_stress_doubly_symmetric L2 Cw Ix Iy J E G = Ok Fe2
       /\ G * J / (Ix + Iy) < Fe2 /\ Fe2 < Fe1.
Proof.
  intros HCw HIx HIy HJ HE HG HL1 HL. split.
  - unfold ft_elastic_buckling_stress_doubly_symmetric.
    replace (0 ^ 2) with 0 by ring. rewrite py_div_zero. reflexivity.
  - exists (doubly_symmetric_stress L1 Cw Ix Iy J E G),
      (doubly_symmetric_stress L2 Cw Ix Iy J E G).
    rewrite !ft_doubly_symmetric_Ok by lra.
    split; [reflexivity|]. split; [reflexivity|].
    unfold doubly_symmetric_stress.
    assert (HECw : 0 < E * Cw) by (apply Rmult_lt_0_compat; assumption).
    pose proof (euler_stress_pos L2 (E * Cw) ltac:(lra) HECw) as Hpos.
    pose proof (euler_stress_decreasing (E * Cw) L1 L2 HECw HL1 HL) as Hdec.
    rewrite <- !Rmult_assoc in Hpos, Hdec.
    assert (Hinv : 0 < / (Ix + Iy)) by (apply Rinv_0_lt_compat; lra).
    unfold Rdiv in *. split; apply Rmult_lt_compat_r; (assumption || lra).
Qed.

(** The section of [test_ft_elastic_buckling_stress_doubly_symmetric]. *)
Lemma ft_doubly_symmetric_decreasing_witness :
  exists Fe1 Fe2,
    ft_elastic_buckling_stress_doubly_symmetric 120 9940 2070 92.9 6.03
      STEEL_ELASTIC_MODULUS STEEL_SHEAR_MODULUS = Ok Fe1
    /\ ft_elastic_buckling_stress_doubly_symmetric 206.3 9940 2070 92.9 6.03
         STEEL_ELASTIC_MODULUS STEEL_SHEAR_MODULUS = Ok Fe2
    /\ STEEL_SHEAR_MODULUS * 6.03 / (2070 + 92.9) < Fe2 /\ Fe2 < Fe1.
Proof.
  apply (ft_doubly_symmetric_decreasing 120 206.3 9940 2070 92.9 6.03
           STEEL_ELASTIC_MODULUS STEEL_SHEAR_MODULUS);
    unfold STEEL_ELASTIC_MODULUS, STEEL_SHEAR_MODULUS; lra.
Defined.

Lemma offset_stress_le (w t t' GJ A r0 : R) :
  0 <= w -> t <= t' -> 0 < A -> r0 <> 0 ->
  (w * t + GJ) * 1 / (A * r0 ^ 2) <= (w * t' + GJ) * 1 / (A * r0 ^ 2).
Proof.
  intros Hw Ht HA Hr.
  assert (0 < / (A * r0 ^ 2)).
  { apply Rinv_0_lt_compat, Rmult_lt_0_compat; [assumption | apply pow2_pos, Hr]. }
  unfold Rdiv. apply Rmult_le_compat_r; [lra|]. nra.
Qed.

(** X7.  Which of the two offset formulas governs in
    [nominal_ft_buckling_stress_i_bracing_offset].  The minimum of the two
    elastic stresses is the minor-axis one (Equation E4-10) whenever
    [ya ^ 2 <= Ix / Iy * xa ^ 2], and the major-axis one (Equation E4-12)
    whenever [Ix / Iy * xa ^ 2 <= ya ^ 2].  In particular an offset in x alone
    ([ya = 0]) is always evaluated by the minor-axis formula. *)
Theorem bracing_offset_governing_formula
    (Fy Lcz Ix Iy J A r0 h0 xa ya E G : R) :
  Lcz <> 0 -> 0 < Ix -> 0 < Iy -> 0 < J -> 0 < A -> r0 <> 0 -> 0 < E -> 0 < G ->
  exists major minor,
    ft_elastic_buckling_stress_i_major_axis_offset Lcz Ix Iy J A r0 h0 xa E G = Ok major
    /\ ft_elastic_buckling_stress_i_minor_axis_offset Lcz Iy J A r0 h0 ya E G = Ok minor
    /\ (ya ^ 2 <= Ix / Iy * xa ^ 2 ->
        nominal_ft_buckling_stress_i_bracing_offset Fy Lcz Ix Iy J A r0 h0 xa ya E G
        = nominal_flexural_buckling_stress Fy (Some minor) None STEEL_ELASTIC_MODULUS)
    /\ (Ix / Iy * xa ^ 2 <= ya ^ 2 ->
        nominal_ft_buckling_stress_i_bracing_offset Fy Lcz Ix Iy J A r0 h0 xa ya E G
        = nominal_flexural_buckling_stress Fy (Some major) None STEEL_ELASTIC_MODULUS)
    /\ (ya = 0 ->
        nominal_ft_buckling_stress_i_bracing_offset Fy Lcz Ix Iy J A r0 h0 xa ya E G
        = nominal_flexural_buckling_stress Fy (Some minor) None STEEL_ELASTIC_MODULUS).
Proof.
  intros HL HIx HIy HJ HA Hr HE HG.
  exists (major_axis_offset_stress Lcz Ix Iy J A r0 h0 xa E G),
    (minor_axis_offset_stress Lcz Iy J A r0 h0 ya E G).
  split; [apply ft_major_axis_offset_Ok; lra|].
  split; [apply ft_minor_axis_offset_Ok; lra|].
  pose proof (warping_term_nonneg E Iy Lcz HE HIy HL) as Hw.
  assert (Hminor : ya ^ 2 <= Ix / Iy * xa ^ 2 ->
    nominal_ft_buckling_stress_i_bracing_offset Fy Lcz Ix Iy J A r0 h0 xa ya E G
    = nominal_flexural_buckling_stress Fy
        (Some (minor_axis_offset_stress Lcz Iy J A r0 h0 ya E G)) None
        STEEL_ELASTIC_MODULUS).
  { intros Hle. unfold nominal_ft_buckling_stress_i_bracing_offset.
    rewrite ft_major_axis_offset_Ok, ft_minor_axis_offset_Ok by lra. cbn [bind].
    f_equal. f_equal. unfold py_min.
    destruct (Rlt_dec _ _) as [_|Hnlt]; [reflexivity|].
    apply Rle_antisym; [lra|].
    unfold minor_axis_offset_stress, major_axis_offset_stress.
    apply offset_stress_le; lra. }
  split; [exact Hminor|]. split.
  - intros Hle. unfold nominal_ft_buckling_stress_i_bracing_offset.
    rewrite ft_major_axis_offset_Ok, ft_minor_axis_offset_Ok by lra. cbn [bind].
    f_equal. f_equal. unfold py_min.
    destruct (Rlt_dec _ _) as [Hlt|_]; [|reflexivity].
    exfalso. revert Hlt. apply Rle_not_lt.
    unfold minor_axis_offset_stress, major_axis_offset_stress.
    apply offset_stress_le; lra.
  - intros ->. apply Hminor. replace (0 ^ 2) with 0 by ring.
    apply Rmult_le_pos; [apply Rlt_le, Rdiv_lt_0_compat; assumption | apply pow2_nonneg].
Qed.

(** The W10X33 of the test suite with an offset in x alone. *)
Lemma bracing_offset_governing_formula_witness :
  exists minor,
    ft_elastic_buckling_stress_i_minor_axis_offset 120 36.6 0.583 9.71 22.38 9.295 0
      STEEL_ELASTIC_MODULUS STEEL_SHEAR_MODULUS = Ok minor
    /\ nominal_ft_buckling_stress_i_bracing_offset 50 120 171 36.6 0.583 9.71 22.38
         9.295 1 0 STEEL_ELASTIC_MODULUS STEEL_SHEAR_MODULUS
       = nominal_flexural_buckling_stress 50 (Some minor) None STEEL_ELASTIC_MODULUS.
Proof.
  destruct (bracing_offset_governing_formula 50 120 171 36.6 0.583 9.71 22.38 9.295 1 0
              STEEL_ELASTIC_MODULUS STEEL_SHEAR_MODULUS)
    as (major & minor & _ & Hminor & _ & _ & Hx);
    try (unfold STEEL_ELASTIC_MODULUS, STEEL_SHEAR_MODULUS; lra).
  exists minor. split; [exact Hminor | exact (Hx eq_refl)].
Defined.

(** ** Warnings, report and errors of [w_section_capacity] *)

Lemma some_offset_truthy (xa ya : R) :
  xa <> 0 \/ ya <> 0 -> (truthy xa || truthy ya)%bool = true.
Proof.
  intros [H|H]; apply truthy_true in H; rewrite H; [reflexivity|].
  apply Bool.orb_true_r.
Qed.

Lemma both_offsets_truthy (xa ya : R) :
  (truthy xa && truthy ya)%bool = true <-> xa <> 0 /\ ya <> 0.
Proof.
  rewrite Bool.andb_true_iff, !truthy_true. reflexivity.
Qed.

Section Messages.

Variables area Ix Iy J warping_constant flange_width flange_thickness section_depth
  kdes web_thickness unbraced_length_x unbraced_length_y unbraced_length_z
  yield_stress : R.
Variables elastic_modulus shear_modulus kx ky kz x_brace_offset y_brace_offset : R.

(** X8.  Whenever the calculation returns, the warning about bracing
    offsets in both axes is among the warnings if and only if both offsets
    are non-zero.  There are no warnings but this one and the slenderness
    warning, and the slenderness warning comes first. *)
Theorem offset_warning (design_method : string) (return_report : bool)
    (value : capacity_value) (warnings notes : list string) :
  w_section_capacity area Ix Iy J warping_constant flange_width flange_thickness
    section_depth kdes web_thickness unbraced_length_x unbraced_length_y
    unbraced_length_z yield_stress design_method elastic_modulus shear_modulus
    kx ky kz x_brace_offset y_brace_offset return_report
  = Ok (value, warnings, notes) ->
  let slenderness := "Slenderness ratio exceeds 200."%string in
  let offsets :=
    "Torsional buckling results not valid with bracing offset in both axes."%string in
  (In offsets warnings <-> x_brace_offset <> 0 /\ y_brace_offset <> 0)
  /\ (warnings = [] \/ warnings = [slenderness] \/ warnings = [offsets]
      \/ warnings = [slenderness; offsets]).
Proof.
  intros H. cbv zeta. apply w_section_capacity_inv in H as (s & _ & Hc).
  apply conclude_inv in Hc as (p & _ & _ & -> & _).
  rewrite <- both_offsets_truthy. unfold stage_warnings.
  destruct (py_gt (st_design_slenderness s) 200),
    (truthy x_brace_offset && truthy y_brace_offset)%bool; cbn;
    (split; [intuition (discriminate || auto) | auto 6]).
Qed.

(** X9.  A design method that is not recognised is reported only after
    the whole calculation has run: when the calculation itself fails, its
    error is raised, not the design-method error. *)
Theorem calculation_error_first (design_method : string) (return_report : bool)
    (e : exn) :
  ~ recognised design_method ->
  w_section_capacity area Ix Iy J warping_constant flange_width flange_thickness
    section_depth kdes web_thickness unbraced_length_x unbraced_length_y
    unbraced_length_z yield_stress "nominal" elastic_modulus shear_modulus
    kx ky kz x_brace_offset y_brace_offset false = Raise e ->
  w_section_capacity area Ix Iy J warping_constant flange_width flange_thickness
    section_depth kdes web_thickness unbraced_length_x unbraced_length_y
    unbraced_length_z yield_stress design_method elastic_modulus shear_modulus
    kx ky kz x_brace_offset y_brace_offset return_report = Raise e.
Proof.
  intros Hdm. rewrite !w_section_capacity_stages.
  destruct (w_section_stages _ _ _ _ _ _ _ _ _ _ _ _ _ _ _ _ _ _ _ _ _) as [s|e'];
    cbn [bind]; [discriminate | trivial].
Qed.

(** X10.  With a non-zero brace offset the warping constant is not used:
    the result is the same for every value of it. *)
Theorem warping_constant_unused_with_offset (design_method : string)
    (return_report : bool) (other_warping_constant : R) :
  x_brace_offset <> 0 \/ y_brace_offset <> 0 ->
  w_section_capacity area Ix Iy J warping_constant flange_width flange_thickness
    section_depth kdes web_thickness unbraced_length_x unbraced_length_y
    unbraced_length_z yield_stress design_method elastic_modulus shear_modulus
    kx ky kz x_brace_offset y_brace_offset return_report
  = w_section_capacity area Ix Iy J other_warping_constant flange_width
      flange_thickness section_depth kdes web_thickness unbraced_length_x
      unbraced_length_y unbraced_length_z yield_stress design_method elastic_modulus
      shear_modulus kx ky kz x_brace_offset y_brace_offset return_report.
Proof.
  intros Hoff. rewrite !w_section_capacity_stages.
  unfold w_section_stages, torsional_stage.
  rewrite (some_offset_truthy _ _ Hoff). reflexivity.
Qed.

(** X11.  An effective length may be passed in place of the unbraced
    length: for non-zero lengths and factors the result with lengths [L] and
    factors [K] is the result with lengths [K * L] and factors 1. *)
Theorem effective_lengths_as_lengths (design_method : string) (return_report : bool) :
  unbraced_length_x <> 0 -> unbraced_length_y <> 0 -> unbraced_length_z <> 0 ->
  kx <> 0 -> ky <> 0 -> kz <> 0 ->
  w_section_capacity area Ix Iy J warping_constant flange_width flange_thickness
    section_depth kdes web_thickness unbraced_length_x unbraced_length_y
    unbraced_length_z yield_stress design_method elastic_modulus shear_modulus
    kx ky kz x_brace_offset y_brace_offset return_report
  = w_section_capacity area Ix Iy J warping_constant flange_width flange_thickness
      section_depth kdes web_thickness (kx * unbraced_length_x)
      (ky * unbraced_length_y) (kz * unbraced_length_z) yield_stress design_method
      elastic_modulus shear_modulus 1 1 1 x_brace_offset y_brace_offset return_report.
Proof.
  intros HLx HLy HLz Hkx Hky Hkz. rewrite !w_section_capacity_stages.
  unfold w_section_stages, member_slenderness.
  rewrite !nonzero_length_other
    by (assumption || apply Rmult_integral_contrapositive_currified; assumption).
  rewrite !Rmult_1_l, Rmult_1_r, (Rmult_comm unbraced_length_z kz). reflexivity.
Qed.

End Messages.

(** W10X33 with offsets in both axes. *)
Lemma offset_warning_witness :
  exists value warnings notes,
    w_section_capacity 9.71 171 36.6 0.583 791 7.96 0.435 9.73 0.935 0.290
      120 120 120 50 "LRFD" STEEL_ELASTIC_MODULUS STEEL_SHEAR_MODULUS 1 1 1 1 1 false
    = Ok (value, warnings, notes)
    /\ In "Torsional buckling results not valid with bracing offset in both axes."%string
         warnings.
Proof.
  destruct (w_section_capacity_returns 9.71 171 36.6 0.583 791 7.96 0.435 9.73 0.935
              0.290 120 120 120 50 "LRFD" STEEL_ELASTIC_MODULUS STEEL_SHEAR_MODULUS
              1 1 1 1 1 false) as (s & p & _ & _ & Hrun); try valid_inputs.
  destruct (offset_warning 9.71 171 36.6 0.583 791 7.96 0.435 9.73 0.935 0.290
              120 120 120 50 STEEL_ELASTIC_MODULUS STEEL_SHEAR_MODULUS 1 1 1 1 1
              _ _ _ _ _ Hrun) as (Hiff & _).
  exists (Strength p), (stage_warnings s 1 1), (stage_notes s).
  split; [exact Hrun|]. apply Hiff. split; lra.
Defined.

(** A zero area with a design method that does not exist: the division
    by the area fails first. *)
Lemma calculation_error_first_witness :
  w_section_capacity 0 171 36.6 0.583 791 7.96 0.435 9.73 0.935 0.290
    120 120 120 50 "allowable" STEEL_ELASTIC_MODULUS STEEL_SHEAR_MODULUS 1 1 1 0 0 false
  = Raise ZeroDivisionError.
Proof.
  apply (calculation_error_first 0 171 36.6 0.583 791 7.96 0.435 9.73 0.935 0.290
           120 120 120 50 STEEL_ELASTIC_MODULUS STEEL_SHEAR_MODULUS 1 1 1 0 0).
  - intros [H | [H | H]]; discriminate.
  - unfold w_section_capacity. rewrite py_div_zero. reflexivity.
Defined.

Lemma warping_constant_unused_with_offset_witness :
  w_section_capacity 9.71 171 36.6 0.583 791 7.96 0.435 9.73 0.935 0.290
    120 120 120 50 "LRFD" STEEL_ELASTIC_MODULUS STEEL_SHEAR_MODULUS 1 1 1 1 0 false
  = w_section_capacity 9.71 171 36.6 0.583 0 7.96 0.435 9.73 0.935 0.290
      120 120 120 50 "LRFD" STEEL_ELASTIC_MODULUS STEEL_SHEAR_MODULUS 1 1 1 1 0 false.
Proof.
  apply (warping_constant_unused_with_offset 9.71 171 36.6 0.583 791 7.96 0.435 9.73
           0.935 0.290 120 120 120 50 STEEL_ELASTIC_MODULUS STEEL_SHEAR_MODULUS
           1 1 1 1 0 "LRFD" false 0).
  left. lra.
Defined.

Lemma effective_lengths_as_lengths_witness :
  w_section_capacity 9.71 171 36.6 0.583 791 7.96 0.435 9.73 0.935 0.290
    120 120 120 50 "LRFD" STEEL_ELASTIC_MODULUS STEEL_SHEAR_MODULUS 0.8 0.8 0.8 0 0 false
  = w_section_capacity 9.71 171 36.6 0.583 791 7.96 0.435 9.73 0.935 0.290
      (0.8 * 120) (0.8 * 120) (0.8 * 120) 50 "LRFD" STEEL_ELASTIC_MODULUS
      STEEL_SHEAR_MODULUS 1 1 1 0 0 false.
Proof.
  apply (effective_lengths_as_lengths 9.71 171 36.6 0.583 791 7.96 0.435 9.73 0.935
           0.290 120 120 120 50 STEEL_ELASTIC_MODULUS STEEL_SHEAR_MODULUS
           0.8 0.8 0.8 0 0 "LRFD" false); lra.
Defined.

(** ** Zero effective-length factors *)

Lemma nominal_flexural_zero_slenderness (Fy sl E : R) :
  sl = 0 -> nominal_flexural_buckling_stress Fy None (Some sl) E = Raise ZeroDivisionError.
Proof.
  intros ->. unfold nominal_flexural_buckling_stress, elastic_buckling_stress.
  replace (0 ^ 2) with 0 by ring. rewrite py_div_zero. reflexivity.
Qed.

Lemma torsional_stage_zero_length (Fy Lcz Cw Ix Iy J A r0 h0 xa ya E G : R) :
  Lcz = 0 ->
  torsional_stage Fy Lcz Cw Ix Iy J A r0 h0 xa ya E G = Raise ZeroDivisionError.
Proof.
  intros ->. unfold torsional_stage, nominal_ft_buckling_stress_i_bracing_offset,
    nominal_ft_buckling_stress_doubly_symmetric,
    ft_elastic_buckling_stress_i_major_axis_offset,
    ft_elastic_buckling_stress_doubly_symmetric.
  replace (0 ^ 2) with 0 by ring. rewrite !py_div_zero.
  destruct (truthy xa || truthy ya)%bool; reflexivity.
Qed.

(** X12.  The substitution of zero lengths does not cover zero
    effective-length factors.  Called with Python floats, as the test suite
    calls it, on an otherwise valid input the function fails with
    [ZeroDivisionError] when [kx] and [ky] are both zero (the governing
    slenderness is zero), and when [kz] is zero (the effective torsional
    length is zero).  (On a row of the section table the second division
    has a [numpy.float64] numerator and gives [inf]; see the look-ups by
    label above.) *)
Theorem zero_length_factor_fails
    (area Ix Iy J warping_constant flange_width flange_thickness section_depth kdes
     web_thickness unbraced_length_x unbraced_length_y unbraced_length_z yield_stress : R)
    (design_method : string)
    (elastic_modulus shear_modulus kx ky kz x_brace_offset y_brace_offset : R)
    (return_report : bool) :
  valid_section area Ix Iy J warping_constant flange_width flange_thickness
    section_depth kdes web_thickness ->
  valid_material yield_stress elastic_modulus shear_modulus ->
  0 <= unbraced_length_x -> 0 <= unbraced_length_y ->
  (kx = 0 /\ ky = 0) \/ (0 < kx /\ 0 < ky /\ kz = 0) ->
  w_section_capacity area Ix Iy J warping_constant flange_width flange_thickness
    section_depth kdes web_thickness unbraced_length_x unbraced_length_y
    unbraced_length_z yield_stress design_method elastic_modulus shear_modulus
    kx ky kz x_brace_offset y_brace_offset return_report
  = Raise ZeroDivisionError.
Proof.
  intros (HA & HIx & HIy & HJ & HCw & Hbf & Htf & Htw & Hk & Hd) (HFy & HE & HG)
    HLx HLy Hcase.
  pose proof (nonzero_length_pos _ HLx) as HLx'.
  pose proof (nonzero_length_pos _ HLy) as HLy'.
  assert (Hqx : 0 < Ix / area) by (apply Rdiv_lt_0_compat; assumption).
  assert (Hqy : 0 < Iy / area) by (apply Rdiv_lt_0_compat; assumption).
  pose proof (sqrt_lt_R0 _ Hqx) as Hrx. pose proof (sqrt_lt_R0 _ Hqy) as Hry.
  rewrite w_section_capacity_stages. unfold w_section_stages, member_slenderness.
  rewrite py_div_Ok by lra. cbn [bind]. rewrite py_sqrt_Ok by lra. cbn [bind].
  rewrite py_div_Ok by lra. cbn [bind]. rewrite py_sqrt_Ok by lra. cbn [bind].
  rewrite py_div_Ok by lra. cbn [bind]. rewrite py_div_Ok by lra. cbn [bind].
  destruct Hcase as [(-> & ->) | (Hkx & Hky & ->)].
  - rewrite nominal_flexural_zero_slenderness; [reflexivity|].
    unfold py_max. destruct (Rlt_dec _ _); unfold Rdiv; ring.
  - assert (Hsx : 0 < kx * nonzero_length unbraced_length_x / sqrt (Ix / area)).
    { apply Rdiv_lt_0_compat; [apply Rmult_lt_0_compat|]; assumption. }
    assert (Hsy : 0 < ky * nonzero_length unbraced_length_y / sqrt (Iy / area)).
    { apply Rdiv_lt_0_compat; [apply Rmult_lt_0_compat|]; assumption. }
    rewrite nominal_flexural_from_slenderness;
      [| unfold py_max; destruct (Rlt_dec _ _); lra | assumption].
    cbn [bind]. rewrite torsional_stage_zero_length by ring. reflexivity.
Qed.

(** The W10X33 of the test suite, called as the tests call it, with
    [kz = 0]. *)
Lemma zero_length_factor_fails_witness :
  w_section_capacity 9.71 171 36.6 0.583 791 7.96 0.435 9.73 0.935 0.290
    120 120 120 50 "LRFD" STEEL_ELASTIC_MODULUS STEEL_SHEAR_MODULUS 1 1 0 0 0 false
  = Raise ZeroDivisionError.
Proof.
  apply (zero_length_factor_fails 9.71 171 36.6 0.583 791 7.96 0.435 9.73 0.935 0.290
           120 120 120 50 "LRFD" STEEL_ELASTIC_MODULUS STEEL_SHEAR_MODULUS 1 1 0 0 0 false);
    try valid_inputs; lra.
Defined.

(** ** The report *)



(** ** The two slenderness checks *)

Lemma w_section_effective_area_unreduced (A bf tf d kdes tw Fy Fn Ae : R) :
  w_section_effective_area A bf tf d kdes tw Fy Fn = Ok Ae ->
  bf / (2 * tf) <= flange_limit Fy ->
  (d - 2 * kdes) / tw <= web_limit Fy ->
  Ae = A.
Proof.
  unfold w_section_effective_area, flange_limit, web_limit. intros H Hf Hw.
  apply bind_Ok_inv in H as (fr & Hfr & H). apply py_div_inv in Hfr as (_ & ->).
  apply bind_Ok_inv in H as (wr & Hwr & H). apply py_div_inv in Hwr as (_ & ->).
  apply bind_Ok_inv in H as (lf & Hlf & H). apply limiting_wt_ratio_flange_inv in Hlf as ->.
  apply bind_Ok_inv in H as (Felf & _ & H).
  apply bind_Ok_inv in H as (be & _ & H).
  apply bind_Ok_inv in H as (lw & Hlw & H). apply limiting_wt_ratio_web_inv in Hlw as ->.
  apply bind_Ok_inv in H as (Felw & _ & H).
  apply bind_Ok_inv in H as (he & _ & H).
  unfold is_slender_comp, py_gt in H.
  destruct (Rgt_dec (bf / (2 * tf)) _); [lra|].
  destruct (Rgt_dec ((d - 2 * kdes) / tw) _); [lra|].
  cbn in H. injection H as <-. reflexivity.
Qed.

Lemma web_ratio_le (d kdes tw : R) :
  0 <= kdes -> 0 < tw -> (d - 2 * kdes) / tw <= (d - kdes) / tw.
Proof.
  intros Hk Htw. pose proof (Rinv_0_lt_compat tw Htw). unfold Rdiv.
  apply Rmult_le_compat_r; lra.
Qed.

(** X14.  At the code-defined modulus the note covers the area
    reduction: when a call that returns gives no note, the effective area it
    used is the gross area, and what it returns is the design strength of the
    governing stress times the gross area.  (The note is decided on the web
    height [d - kdes], the reduction on [d - 2 * kdes], which is not larger.) *)
Theorem no_note_no_reduction
    (area Ix Iy J warping_constant flange_width flange_thickness section_depth kdes
     web_thickness unbraced_length_x unbraced_length_y unbraced_length_z yield_stress : R)
    (design_method : string)
    (shear_modulus kx ky kz x_brace_offset y_brace_offset : R)
    (return_report : bool) (value : capacity_value) (warnings : list string) :
  0 <= kdes -> 0 < web_thickness ->
  w_section_capacity area Ix Iy J warping_constant flange_width flange_thickness
    section_depth kdes web_thickness unbraced_length_x unbraced_length_y
    unbraced_length_z yield_stress design_method STEEL_ELASTIC_MODULUS shear_modulus
    kx ky kz x_brace_offset y_brace_offset return_report = Ok (value, warnings, []) ->
  exists flexural torsional Fn,
    computed_stresses area Ix Iy J warping_constant flange_width flange_thickness
      section_depth kdes web_thickness unbraced_length_x unbraced_length_y
      unbraced_length_z yield_stress STEEL_ELASTIC_MODULUS shear_modulus kx ky kz
      x_brace_offset y_brace_offset flexural torsional Fn area
    /\ returned_capacity design_method return_report Fn area value.
Proof.
  intros Hk Htw H.
  apply w_section_capacity_computed in H as (s & Hs & _ & Hnotes & Hstresses & Hvalue).
  apply w_section_stages_inv in Hs as (_ & _ & _ & _ & _ & _ & Hae & Hsl).
  apply w_is_slender_comp_inv in Hsl. unfold w_slender_condition in Hsl.
  assert (Hnot : st_slender s = false).
  { unfold stage_notes in Hnotes. destruct (st_slender s); [discriminate | reflexivity]. }
  assert (HAe : st_effective_area s = area).
  { apply (w_section_effective_area_unreduced _ _ _ _ _ _ _ _ _ Hae);
      unfold flange_limit, web_limit.
    - apply Rnot_gt_le. intros Hc. rewrite Hnot in Hsl.
      assert (false = true) by (apply Hsl; left; exact Hc). discriminate.
    - eapply Rle_trans; [apply web_ratio_le; assumption|].
      apply Rnot_gt_le. intros Hc. rewrite Hnot in Hsl.
      assert (false = true) by (apply Hsl; right; exact Hc). discriminate. }
  rewrite HAe in Hstresses, Hvalue.
  eexists _, _, _. split; [exact Hstresses | exact Hvalue].
Qed.

Lemma sqrt_580_tight : 13.4 < 0.56 * sqrt (STEEL_ELASTIC_MODULUS / 50)
                       /\ 35.7 < 1.49 * sqrt (STEEL_ELASTIC_MODULUS / 50).
Proof. pose proof sqrt_580_bounds. lra. Qed.

(** W10X33 has no slender element: no note, and the report shows the
    gross area as the effective area. *)
Lemma no_note_no_reduction_witness :
  exists rows warnings,
    w_section_capacity 9.71 171 36.6 0.583 791 7.96 0.435 9.73 0.935 0.290
      120 120 120 50 "ASD" STEEL_ELASTIC_MODULUS STEEL_SHEAR_MODULUS 1 1 1 0 0 true
    = Ok (Report rows, warnings, [])
    /\ dict_get rows "Effective area accounting for slender elements, Ae (Sect. E7)"
       = Some (9.71, "area"%string).
Proof.
  destruct (w_section_capacity_returns 9.71 171 36.6 0.583 791 7.96 0.435 9.73 0.935
              0.290 120 120 120 50 "ASD" STEEL_ELASTIC_MODULUS STEEL_SHEAR_MODULUS
              1 1 1 0 0 true) as (s & p0 & Hs & _ & Hrun); try valid_inputs.
  assert (Hnotes : stage_notes s = []).
  { apply w_section_stages_inv in Hs as (_ & _ & _ & _ & _ & _ & _ & Hsl).
    apply w_is_slender_comp_inv in Hsl. unfold w_slender_condition in Hsl.
    unfold stage_notes. destruct (st_slender s); [|reflexivity].
    exfalso. pose proof sqrt_580_tight.
    destruct (proj1 Hsl eq_refl); lra. }
  rewrite Hnotes in Hrun.
  destruct (no_note_no_reduction 9.71 171 36.6 0.583 791 7.96 0.435 9.73 0.935 0.290
              120 120 120 50 "ASD" STEEL_SHEAR_MODULUS 1 1 1 0 0 true _ _
              ltac:(lra) ltac:(lra) Hrun)
    as (flexural & torsional & Fn & _ & p & _ & _ & Hrows).
  destruct (Hrows eq_refl) as (rows & label & Hvalue & _ & Hrow & _).
  exists rows, (stage_warnings s 0 0). rewrite <- Hvalue. split; [exact Hrun | exact Hrow].
Defined.

(** ** Bounds on the effective width *)

(** In the reduced regime [sqrt (Fel / Fn)] is [c2 * limit * sqrt (Fy / Fn) /
    ratio], which is below [c2]. *)
Lemma reduced_root (c2 ratio limit Fy Fn : R) :
  0 < c2 -> 0 < limit -> 0 < Fy -> 0 < Fn ->
  limit * sqrt (Fy / Fn) < ratio ->
  0 < sqrt (local_buckling_stress c2 ratio limit Fy / Fn) < c2.
Proof.
  intros Hc2 Hlim HFy HFn Hred.
  assert (Hq : 0 < Fy / Fn) by (apply Rdiv_lt_0_compat; assumption).
  pose proof (sqrt_lt_R0 _ Hq) as Ht.
  assert (Hratio : 0 < ratio) by nra.
  set (u := c2 * limit * sqrt (Fy / Fn) / ratio).
  assert (Hu : 0 < u).
  { unfold u. apply Rdiv_lt_0_compat; [|assumption].
    apply Rmult_lt_0_compat; [apply Rmult_lt_0_compat|]; assumption. }
  assert (Hu2 : u < c2).
  { unfold u. apply (Rmult_lt_reg_r ratio); [assumption|].
    unfold Rdiv. rewrite Rmult_assoc, Rinv_l by lra. nra. }
  assert (Heq : local_buckling_stress c2 ratio limit Fy / Fn = u * u).
  { pose proof (sqrt_sqrt (Fy / Fn) ltac:(lra)) as Ht2.
    unfold local_buckling_stress, u.
    transitivity ((c2 * limit / ratio) ^ 2 * (sqrt (Fy / Fn) * sqrt (Fy / Fn)));
      [rewrite Ht2|]; field; lra. }
  rewrite Heq, sqrt_square by lra. lra.
Qed.

Lemma reduced_width_bounds (b c1 c2 s : R) :
  0 <= b -> 0 <= c1 -> 2 * c1 * c2 <= 1 -> (1 - c1 * c2) * c2 <= 1.0016 ->
  0 < s < c2 ->
  0 <= b * (1 - c1 * s) * s <= 1.0016 * b.
Proof.
  intros Hb Hc1 Hinc Htop (Hs0 & Hs1).
  assert (Hstep : 0 <= (c2 - s) * (1 - c1 * (c2 + s))).
  { apply Rmult_le_pos; [lra | nra]. }
  assert (Hf : 0 <= (1 - c1 * s) * s <= 1.0016).
  { split; [apply Rmult_le_pos; nra | nra]. }
  rewrite Rmult_assoc. split; [apply Rmult_le_pos; lra | nra].
Qed.

(** X15.  For each row of Table E7.1 and positive limiting ratio, yield
    and nominal stress, the effective width of a plate of width [b >= 0] is
    the width itself when [ratio <= limit * sqrt (Fy / Fn)]; otherwise it lies
    between 0 and [1.0016 * b]: with the rounded coefficients of the table a
    reduced width can exceed the nominal width, by less than 0.16 %. *)
Theorem effective_width_bounds (key : ew_case) (b ratio limit Fy Fn : R) :
  0 <= b -> 0 < ratio -> 0 < limit -> 0 < Fy -> 0 < Fn ->
  let c1 := factor_c1 (EFFECTIVE_WIDTH_ADJUSTMENT_FACTORS key) in
  let c2 := factor_c2 (EFFECTIVE_WIDTH_ADJUSTMENT_FACTORS key) in
  exists Fel be,
    elastic_local_buckling_stress c2 ratio limit Fy = Ok Fel
    /\ effective_width b ratio limit Fy Fn Fel c1 = Ok be
    /\ (ratio <= limit * sqrt (Fy / Fn) -> be = b)
    /\ 0 <= be <= 1.0016 * b.
Proof.
  intros Hb Hratio Hlim HFy HFn. cbv zeta.
  exists (local_buckling_stress (factor_c2 (EFFECTIVE_WIDTH_ADJUSTMENT_FACTORS key))
            ratio limit Fy).
  eexists. rewrite elastic_local_buckling_stress_Ok by lra.
  rewrite effective_width_Ok by assumption.
  split; [reflexivity|]. split; [reflexivity|].
  unfold effective_width_formula.
  destruct (Rle_dec ratio (limit * sqrt (Fy / Fn))) as [Hfull|Hred].
  - split; [reflexivity | lra].
  - split; [intros; contradiction|].
    apply Rnot_le_gt in Hred.
    destruct key; cbn [EFFECTIVE_WIDTH_ADJUSTMENT_FACTORS factor_c1 factor_c2 fst snd] in *.
    + apply (reduced_width_bounds b 0.18 1.31); try lra.
      apply reduced_root; lra.
    + apply (reduced_width_bounds b 0.20 1.38); try lra.
      apply reduced_root; lra.
    + apply (reduced_width_bounds b 0.22 1.49); try lra.
      apply reduced_root; lra.
Qed.

(** The slender web of the W10X22 at a nominal stress of 30. *)
Lemma effective_width_bounds_witness :
  exists Fel he,
    elastic_local_buckling_stress 1.31 37 35.8 50 = Ok Fel
    /\ effective_width 8.88 37 35.8 50 30 Fel 0.18 = Ok he
    /\ 0 <= he <= 1.0016 * 8.88.
Proof.
  destruct (effective_width_bounds case_a 8.88 37 35.8 50 30) as (Fel & he & H1 & H2 & _ & H3);
    try lra.
  exists Fel, he. split; [exact H1|]. split; [exact H2 | exact H3].
Defined.

(** ** The capacity of a row of the section table *)

Lemma Series_loc_present (section : Series) (label : string) :
  In label (map fst section) -> exists value, Series_loc section label = Returns value.
Proof.
  unfold Series_loc. induction section as [|[l v] rest IH]; cbn [map fst In find].
  - contradiction.
  - intros Hin. destruct (String.eqb_spec l label) as [->|Hne].
    + exists v. reflexivity.
    + destruct Hin as [Heq|Hin]; [contradiction|]. exact (IH Hin).
Qed.

Lemma Series_loc_missing (section : Series) (label : string) :
  ~ In label (map fst section) -> Series_loc section label = Raises (KeyError label).
Proof.
  unfold Series_loc. induction section as [|[l v] rest IH]; cbn [map fst In find].
  - reflexivity.
  - intros Hnot. destruct (String.eqb_spec l label) as [->|Hne].
    + exfalso. apply Hnot. left. reflexivity.
    + apply IH. intros Hin. apply Hnot. right. exact Hin.
Qed.

(** One look-up of [w_section_capacity_from_series]: the label is either
    the missing one, or it is present and the look-ups go on. *)
Ltac next_label Hsplit Hbefore Hmissing :=
  match type of Hsplit with
  | _ = ?before ++ _ =>
      destruct before as [|first before];
      cbn [app] in Hsplit; injection Hsplit as Hfirst Hsplit;
      [ subst; rewrite (Series_loc_missing _ _ Hmissing); reflexivity
      | let value := fresh "value" in
        let Hvalue := fresh "Hvalue" in
        destruct (Series_loc_present _ first (Hbefore first (or_introl eq_refl)))
          as (value & Hvalue);
        subst first; rewrite Hvalue; cbn [pandas_bind];
        assert (Hbefore' := fun l H => Hbefore l (or_intror H));
        clear Hbefore; rename Hbefore' into Hbefore; cbn beta in Hbefore ]
  end.

Section FromSeries.

Variables unbraced_length_x unbraced_length_y unbraced_length_z yield_stress : R.
Variable design_method : string.
Variables elastic_modulus shear_modulus kx ky kz x_brace_offset y_brace_offset : R.

(** X16.  The section properties are looked up before anything is
    calculated, in the order A, Ix, Iy, J, Cw, bf, tf, d, kdes, tw: a row that
    lacks one of them fails with the [KeyError] of the first label it lacks,
    whatever the other arguments are, also those on which the calculation
    itself would fail. *)
Theorem from_series_key_error (section : Series) (before after : list string)
    (label : string) (value_only return_report : bool) :
  section_labels = before ++ label :: after ->
  (forall l, In l before -> In l (map fst section)) ->
  ~ In label (map fst section) ->
  w_section_capacity_from_series section unbraced_length_x unbraced_length_y
    unbraced_length_z yield_stress design_method elastic_modulus shear_modulus
    kx ky kz x_brace_offset y_brace_offset value_only return_report
  = Raises (KeyError label).
Proof.
  intros Hsplit Hbefore Hmissing.
  unfold section_labels in Hsplit. unfold w_section_capacity_from_series.
  do 10 (next_label Hsplit Hbefore Hmissing).
  destruct before; discriminate.
Qed.

(** X17.  Of a row, [w_section_capacity_from_series] uses the ten section
    properties and nothing else: two rows that agree on them, whatever other
    columns they have and in whatever order, give the same result. *)
Theorem from_series_reads_section_labels (section section' : Series)
    (value_only return_report : bool) :
  (forall label, In label section_labels ->
     Series_loc section label = Series_loc section' label) ->
  w_section_capacity_from_series section unbraced_length_x unbraced_length_y
    unbraced_length_z yield_stress design_method elastic_modulus shear_modulus
    kx ky kz x_brace_offset y_brace_offset value_only return_report
  = w_section_capacity_from_series section' unbraced_length_x unbraced_length_y
      unbraced_length_z yield_stress design_method elastic_modulus shear_modulus
      kx ky kz x_brace_offset y_brace_offset value_only return_report.
Proof.
  intros Hagree. unfold w_section_capacity_from_series.
  rewrite !Hagree by (unfold section_labels; cbn [In]; auto 12).
  reflexivity.
Qed.

End FromSeries.

(** The report that goes with a returned strength. *)
Lemma report_of_strength
    (area Ix Iy J warping_constant flange_width flange_thickness section_depth kdes
     web_thickness unbraced_length_x unbraced_length_y unbraced_length_z yield_stress : R)
    (design_method : string)
    (elastic_modulus shear_modulus kx ky kz x_brace_offset y_brace_offset : R)
    (capacity : capacity_value) (warnings notes : list string) :
  w_section_capacity area Ix Iy J warping_constant flange_width flange_thickness
    section_depth kdes web_thickness unbraced_length_x unbraced_length_y
    unbraced_length_z yield_stress design_method elastic_modulus shear_modulus
    kx ky kz x_brace_offset y_brace_offset false = Ok (capacity, warnings, notes) ->
  exists p rows label,
    capacity = Strength p
    /\ w_section_capacity area Ix Iy J warping_constant flange_width flange_thickness
         section_depth kdes web_thickness unbraced_length_x unbraced_length_y
         unbraced_length_z yield_stress design_method elastic_modulus shear_modulus
         kx ky kz x_brace_offset y_brace_offset true = Ok (Report rows, warnings, notes)
    /\ last rows (""%string, (0, ""%string)) = (label, (p, "force"%string))
    /\ Forall (fun row : report_row => In (snd (snd row)) units) rows.
Proof.
  intros H. apply w_section_capacity_inv in H as (s & Hs & Hc).
  apply conclude_inv in Hc as (p & Hp & -> & -> & ->).
  exists p. rewrite w_section_capacity_stages, Hs. cbn [bind]. unfold conclude. rewrite Hp.
  unfold design_strength in Hp. unfold design_rows, nominal_report, units.
  destruct (String.eqb_spec design_method "nominal") as [->|Hn];
    [|destruct (String.eqb_spec design_method "LRFD") as [->|Hl];
      [|destruct (String.eqb_spec design_method "ASD") as [->|Ha]; [|discriminate]]];
    injection Hp as <-; do 2 eexists;
    cbn [app last];
    (split; [reflexivity|]); (split; [reflexivity|]); (split; [reflexivity|]);
    repeat (apply Forall_cons; [cbn [In snd]; auto 6|]); apply Forall_nil.
Qed.

Ltac looked_up H :=
  repeat match type of H with
         | context [Series_loc ?section ?label] =>
             destruct (Series_loc section label); cbn [pandas_bind] in H |- *;
             [|discriminate H]
         end.

(** X18.  The two calls of the web application agree.  When the call
    that gives the summary (neither [value_only] nor [return_report]) returns
    a capacity, it is a strength, and the call that gives the design details
    (both set) returns a report alone, whose last row is that strength, as a
    force, and whose rows all carry a dimension tag of the units table. *)
Theorem summary_matches_details (section : Series)
    (unbraced_length_x unbraced_length_y unbraced_length_z yield_stress : R)
    (design_method : string)
    (elastic_modulus shear_modulus kx ky kz x_brace_offset y_brace_offset : R)
    (capacity : capacity_value) (warnings notes : list string) :
  w_section_capacity_from_series section unbraced_length_x unbraced_length_y
    unbraced_length_z yield_stress design_method elastic_modulus shear_modulus
    kx ky kz x_brace_offset y_brace_offset false false
  = Returns (WithMessages capacity warnings notes) ->
  exists p rows label,
    capacity = Strength p
    /\ w_section_capacity_from_series section unbraced_length_x unbraced_length_y
         unbraced_length_z yield_stress design_method elastic_modulus shear_modulus
         kx ky kz x_brace_offset y_brace_offset true true
       = Returns (ValueOnly (Report rows))
    /\ last rows (""%string, (0, ""%string)) = (label, (p, "force"%string))
    /\ Forall (fun row : report_row => In (snd (snd row)) units) rows.
Proof.
  unfold w_section_capacity_from_series. intros H. looked_up H.
  match type of H with
  | match ?call with _ => _ end = _ => destruct call as [[[c w] n]|e] eqn:Hcall
  end; [|discriminate H].
  injection H as -> -> ->.
  destruct (report_of_strength _ _ _ _ _ _ _ _ _ _ _ _ _ _ _ _ _ _ _ _ _ _ _ _ _ Hcall)
    as (p & rows & label & Hp & Hreport & Hlast & Htags).
  exists p, rows, label. rewrite Hreport. repeat split; assumption.
Qed.

(** The look-ups of [w_section_capacity_from_series] in the row of the
    W10X33. *)
Lemma W10X33_looked_up
    (unbraced_length_x unbraced_length_y unbraced_length_z yield_stress : R)
    (design_method : string)
    (elastic_modulus shear_modulus kx ky kz x_brace_offset y_brace_offset : R)
    (value_only return_report : bool) :
  w_section_capacity_from_series W10X33 unbraced_length_x unbraced_length_y
    unbraced_length_z yield_stress design_method elastic_modulus shear_modulus
    kx ky kz x_brace_offset y_brace_offset value_only return_report
  = match
      w_section_capacity 9.71 171 36.6 0.583 791 7.96 0.435 9.73 0.935 0.290
        unbraced_length_x unbraced_length_y unbraced_length_z yield_stress design_method
        elastic_modulus shear_modulus kx ky kz x_brace_offset y_brace_offset return_report
    with
    | Raise e => Raises (Python e)
    | Ok (capacity, warnings, notes) =>
        if value_only then Returns (ValueOnly capacity)
        else Returns (WithMessages capacity warnings notes)
    end.
Proof. reflexivity. Qed.

(** The row of the W10X33 without its warping constant, and with an area of
    zero: the missing label is reported, the division by the area is never
    reached. *)
Lemma from_series_key_error_witness :
  w_section_capacity_from_series
    [ ("A"%string, 0); ("Ix"%string, 171); ("Iy"%string, 36.6); ("J"%string, 0.583);
      ("bf"%string, 7.96); ("tf"%string, 0.435); ("d"%string, 9.73);
      ("kdes"%string, 0.935); ("tw"%string, 0.290) ]
    120 120 120 50 "LRFD" STEEL_ELASTIC_MODULUS STEEL_SHEAR_MODULUS 1 1 1 0 0 false false
  = Raises (KeyError "Cw").
Proof.
  apply (from_series_key_error 120 120 120 50 "LRFD" STEEL_ELASTIC_MODULUS
           STEEL_SHEAR_MODULUS 1 1 1 0 0 _ ["A"; "Ix"; "Iy"; "J"]%string
           ["bf"; "tf"; "d"; "kdes"; "tw"]%string "Cw"%string false false).
  - reflexivity.
  - cbn [map fst In]. intros l [<- | [<- | [<- | [<- | []]]]]; auto 10.
  - cbn [map fst In]. intros H.
    repeat (destruct H as [H|H]; [discriminate H|]). exact H.
Defined.

(** The row of the W10X33 as the table has it, and the ten properties alone
    in the order they are read. *)
Lemma from_series_reads_section_labels_witness :
  w_section_capacity_from_series W10X33
    120 120 120 50 "LRFD" STEEL_ELASTIC_MODULUS STEEL_SHEAR_MODULUS 1 1 1 0 0 false false
  = w_section_capacity_from_series
      [ ("A"%string, 9.71); ("Ix"%string, 171); ("Iy"%string, 36.6); ("J"%string, 0.583);
        ("Cw"%string, 791); ("bf"%string, 7.96); ("tf"%string, 0.435);
        ("d"%string, 9.73); ("kdes"%string, 0.935); ("tw"%string, 0.290) ]
      120 120 120 50 "LRFD" STEEL_ELASTIC_MODULUS STEEL_SHEAR_MODULUS 1 1 1 0 0 false false.
Proof.
  apply (from_series_reads_section_labels 120 120 120 50 "LRFD" STEEL_ELASTIC_MODULUS
           STEEL_SHEAR_MODULUS 1 1 1 0 0).
  unfold section_labels. cbn [In]. intros label H.
  repeat (destruct H as [<-|H]; [reflexivity|]). contradiction.
Defined.

(** The W10X33 at 10 ft, ASD, as selected in the web application. *)
Lemma summary_matches_details_witness :
  exists p warnings notes rows label,
    w_section_capacity_from_series W10X33 120 120 120 50 "ASD" STEEL_ELASTIC_MODULUS
      STEEL_SHEAR_MODULUS 1 1 1 0 0 false false
    = Returns (WithMessages (Strength p) warnings notes)
    /\ w_section_capacity_from_series W10X33 120 120 120 50 "ASD" STEEL_ELASTIC_MODULUS
         STEEL_SHEAR_MODULUS 1 1 1 0 0 true true
       = Returns (ValueOnly (Report rows))
    /\ last rows (""%string, (0, ""%string)) = (label, (p, "force"%string)).
Proof.
  destruct (w_section_capacity_returns 9.71 171 36.6 0.583 791 7.96 0.435 9.73 0.935
              0.290 120 120 120 50 "ASD" STEEL_ELASTIC_MODULUS STEEL_SHEAR_MODULUS
              1 1 1 0 0 false) as (s & p0 & _ & _ & Hrun); try valid_inputs.
  assert (Hsummary :
    w_section_capacity_from_series W10X33 120 120 120 50 "ASD" STEEL_ELASTIC_MODULUS
      STEEL_SHEAR_MODULUS 1 1 1 0 0 false false
    = Returns (WithMessages (Strength p0) (stage_warnings s 0 0) (stage_notes s))).
  { rewrite W10X33_looked_up, Hrun. reflexivity. }
  destruct (summary_matches_details W10X33 120 120 120 50 "ASD" STEEL_ELASTIC_MODULUS
              STEEL_SHEAR_MODULUS 1 1 1 0 0 _ _ _ Hsummary)
    as (p & rows & label & Hp & Hdetails & Hlast & _).
  exists p, (stage_warnings s 0 0), (stage_notes s), rows, label.
  rewrite <- Hp. split; [exact Hsummary|]. split; [exact Hdetails | exact Hlast].
Defined.

(** ** Filtering the section table *)

Lemma select_map {A : Type} (keep : A -> bool) (entries : list A) :
  select entries (map keep entries) = filter keep entries.
Proof.
  induction entries as [|entry rest IH]; cbn [select map filter]; [reflexivity|].
  rewrite IH. reflexivity.
Qed.

Lemma filter_filter {A : Type} (f g : A -> bool) (entries : list A) :
  filter g (filter f entries) = filter (fun entry => f entry && g entry)%bool entries.
Proof.
  induction entries as [|entry rest IH]; cbn [filter]; [reflexivity|].
  destruct (f entry); cbn [filter andb]; [destruct (g entry)|]; rewrite IH; reflexivity.
Qed.

Lemma filter_all {A : Type} (entries : list A) : filter (fun _ => true) entries = entries.
Proof.
  induction entries as [|entry rest IH]; cbn [filter]; [reflexivity|].
  rewrite IH. reflexivity.
Qed.

Lemma get_loc_present (labels : list string) (label : string) :
  In label labels -> exists position, get_loc labels label = Some position.
Proof.
  induction labels as [|l rest IH]; cbn [In get_loc]; [contradiction|].
  intros Hin. destruct (String.eqb_spec l label) as [->|Hne]; [eauto|].
  destruct Hin as [Heq|Hin]; [contradiction|].
  destruct (IH Hin) as (position & ->). cbn [option_map]. eauto.
Qed.

Lemma get_loc_missing (labels : list string) (label : string) :
  ~ In label labels -> get_loc labels label = None.
Proof.
  induction labels as [|l rest IH]; cbn [In get_loc]; [reflexivity|].
  intros Hnot. destruct (String.eqb_spec l label) as [->|Hne]; [tauto|].
  rewrite IH by tauto. reflexivity.
Qed.

Lemma py_ge_true (a b : R) : py_ge a b = true <-> a >= b.
Proof. unfold py_ge. destruct (Rge_dec a b); split; (discriminate || tauto). Qed.

(** One turn of the loop with a recognised comparison and a column of the
    frame: the rows that meet the bound are kept. *)
Lemma sections_filter_loop_step (sub_df : DataFrame) (operator parameter : string)
    (value : R) (rest : list (string * R)) :
  operator = "ge"%string \/ operator = "le"%string ->
  In parameter (frame_columns sub_df) ->
  sections_filter_loop sub_df operator ((parameter, value) :: rest)
  = sections_filter_loop
      {| frame_columns := frame_columns sub_df;
         frame_rows :=
           filter (fun row => meets_bound (frame_columns sub_df) operator row
                                (parameter, value))
             (frame_rows sub_df) |}
      operator rest.
Proof.
  intros Hop Hin. destruct (get_loc_present _ _ Hin) as (position & Hpos).
  cbn [sections_filter_loop]. unfold DataFrame_getitem, meets_bound. cbn [fst snd].
  rewrite Hpos.
  destruct Hop as [-> | ->]; cbn [String.eqb Ascii.eqb Bool.eqb andb pandas_bind];
    unfold DataFrame_loc; rewrite map_map, select_map; reflexivity.
Qed.

Lemma sections_filter_loop_rows (kwargs : list (string * R)) :
  forall (sub_df : DataFrame) (operator : string),
    operator = "ge"%string \/ operator = "le"%string ->
    (forall bound, In bound kwargs -> In (fst bound) (frame_columns sub_df)) ->
    sections_filter_loop sub_df operator kwargs
    = Returns {| frame_columns := frame_columns sub_df;
                 frame_rows :=
                   filter (meets_bounds (frame_columns sub_df) operator kwargs)
                     (frame_rows sub_df) |}.
Proof.
  induction kwargs as [|[parameter value] rest IH]; intros sub_df operator Hop Hcols.
  - cbn [sections_filter_loop]. unfold meets_bounds. cbn [forallb].
    rewrite filter_all. destruct sub_df. reflexivity.
  - rewrite sections_filter_loop_step;
      [| assumption | apply (Hcols (parameter, value)); left; reflexivity].
    rewrite IH; [| assumption | intros bound Hb; apply Hcols; right; exact Hb].
    cbn [frame_columns frame_rows]. rewrite filter_filter. reflexivity.
Qed.

Lemma meets_bounds_spec (columns : list string) (operator : string)
    (kwargs : list (string * R)) (row : frame_row) :
  meets_bounds columns operator kwargs row = true
  <-> forall parameter value,
        In (parameter, value) kwargs ->
        exists position,
          get_loc columns parameter = Some position
          /\ (if String.eqb operator "ge" then cell position row >= value
              else cell position row <= value).
Proof.
  unfold meets_bounds. rewrite forallb_forall. split.
  - intros H parameter value Hin. specialize (H _ Hin). unfold meets_bound in H.
    cbn [fst snd] in H. destruct (get_loc columns parameter) as [position|];
      [|discriminate]. exists position. split; [reflexivity|].
    destruct (String.eqb operator "ge"); [apply py_ge_true | apply py_le_true]; exact H.
  - intros H [parameter value] Hin. destruct (H _ _ Hin) as (position & Hpos & Hb).
    unfold meets_bound. cbn [fst snd]. rewrite Hpos.
    destruct (String.eqb operator "ge"); [apply py_ge_true | apply py_le_true]; exact Hb.
Qed.

(** X19.  With comparison type ["ge"] or ["le"] and bounds on columns of
    the frame, [sections_filter] returns the frame with the same columns and
    exactly the rows that meet every bound, in their order; filtering the
    result again with the same arguments changes nothing. *)
Theorem sections_filter_rows (df : DataFrame) (operator : string)
    (kwargs : list (string * R)) :
  operator = "ge"%string \/ operator = "le"%string ->
  (forall bound, In bound kwargs -> In (fst bound) (frame_columns df)) ->
  exists result,
    sections_filter df operator kwargs = Returns result
    /\ frame_columns result = frame_columns df
    /\ frame_rows result
       = filter (meets_bounds (frame_columns df) operator kwargs) (frame_rows df)
    /\ (forall row,
          In row (frame_rows result)
          <-> In row (frame_rows df)
              /\ forall parameter value,
                   In (parameter, value) kwargs ->
                   exists position,
                     get_loc (frame_columns df) parameter = Some position
                     /\ (if String.eqb operator "ge" then cell position row >= value
                         else cell position row <= value))
    /\ sections_filter result operator kwargs = Returns result.
Proof.
  intros Hop Hcols. unfold sections_filter. eexists.
  split; [apply sections_filter_loop_rows; assumption|]. cbn [frame_columns frame_rows].
  split; [reflexivity|]. split; [reflexivity|]. split.
  - intros row. rewrite filter_In, meets_bounds_spec. reflexivity.
  - rewrite sections_filter_loop_rows by assumption. cbn [frame_columns frame_rows].
    rewrite filter_filter. f_equal. f_equal. apply filter_ext.
    intros row. destruct (meets_bounds _ _ _ row); reflexivity.
Qed.

(** X20.  The failures of [sections_filter].  Without keyword arguments
    the frame is returned as it is, whatever the comparison type.  With a
    comparison type other than ["ge"] and ["le"] and at least one keyword
    argument the call fails with the comparison-type error, also when the
    column does not exist.  With ["ge"] or ["le"], a keyword argument that
    names no column of the frame fails with the [KeyError] of its name, the
    bounds before it being on columns of the frame. *)
Theorem sections_filter_errors (df : DataFrame) (operator : string) :
  sections_filter df operator [] = Returns df
  /\ (operator <> "ge"%string -> operator <> "le"%string ->
      forall kwargs, kwargs <> [] ->
        sections_filter df operator kwargs = Raises (Python comparison_error))
  /\ (operator = "ge"%string \/ operator = "le"%string ->
      forall before parameter value after,
        (forall bound, In bound before -> In (fst bound) (frame_columns df)) ->
        ~ In parameter (frame_columns df) ->
        sections_filter df operator (before ++ (parameter, value) :: after)
        = Raises (KeyError parameter)).
Proof.
  split; [reflexivity|]. split.
  - intros Hge Hle [|[parameter value] rest] Hne; [contradiction|].
    unfold sections_filter. cbn [sections_filter_loop].
    destruct (String.eqb_spec operator "ge"); [contradiction|].
    destruct (String.eqb_spec operator "le"); [contradiction|]. reflexivity.
  - intros Hop before. unfold sections_filter. cbn zeta. generalize df.
    induction before as [|[p v] before IH];
      intros sub_df parameter value after Hcols Hmissing; cbn [app].
    + cbn [sections_filter_loop]. unfold DataFrame_getitem.
      rewrite (get_loc_missing _ _ Hmissing).
      destruct Hop as [-> | ->]; reflexivity.
    + rewrite sections_filter_loop_step;
        [| assumption | apply (Hcols (p, v)); left; reflexivity].
      apply IH; cbn [frame_columns]; [|assumption].
      intros bound Hb. apply Hcols. right. exact Hb.
Qed.

(** X21.  The range filter of the web application: an upper bound and
    then a lower bound on one column keep exactly the rows whose value lies
    between the two, in their order; the two filters can be applied in either
    order, and no row is left when the upper bound is below the lower one. *)
Theorem sections_filter_range (df : DataFrame) (parameter : string) (lo hi : R)
    (position : nat) :
  get_loc (frame_columns df) parameter = Some position ->
  exists inner result,
    sections_filter df "le" [(parameter, hi)] = Returns inner
    /\ sections_filter inner "ge" [(parameter, lo)] = Returns result
    /\ frame_columns result = frame_columns df
    /\ (forall row,
          In row (frame_rows result)
          <-> In row (frame_rows df) /\ lo <= cell position row <= hi)
    /\ frame_rows result
       = filter (fun row => py_le (cell position row) hi && py_ge (cell position row) lo)%bool
           (frame_rows df)
    /\ (exists inner',
          sections_filter df "ge" [(parameter, lo)] = Returns inner'
          /\ sections_filter inner' "le" [(parameter, hi)] = Returns result)
    /\ (hi < lo -> frame_rows result = []).
Proof.
  intros Hpos.
  assert (Hin : In parameter (frame_columns df)).
  { destruct (in_dec string_dec parameter (frame_columns df)) as [Hin|Hnot];
      [exact Hin|]. rewrite (get_loc_missing _ _ Hnot) in Hpos. discriminate. }
  assert (Hcols : forall value (bound : string * R),
            In bound [(parameter, value)] -> In (fst bound) (frame_columns df)).
  { intros value bound [<- | []]. exact Hin. }
  unfold sections_filter. cbn zeta. do 2 eexists.
  split; [apply sections_filter_loop_rows; [right; reflexivity | apply Hcols]|].
  split; [apply sections_filter_loop_rows; [left; reflexivity | apply Hcols]|].
  cbn [frame_columns frame_rows]. rewrite filter_filter.
  unfold meets_bounds, meets_bound. cbn [forallb fst snd]. rewrite Hpos.
  cbn [String.eqb Ascii.eqb Bool.eqb andb].
  assert (Hsame : forall rows : list frame_row,
            filter (fun row => (py_le (cell position row) hi && true)
                               && (py_ge (cell position row) lo && true))%bool rows
            = filter (fun row => py_le (cell position row) hi
                                 && py_ge (cell position row) lo)%bool rows).
  { intros rows. apply filter_ext. intros row. rewrite !Bool.andb_true_r. reflexivity. }
  rewrite Hsame.
  split; [reflexivity|]. split.
  { intros row. rewrite filter_In, Bool.andb_true_iff, py_le_true, py_ge_true.
    split; intros (Hrow & Hb); (split; [exact Hrow | lra]). }
  split; [reflexivity|]. split.
  - eexists. split; [apply sections_filter_loop_rows; [left; reflexivity | apply Hcols]|].
    rewrite sections_filter_loop_rows; [| right; reflexivity | apply Hcols].
    cbn [frame_columns frame_rows]. rewrite filter_filter.
    unfold meets_bounds, meets_bound. cbn [forallb fst snd]. rewrite Hpos.
    cbn [String.eqb Ascii.eqb Bool.eqb andb]. f_equal. f_equal. apply filter_ext.
    intros row. rewrite !Bool.andb_true_r. apply Bool.andb_comm.
  - intros Hlt. induction (frame_rows df) as [|row rows IH]; cbn [filter]; [reflexivity|].
    unfold py_le, py_ge at 1.
    destruct (Rle_dec (cell position row) hi), (Rge_dec (cell position row) lo);
      cbn [andb]; (exact IH || lra).
Qed.

(** Comparisons of the cells of [test_df] with a bound. *)
Ltac compare_cells :=
  cbn [test_df frame_rows frame_columns filter forallb meets_bounds meets_bound get_loc
       option_map cell nth fst snd String.eqb Ascii.eqb Bool.eqb andb];
  unfold py_le, py_ge;
  repeat match goal with
         | |- context [Rle_dec ?a ?b] => destruct (Rle_dec a b); [|try lra]; try lra
         | |- context [Rge_dec ?a ?b] => destruct (Rge_dec a b); [|try lra]; try lra
         end;
  cbn [filter andb].

(** The first filter of [test_sections_filter]: [B <= 10] keeps the first
    two rows of the test frame. *)
Lemma sections_filter_rows_witness :
  exists result,
    sections_filter test_df "le" [("B"%string, 10)] = Returns result
    /\ frame_rows result = [("0"%string, [3; 4; 5; 6]); ("1"%string, [6; 8; 10; 12])].
Proof.
  destruct (sections_filter_rows test_df "le" [("B"%string, 10)])
    as (result & Hresult & _ & Hrows & _).
  - right. reflexivity.
  - intros bound [<- | []]. cbn. auto.
  - exists result. split; [exact Hresult|]. rewrite Hrows. compare_cells. reflexivity.
Defined.

(** A comparison type that does not exist on a column that does not exist,
    and a bound on a column that does not exist after one on a column that
    does. *)
Lemma sections_filter_errors_witness :
  sections_filter test_df "gt" [("E"%string, 1)] = Raises (Python comparison_error)
  /\ sections_filter test_df "ge" [("A"%string, 1); ("E"%string, 1)]
     = Raises (KeyError "E").
Proof.
  destruct (sections_filter_errors test_df "gt") as (_ & Hcomparison & _).
  destruct (sections_filter_errors test_df "ge") as (_ & _ & Hkey).
  split.
  - apply Hcomparison; discriminate.
  - apply (Hkey (or_introl eq_refl) [("A"%string, 1)] "E"%string 1 []).
    + intros bound [<- | []]. cbn. auto.
    + cbn. intros H. repeat (destruct H as [H|H]; [discriminate H|]). exact H.
Defined.

(** [5 <= B <= 13] keeps the two middle rows of the test frame. *)
Lemma sections_filter_range_witness :
  exists inner result,
    sections_filter test_df "le" [("B"%string, 13)] = Returns inner
    /\ sections_filter inner "ge" [("B"%string, 5)] = Returns result
    /\ frame_rows result
       = [("1"%string, [6; 8; 10; 12]); ("2"%string, [9; 12; 15; 18])].
Proof.
  destruct (sections_filter_range test_df "B" 5 13 1 eq_refl)
    as (inner & result & Hinner & Hresult & _ & _ & Hrows & _).
  exists inner, result. split; [exact Hinner|]. split; [exact Hresult|].
  rewrite Hrows. compare_cells. reflexivity.
Defined.

(** ** Longer columns *)

Lemma critical_stress_monotone (Fy Fe1 Fe2 : R) :
  0 < Fy -> 0 < Fe1 -> Fe1 <= Fe2 -> critical_stress Fy Fe1 <= critical_stress Fy Fe2.
Proof.
  intros HFy H1 [Hlt | ->]; [apply Rlt_le, critical_stress_increasing; assumption | lra].
Qed.

Lemma euler_stress_antitone (E s1 s2 : R) :
  0 < E -> 0 < s1 -> s1 <= s2 -> PI ^ 2 * E / s2 ^ 2 <= PI ^ 2 * E / s1 ^ 2.
Proof.
  intros HE H1 [Hlt | ->]; [apply Rlt_le, euler_stress_decreasing; assumption | lra].
Qed.

Lemma py_min_monotone (a b a' b' : R) : a' <= a -> b' <= b -> py_min a' b' <= py_min a b.
Proof. intros Ha Hb. unfold py_min. destruct (Rlt_dec b' a'), (Rlt_dec b a); lra. Qed.

Lemma py_max_monotone (a b a' b' : R) : a <= a' -> b <= b' -> py_max a b <= py_max a' b'.
Proof. intros Ha Hb. unfold py_max. destruct (Rlt_dec a b), (Rlt_dec a' b'); lra. Qed.

Lemma py_max_pos (a b : R) : 0 < a -> 0 < b -> 0 < py_max a b.
Proof. intros Ha Hb. unfold py_max. destruct (Rlt_dec a b); assumption. Qed.

(** The stress [(k / L ^ 2 * c + GJ) * 1 / D] of the three torsional
    formulas does not grow with the length. *)
Lemma torsional_form_antitone (k c GJ D L1 L2 : R) :
  0 <= k -> 0 <= c -> 0 < D -> 0 < L1 -> L1 <= L2 ->
  (k / L2 ^ 2 * c + GJ) * 1 / D <= (k / L1 ^ 2 * c + GJ) * 1 / D.
Proof.
  intros Hk Hc HD HL1 HL.
  assert (Hinv : / L2 ^ 2 <= / L1 ^ 2).
  { apply Rinv_le_contravar; [apply pow2_pos; lra | nra]. }
  assert (Hq : k / L2 ^ 2 <= k / L1 ^ 2).
  { unfold Rdiv. apply Rmult_le_compat_l; assumption. }
  pose proof (Rinv_0_lt_compat D HD) as HinvD.
  unfold Rdiv. apply Rmult_le_compat_r; [lra|].
  rewrite !Rmult_1_r. apply Rplus_le_compat_r. apply Rmult_le_compat_r; assumption.
Qed.

Lemma doubly_symmetric_stress_antitone (L1 L2 Cw Ix Iy J E G : R) :
  0 < Cw -> 0 < Ix -> 0 < Iy -> 0 < E -> 0 < L1 -> L1 <= L2 ->
  doubly_symmetric_stress L2 Cw Ix Iy J E G <= doubly_symmetric_stress L1 Cw Ix Iy J E G.
Proof.
  intros HCw HIx HIy HE HL1 HL. unfold doubly_symmetric_stress.
  pose proof (torsional_form_antitone (PI ^ 2 * E * Cw) 1 (G * J) (Ix + Iy) L1 L2) as H.
  rewrite !Rmult_1_r in H. rewrite !Rmult_1_r. apply H; try lra.
  apply Rlt_le, Rmult_lt_0_compat; [apply Rmult_lt_0_compat|]; try assumption.
  apply pow2_pos, PI_neq0.
Qed.

Lemma minor_axis_offset_stress_antitone (L1 L2 Iy J A r0 h0 ya E G : R) :
  0 < Iy -> 0 < A -> r0 <> 0 -> 0 < E -> 0 < L1 -> L1 <= L2 ->
  minor_axis_offset_stress L2 Iy J A r0 h0 ya E G
  <= minor_axis_offset_stress L1 Iy J A r0 h0 ya E G.
Proof.
  intros HIy HA Hr HE HL1 HL. unfold minor_axis_offset_stress.
  apply torsional_form_antitone; try assumption.
  - apply Rlt_le, Rmult_lt_0_compat; [apply Rmult_lt_0_compat|]; try assumption.
    apply pow2_pos, PI_neq0.
  - pose proof (pow2_nonneg h0). pose proof (pow2_nonneg ya). lra.
  - apply Rmult_lt_0_compat; [assumption | apply pow2_pos, Hr].
Qed.

Lemma major_axis_offset_stress_antitone (L1 L2 Ix Iy J A r0 h0 xa E G : R) :
  0 < Ix -> 0 < Iy -> 0 < A -> r0 <> 0 -> 0 < E -> 0 < L1 -> L1 <= L2 ->
  major_axis_offset_stress L2 Ix Iy J A r0 h0 xa E G
  <= major_axis_offset_stress L1 Ix Iy J A r0 h0 xa E G.
Proof.
  intros HIx HIy HA Hr HE HL1 HL. unfold major_axis_offset_stress.
  apply torsional_form_antitone; try assumption.
  - apply Rlt_le, Rmult_lt_0_compat; [apply Rmult_lt_0_compat|]; try assumption.
    apply pow2_pos, PI_neq0.
  - pose proof (pow2_nonneg h0). pose proof (pow2_nonneg xa).
    assert (0 < Ix / Iy) by (apply Rdiv_lt_0_compat; assumption).
    assert (0 <= Ix / Iy * xa ^ 2) by (apply Rmult_le_pos; lra). lra.
  - apply Rmult_lt_0_compat; [assumption | apply pow2_pos, Hr].
Qed.

(** The torsional stage does not grow with the torsional length. *)
Lemma torsional_stage_antitone (Fy L1 L2 Cw Ix Iy J A r0 h0 xa ya E G t1 t2 : R) :
  0 < Fy -> 0 < Cw -> 0 < Ix -> 0 < Iy -> 0 < J -> 0 < A -> r0 <> 0 -> 0 < E -> 0 < G ->
  0 < L1 -> L1 <= L2 ->
  torsional_stage Fy L1 Cw Ix Iy J A r0 h0 xa ya E G = Ok t1 ->
  torsional_stage Fy L2 Cw Ix Iy J A r0 h0 xa ya E G = Ok t2 ->
  t2 <= t1.
Proof.
  intros HFy HCw HIx HIy HJ HA Hr HE HG HL1 HL. unfold torsional_stage.
  destruct (truthy xa || truthy ya)%bool.
  - rewrite !nominal_ft_bracing_offset_Ok by (assumption || lra).
    intros H1 H2. injection H1 as <-. injection H2 as <-.
    apply critical_stress_monotone; [assumption | |].
    + apply py_min_pos;
        [apply major_axis_offset_stress_pos | apply minor_axis_offset_stress_pos];
        (assumption || lra).
    + apply py_min_monotone;
        [apply major_axis_offset_stress_antitone
        | apply minor_axis_offset_stress_antitone]; assumption.
  - rewrite !nominal_ft_doubly_symmetric_Ok by (assumption || lra).
    intros H1 H2. injection H1 as <-. injection H2 as <-.
    apply critical_stress_monotone; [assumption | |].
    + apply doubly_symmetric_stress_pos; (assumption || lra).
    + apply doubly_symmetric_stress_antitone; assumption.
Qed.

(** A plate is fully effective at [Fn] when [Fn * ratio ^ 2 <= Fy * limit ^ 2]. *)
Lemma fully_effective_iff (ratio limit Fy Fn : R) :
  0 < ratio -> 0 < limit -> 0 < Fy -> 0 < Fn ->
  ratio <= limit * sqrt (Fy / Fn) <-> Fn * ratio ^ 2 <= Fy * limit ^ 2.
Proof.
  intros Hratio Hlim HFy HFn.
  assert (Hq : 0 < Fy / Fn) by (apply Rdiv_lt_0_compat; assumption).
  pose proof (sqrt_lt_R0 _ Hq) as Ht. pose proof (sqrt_sqrt (Fy / Fn) ltac:(lra)) as Ht2.
  assert (HFnq : Fn * (Fy / Fn) = Fy) by (field; lra).
  set (t := sqrt (Fy / Fn)) in *.
  assert (Hsq : Fn * (limit * t) ^ 2 = Fy * limit ^ 2).
  { replace (Fn * (limit * t) ^ 2) with (limit ^ 2 * (Fn * (t * t))) by ring.
    rewrite Ht2, HFnq. ring. }
  assert (Hlt : 0 < limit * t) by (apply Rmult_lt_0_compat; assumption).
  split; intros H.
  - rewrite <- Hsq. apply Rmult_le_compat_l; [lra | nra].
  - apply Rnot_lt_le. intros Hc.
    assert ((limit * t) ^ 2 < ratio ^ 2) by nra.
    assert (Fn * (limit * t) ^ 2 < Fn * ratio ^ 2) by (apply Rmult_lt_compat_l; assumption).
    lra.
Qed.

(** The force [Fn * be] a plate carries does not decrease when the stress
    grows, also across the change from the full to the reduced width. *)
Lemma plate_force_monotone (b ratio limit c1 c2 Fy Fn1 Fn2 : R) :
  0 <= b -> 0 < ratio -> 0 < limit -> 0 < Fy -> 0 <= c1 -> 0 < c2 ->
  1 <= c2 * (1 - c1 * c2) ->
  0 < Fn1 -> Fn1 <= Fn2 ->
  Fn1 * effective_width_formula b ratio limit c1 c2 Fy Fn1
  <= Fn2 * effective_width_formula b ratio limit c1 c2 Fy Fn2.
Proof.
  intros Hb Hratio Hlim HFy Hc1 Hc2 Hc HFn1 HFn.
  assert (HFn2 : 0 < Fn2) by lra.
  set (Fel := local_buckling_stress c2 ratio limit Fy).
  set (Fs := Fy * (limit / ratio) ^ 2).
  assert (HFs : 0 < Fs).
  { unfold Fs. apply Rmult_lt_0_compat; [assumption|].
    apply pow2_pos, Rgt_not_eq, Rlt_gt, Rdiv_lt_0_compat; assumption. }
  assert (HFs2 : Fs * ratio ^ 2 = Fy * limit ^ 2) by (unfold Fs; field; lra).
  assert (HFel : Fel = c2 ^ 2 * Fs).
  { unfold Fel, local_buckling_stress, Fs. field. lra. }
  assert (HFelpos : 0 < Fel).
  { rewrite HFel. apply Rmult_lt_0_compat; [apply pow2_pos; lra | assumption]. }
  assert (Hreduced : forall Fn, 0 < Fn ->
            exists w, 0 < w /\ w * w = Fn * Fel
                      /\ Fn * (b * (1 - c1 * sqrt (Fel / Fn)) * sqrt (Fel / Fn))
                         = b * (w - c1 * Fel)).
  { intros Fn HFn0.
    assert (Hq : 0 < Fel / Fn) by (apply Rdiv_lt_0_compat; assumption).
    pose proof (sqrt_lt_R0 _ Hq) as Hu. pose proof (sqrt_sqrt (Fel / Fn) ltac:(lra)) as Hu2.
    assert (HFnq : Fn * (Fel / Fn) = Fel) by (field; lra).
    set (u := sqrt (Fel / Fn)) in *.
    exists (Fn * u). split; [apply Rmult_lt_0_compat; assumption|]. split.
    - replace (Fn * u * (Fn * u)) with (Fn * (Fn * (u * u))) by ring.
      rewrite Hu2, HFnq. reflexivity.
    - replace (Fn * (b * (1 - c1 * u) * u)) with (b * (Fn * u - c1 * (Fn * (u * u))))
        by ring.
      rewrite Hu2, HFnq. reflexivity. }
  assert (Hfull : forall Fn, 0 < Fn ->
            (ratio <= limit * sqrt (Fy / Fn) <-> Fn <= Fs)).
  { intros Fn HFn0. rewrite fully_effective_iff by assumption. rewrite <- HFs2.
    assert (Hr2 : 0 < ratio ^ 2) by (apply pow2_pos; lra).
    split; intros H; [apply (Rmult_le_reg_r (ratio ^ 2)) | apply Rmult_le_compat_r];
      (assumption || lra). }
  unfold effective_width_formula. cbv zeta. fold Fel.
  destruct (Rle_dec ratio (limit * sqrt (Fy / Fn1))) as [Hf1|Hr1];
    destruct (Rle_dec ratio (limit * sqrt (Fy / Fn2))) as [Hf2|Hr2].
  - rewrite !(Rmult_comm _ b). apply Rmult_le_compat_l; assumption.
  - apply Hfull in Hf1; [|assumption].
    assert (Hgt : Fs < Fn2).
    { apply Rnot_le_lt. intros Hle. apply Hr2, Hfull; assumption. }
    destruct (Hreduced Fn2 HFn2) as (w & Hw & Hw2 & ->).
    assert (Hwlow : c2 * Fs < w).
    { apply Rnot_le_lt. intros Hle.
      assert (w * w <= c2 * Fs * (c2 * Fs)) by nra.
      assert (Fs * Fel < Fn2 * Fel) by (apply Rmult_lt_compat_r; assumption).
      rewrite HFel in *. nra. }
    rewrite (Rmult_comm Fn1 b). apply Rmult_le_compat_l; [assumption|].
    rewrite HFel.
    assert (Fs <= Fs * (c2 * (1 - c1 * c2))) by nra.
    nra.
  - exfalso. apply Hr1. apply Hfull; [assumption|].
    apply Hfull in Hf2; [lra | assumption].
  - destruct (Hreduced Fn1 HFn1) as (w1 & Hw1 & Hw12 & ->).
    destruct (Hreduced Fn2 HFn2) as (w2 & Hw2 & Hw22 & ->).
    apply Rmult_le_compat_l; [assumption|].
    assert (w1 <= w2).
    { apply Rnot_lt_le. intros Hlt.
      assert (w2 * w2 < w1 * w1) by nra.
      assert (Fn1 * Fel <= Fn2 * Fel) by (apply Rmult_le_compat_r; lra).
      lra. }
    lra.
Qed.

Lemma flange_limit_pos (Fy : R) : 0 < Fy -> 0 < flange_limit Fy.
Proof.
  intros HFy. unfold flange_limit. pose proof STEEL_ELASTIC_MODULUS_pos.
  assert (0 < sqrt (STEEL_ELASTIC_MODULUS / Fy))
    by (apply sqrt_lt_R0, Rdiv_lt_0_compat; assumption).
  lra.
Qed.

Lemma web_limit_pos (Fy : R) : 0 < Fy -> 0 < web_limit Fy.
Proof.
  intros HFy. unfold web_limit. pose proof STEEL_ELASTIC_MODULUS_pos.
  assert (0 < sqrt (STEEL_ELASTIC_MODULUS / Fy))
    by (apply sqrt_lt_R0, Rdiv_lt_0_compat; assumption).
  lra.
Qed.

(** The nominal strength [Fn * Ae] does not decrease when the nominal stress
    grows, for a section whose flanges and web fit in its gross area. *)
Lemma nominal_strength_monotone (A bf tf d kdes tw Fy Fn1 Fn2 : R) :
  0 < bf -> 0 < tf -> 0 < tw -> 0 < d - 2 * kdes -> 0 < Fy ->
  2 * tf * bf + tw * (d - 2 * kdes) <= A ->
  0 < Fn1 -> Fn1 <= Fn2 ->
  Fn1 * effective_area_formula A bf tf d kdes tw Fy Fn1
  <= Fn2 * effective_area_formula A bf tf d kdes tw Fy Fn2.
Proof.
  intros Hbf Htf Htw Hh HFy Hfit HFn1 HFn.
  assert (Hplates : 0 < 2 * tf * bf + tw * (d - 2 * kdes)) by nra.
  unfold effective_area_formula.
  destruct (py_gt (bf / (2 * tf)) (flange_limit Fy)
            || py_gt ((d - 2 * kdes) / tw) (web_limit Fy))%bool.
  - assert (Hflange :
      Fn1 * effective_flange_width_formula bf tf Fy Fn1
      <= Fn2 * effective_flange_width_formula bf tf Fy Fn2).
    { unfold effective_flange_width_formula.
      apply plate_force_monotone; try lra.
      - apply Rdiv_lt_0_compat; lra.
      - apply flange_limit_pos, HFy. }
    assert (Hweb :
      Fn1 * effective_web_height_formula d kdes tw Fy Fn1
      <= Fn2 * effective_web_height_formula d kdes tw Fy Fn2).
    { unfold effective_web_height_formula.
      apply plate_force_monotone; try lra.
      - apply Rdiv_lt_0_compat; lra.
      - apply web_limit_pos, HFy. }
    set (bef1 := effective_flange_width_formula bf tf Fy Fn1) in *.
    set (bef2 := effective_flange_width_formula bf tf Fy Fn2) in *.
    set (he1 := effective_web_height_formula d kdes tw Fy Fn1) in *.
    set (he2 := effective_web_height_formula d kdes tw Fy Fn2) in *.
    replace (Fn1 * (A - 2 * tf * (bf - bef1) - tw * (d - 2 * kdes - he1)))
      with (Fn1 * (A - (2 * tf * bf + tw * (d - 2 * kdes)))
            + 2 * tf * (Fn1 * bef1) + tw * (Fn1 * he1)) by ring.
    replace (Fn2 * (A - 2 * tf * (bf - bef2) - tw * (d - 2 * kdes - he2)))
      with (Fn2 * (A - (2 * tf * bf + tw * (d - 2 * kdes)))
            + 2 * tf * (Fn2 * bef2) + tw * (Fn2 * he2)) by ring.
    assert (Fn1 * (A - (2 * tf * bf + tw * (d - 2 * kdes)))
            <= Fn2 * (A - (2 * tf * bf + tw * (d - 2 * kdes))))
      by (apply Rmult_le_compat_r; lra).
    assert (2 * tf * (Fn1 * bef1) <= 2 * tf * (Fn2 * bef2))
      by (apply Rmult_le_compat_l; lra).
    assert (tw * (Fn1 * he1) <= tw * (Fn2 * he2))
      by (apply Rmult_le_compat_l; lra).
    lra.
  - apply Rmult_le_compat_r; lra.
Qed.

Lemma design_strength_monotone (design_method : string) (Pn Pn' p p' : R) :
  design_strength design_method Pn = Some p ->
  design_strength design_method Pn' = Some p' ->
  Pn' <= Pn -> p' <= p.
Proof.
  unfold design_strength, PHI_C, OMEGA_C.
  destruct (String.eqb design_method "nominal");
    [|destruct (String.eqb design_method "LRFD");
      [|destruct (String.eqb design_method "ASD"); [|discriminate]]];
    intros H1 H2 Hle; injection H1 as <-; injection H2 as <-; lra.
Qed.

(** X22.  A longer column is not stronger.  On a valid section and
    material, with positive effective-length factors and flanges and web that
    fit in the gross area, the strength returned for unbraced lengths that are
    at least as long in every axis is at most the strength returned for the
    shorter ones, whatever the design method and the brace offsets, slender
    elements included; the notes are the same.  The shorter lengths are
    positive: a length of zero is computed as 0.00001. *)
Theorem longer_column_not_stronger
    (area Ix Iy J warping_constant flange_width flange_thickness section_depth kdes
     web_thickness yield_stress : R)
    (unbraced_length_x unbraced_length_y unbraced_length_z : R)
    (longer_x longer_y longer_z : R)
    (design_method : string)
    (elastic_modulus shear_modulus kx ky kz x_brace_offset y_brace_offset : R) :
  valid_section area Ix Iy J warping_constant flange_width flange_thickness
    section_depth kdes web_thickness ->
  valid_material yield_stress elastic_modulus shear_modulus ->
  recognised design_method ->
  0 < kx -> 0 < ky -> 0 < kz ->
  2 * flange_thickness * flange_width + web_thickness * (section_depth - 2 * kdes)
  <= area ->
  0 < unbraced_length_x <= longer_x ->
  0 < unbraced_length_y <= longer_y ->
  0 < unbraced_length_z <= longer_z ->
  exists p p' warnings warnings' notes,
    w_section_capacity area Ix Iy J warping_constant flange_width flange_thickness
      section_depth kdes web_thickness unbraced_length_x unbraced_length_y
      unbraced_length_z yield_stress design_method elastic_modulus shear_modulus
      kx ky kz x_brace_offset y_brace_offset false = Ok (Strength p, warnings, notes)
    /\ w_section_capacity area Ix Iy J warping_constant flange_width flange_thickness
         section_depth kdes web_thickness longer_x longer_y longer_z yield_stress
         design_method elastic_modulus shear_modulus
         kx ky kz x_brace_offset y_brace_offset false = Ok (Strength p', warnings', notes)
    /\ p' <= p.
Proof.
  intros Hsec Hmat Hdm Hkx Hky Hkz Hfit (HLx & HLx') (HLy & HLy') (HLz & HLz').
  destruct (w_section_stages_total area Ix Iy J warping_constant flange_width
              flange_thickness section_depth kdes web_thickness unbraced_length_x
              unbraced_length_y unbraced_length_z yield_stress elastic_modulus
              shear_modulus kx ky kz x_brace_offset y_brace_offset Hsec Hmat)
    as (s & Hs & HFn); [unfold valid_bracing; repeat split; lra|].
  destruct (w_section_stages_total area Ix Iy J warping_constant flange_width
              flange_thickness section_depth kdes web_thickness longer_x
              longer_y longer_z yield_stress elastic_modulus
              shear_modulus kx ky kz x_brace_offset y_brace_offset Hsec Hmat)
    as (s' & Hs' & HFn'); [unfold valid_bracing; repeat split; lra|].
  destruct (design_strength_recognised design_method (st_nominal_strength s) Hdm)
    as (p & Hp).
  destruct (design_strength_recognised design_method (st_nominal_strength s') Hdm)
    as (p' & Hp').
  pose proof (w_section_stages_inv _ _ _ _ _ _ _ _ _ _ _ _ _ _ _ _ _ _ _ _ _ s Hs)
    as (Hrx & Hry & Hsx & Hsy & Hflex & Htors & Hae & Hsl).
  pose proof (w_section_stages_inv _ _ _ _ _ _ _ _ _ _ _ _ _ _ _ _ _ _ _ _ _ s' Hs')
    as (Hrx' & Hry' & Hsx' & Hsy' & Hflex' & Htors' & Hae' & Hsl').
  destruct Hsec as (HA & HIx & HIy & HJ & HCw & Hbf & Htf & Htw & Hk & Hd).
  destruct Hmat as (HFy & HE & HG).
  rewrite nonzero_length_other in Hsx, Hsy, Hsx', Hsy', Htors, Htors' by lra.
  assert (Hqx : 0 < Ix / area) by (apply Rdiv_lt_0_compat; assumption).
  assert (Hqy : 0 < Iy / area) by (apply Rdiv_lt_0_compat; assumption).
  pose proof (sqrt_lt_R0 _ Hqx) as Hrxpos. pose proof (sqrt_lt_R0 _ Hqy) as Hrypos.
  rewrite <- Hrx in Hrxpos. rewrite <- Hry in Hrypos.
  assert (Hrxeq : st_rx s' = st_rx s) by congruence.
  assert (Hryeq : st_ry s' = st_ry s) by congruence.
  rewrite Hrxeq in *. rewrite Hryeq in *.
  (* the slenderness *)
  assert (Hsxpos : 0 < st_slenderness_x s).
  { rewrite Hsx. apply Rdiv_lt_0_compat; [apply Rmult_lt_0_compat|]; lra. }
  assert (Hsypos : 0 < st_slenderness_y s).
  { rewrite Hsy. apply Rdiv_lt_0_compat; [apply Rmult_lt_0_compat|]; lra. }
  assert (Hsxle : st_slenderness_x s <= st_slenderness_x s').
  { rewrite Hsx, Hsx'. pose proof (Rinv_0_lt_compat _ Hrxpos).
    unfold Rdiv. apply Rmult_le_compat_r; [lra|]. apply Rmult_le_compat_l; lra. }
  assert (Hsyle : st_slenderness_y s <= st_slenderness_y s').
  { rewrite Hsy, Hsy'. pose proof (Rinv_0_lt_compat _ Hrypos).
    unfold Rdiv. apply Rmult_le_compat_r; [lra|]. apply Rmult_le_compat_l; lra. }
  pose proof (py_max_pos _ _ Hsxpos Hsypos) as Hslpos.
  pose proof (py_max_monotone _ _ _ _ Hsxle Hsyle) as Hslle.
  fold (st_design_slenderness s) in Hslpos, Hslle.
  fold (st_design_slenderness s') in Hslle.
  (* the flexural stress *)
  rewrite nominal_flexural_from_slenderness in Hflex, Hflex' by lra.
  injection Hflex as Hflex. injection Hflex' as Hflex'.
  assert (Hflexle : st_flexural s' <= st_flexural s).
  { rewrite <- Hflex, <- Hflex'. apply critical_stress_monotone; [assumption | |].
    - apply euler_stress_pos; lra.
    - apply euler_stress_antitone; assumption. }
  (* the torsional stress *)
  assert (Hr0 : calc_r0 (st_rx s) (st_ry s) x_brace_offset y_brace_offset <> 0).
  { unfold calc_r0. pose proof (pow2_pos (st_rx s) ltac:(lra)).
    pose proof (pow2_nonneg (st_ry s)). pose proof (pow2_nonneg x_brace_offset).
    pose proof (pow2_nonneg y_brace_offset). lra. }
  assert (Htorsle : st_torsional s' <= st_torsional s).
  { eapply (torsional_stage_antitone yield_stress (unbraced_length_z * kz)
              (longer_z * kz));
      [ exact HFy | exact HCw | exact HIx | exact HIy | exact HJ | exact HA
      | exact Hr0 | exact HE | exact HG | nra | nra | exact Htors | exact Htors' ]. }
  pose proof (py_min_monotone _ _ _ _ Hflexle Htorsle) as HFnle.
  fold (st_nominal_stress s) in HFnle. fold (st_nominal_stress s') in HFnle.
  (* the effective area and the strength *)
  rewrite w_section_effective_area_Ok in Hae, Hae' by lra.
  injection Hae as Hae. injection Hae' as Hae'.
  assert (HPn : st_nominal_strength s' <= st_nominal_strength s).
  { unfold st_nominal_strength. rewrite <- Hae, <- Hae'.
    apply nominal_strength_monotone; (assumption || lra). }
  exists p, p', (stage_warnings s x_brace_offset y_brace_offset),
    (stage_warnings s' x_brace_offset y_brace_offset), (stage_notes s).
  rewrite !w_section_capacity_stages, Hs, Hs'. cbn [bind]. unfold conclude.
  rewrite Hp, Hp'.
  assert (Hnotes : stage_notes s' = stage_notes s).
  { unfold stage_notes. assert (Ok (st_slender s') = Ok (st_slender s)) as Heq by congruence.
    injection Heq as ->. reflexivity. }
  rewrite Hnotes. split; [reflexivity|]. split; [reflexivity|].
  exact (design_strength_monotone design_method _ _ _ _ Hp Hp' HPn).
Qed.

(** The W10X22 of the test suite, whose web is slender, at the lengths of
    its two tests. *)
Lemma longer_column_not_stronger_witness :
  exists p p' warnings warnings' notes,
    w_section_capacity 6.49 118 11.4 0.239 275 5.75 0.360 10.2 0.660 0.240
      (19.26 * 12) (5 * 12) (5 * 12) 50 "LRFD" STEEL_ELASTIC_MODULUS STEEL_SHEAR_MODULUS
      1 1 1 0 0 false = Ok (Strength p, warnings, notes)
    /\ w_section_capacity 6.49 118 11.4 0.239 275 5.75 0.360 10.2 0.660 0.240
         (24 * 12) (24 * 12) (24 * 12) 50 "LRFD" STEEL_ELASTIC_MODULUS STEEL_SHEAR_MODULUS
         1 1 1 0 0 false = Ok (Strength p', warnings', notes)
    /\ p' <= p.
Proof.
  apply (longer_column_not_stronger 6.49 118 11.4 0.239 275 5.75 0.360 10.2 0.660 0.240
           50 (19.26 * 12) (5 * 12) (5 * 12) (24 * 12) (24 * 12) (24 * 12) "LRFD"
           STEEL_ELASTIC_MODULUS STEEL_SHEAR_MODULUS 1 1 1 0 0);
    try valid_inputs; lra.
Defined.

(** ** The governing stress and the yield stress *)

Lemma critical_stress_below_yield (Fy Fe : R) :
  0 < Fy -> 0 < Fe -> critical_stress Fy Fe < Fy.
Proof.
  intros HFy HFe.
  assert (Hr : 0 < Fy / Fe) by (apply Rdiv_lt_0_compat; assumption).
  destruct (Rle_dec (Fy / Fe) 2.25) as [Hin|Hel].
  - rewrite critical_stress_inelastic by assumption.
    pose proof (pow658_lt_1 _ Hr). pose proof (pow658_pos (Fy / Fe)). nra.
  - rewrite critical_stress_elastic by lra.
    assert (Fy > 2.25 * Fe).
    { apply Rnot_le_gt. intros Hc. apply Hel, ratio_bound; assumption. }
    lra.
Qed.

Lemma py_min_le_l (a b : R) : py_min a b <= a.
Proof. unfold py_min. destruct (Rlt_dec b a); lra. Qed.

(** X23.  On valid inputs the governing nominal stress the report shows
    is positive and strictly below the yield stress, and the nominal strength
    it shows is that stress times the effective area it shows. *)
Theorem governing_stress_below_yield
    (area Ix Iy J warping_constant flange_width flange_thickness section_depth kdes
     web_thickness unbraced_length_x unbraced_length_y unbraced_length_z yield_stress : R)
    (design_method : string)
    (elastic_modulus shear_modulus kx ky kz x_brace_offset y_brace_offset : R) :
  valid_section area Ix Iy J warping_constant flange_width flange_thickness
    section_depth kdes web_thickness ->
  valid_material yield_stress elastic_modulus shear_modulus ->
  valid_bracing unbraced_length_x unbraced_length_y unbraced_length_z kx ky kz ->
  recognised design_method ->
  exists rows warnings notes Fn Ae,
    w_section_capacity area Ix Iy J warping_constant flange_width flange_thickness
      section_depth kdes web_thickness unbraced_length_x unbraced_length_y
      unbraced_length_z yield_stress design_method elastic_modulus shear_modulus
      kx ky kz x_brace_offset y_brace_offset true = Ok (Report rows, warnings, notes)
    /\ dict_get rows "Governing nominal buckling stress, Fn" = Some (Fn, "stress"%string)
    /\ dict_get rows "Effective area accounting for slender elements, Ae (Sect. E7)"
       = Some (Ae, "area"%string)
    /\ dict_get rows "Nominal compressive strength, Pn (Eqns E3-1, E4-1, E7-1)"
       = Some (Fn * Ae, "force"%string)
    /\ 0 < Fn < yield_stress.
Proof.
  intros Hsec Hmat Hbr Hdm.
  destruct (w_section_stages_total area Ix Iy J warping_constant flange_width
              flange_thickness section_depth kdes web_thickness unbraced_length_x
              unbraced_length_y unbraced_length_z yield_stress elastic_modulus
              shear_modulus kx ky kz x_brace_offset y_brace_offset Hsec Hmat Hbr)
    as (s & Hs & HFn).
  destruct (design_strength_recognised design_method (st_nominal_strength s) Hdm)
    as (p & Hp).
  pose proof (w_section_stages_inv _ _ _ _ _ _ _ _ _ _ _ _ _ _ _ _ _ _ _ _ _ s Hs)
    as (Hrx & Hry & Hsx & Hsy & Hflex & _).
  destruct Hsec as (HA & HIx & HIy & _).
  destruct Hmat as (HFy & HE & HG).
  destruct Hbr as (Hkx & Hky & _ & HLx & HLy & _).
  pose proof (nonzero_length_pos _ HLx) as HLx'.
  pose proof (nonzero_length_pos _ HLy) as HLy'.
  assert (Hqx : 0 < Ix / area) by (apply Rdiv_lt_0_compat; assumption).
  assert (Hqy : 0 < Iy / area) by (apply Rdiv_lt_0_compat; assumption).
  pose proof (sqrt_lt_R0 _ Hqx) as Hrxpos. pose proof (sqrt_lt_R0 _ Hqy) as Hrypos.
  rewrite <- Hrx in Hrxpos. rewrite <- Hry in Hrypos.
  assert (Hsxpos : 0 < st_slenderness_x s).
  { rewrite Hsx. apply Rdiv_lt_0_compat; [apply Rmult_lt_0_compat|]; assumption. }
  assert (Hsypos : 0 < st_slenderness_y s).
  { rewrite Hsy. apply Rdiv_lt_0_compat; [apply Rmult_lt_0_compat|]; assumption. }
  pose proof (py_max_pos _ _ Hsxpos Hsypos) as Hslpos.
  fold (st_design_slenderness s) in Hslpos.
  rewrite nominal_flexural_from_slenderness in Hflex by lra.
  injection Hflex as Hflex.
  assert (Hbelow : st_flexural s < yield_stress).
  { rewrite <- Hflex. apply critical_stress_below_yield; [assumption|].
    apply euler_stress_pos; lra. }
  pose proof (py_min_le_l (st_flexural s) (st_torsional s)) as Hmin.
  fold (st_nominal_stress s) in Hmin.
  pose proof (dict_get_nominal_report s x_brace_offset y_brace_offset
                (design_rows design_method (st_nominal_strength s)))
    as (_ & _ & _ & HFnrow & HAerow & HPnrow).
  eexists _, _, _, (st_nominal_stress s), (st_effective_area s).
  rewrite w_section_capacity_stages, Hs. cbn [bind]. unfold conclude. rewrite Hp.
  split; [reflexivity|]. split; [exact HFnrow|]. split; [exact HAerow|].
  split; [exact HPnrow | lra].
Qed.

(** The W10X22 at 24 ft. *)
Lemma governing_stress_below_yield_witness :
  exists rows warnings notes Fn,
    w_section_capacity 6.49 118 11.4 0.239 275 5.75 0.360 10.2 0.660 0.240
      (24 * 12) (24 * 12) (24 * 12) 50 "LRFD" STEEL_ELASTIC_MODULUS STEEL_SHEAR_MODULUS
      1 1 1 0 0 true = Ok (Report rows, warnings, notes)
    /\ dict_get rows "Governing nominal buckling stress, Fn" = Some (Fn, "stress"%string)
    /\ 0 < Fn < 50.
Proof.
  destruct (governing_stress_below_yield 6.49 118 11.4 0.239 275 5.75 0.360 10.2 0.660
              0.240 (24 * 12) (24 * 12) (24 * 12) 50 "LRFD" STEEL_ELASTIC_MODULUS
              STEEL_SHEAR_MODULUS 1 1 1 0 0)
    as (rows & warnings & notes & Fn & Ae & Hrun & HFn & _ & _ & Hbounds);
    try valid_inputs.
  exists rows, warnings, notes, Fn. split; [exact Hrun|]. split; [exact HFn | exact Hbounds].
Defined.

(** ** Stronger steel *)

Lemma modulus_ratio_antitone (E Fy1 Fy2 : R) :
  0 <= E -> 0 < Fy1 -> Fy1 <= Fy2 -> 0 <= E / Fy2 <= E / Fy1.
Proof.
  intros HE H1 H12.
  assert (/ Fy2 <= / Fy1) by (apply Rinv_le_contravar; assumption).
  pose proof (Rinv_0_lt_compat Fy2 ltac:(lra)).
  unfold Rdiv. split; [apply Rmult_le_pos; lra | apply Rmult_le_compat_l; assumption].
Qed.

Lemma limit_root_antitone (c E Fy1 Fy2 : R) :
  0 <= c -> 0 <= E -> 0 < Fy1 -> Fy1 <= Fy2 ->
  c * sqrt (E / Fy2) <= c * sqrt (E / Fy1).
Proof.
  intros Hc HE H1 H12. apply Rmult_le_compat_l; [assumption|].
  apply sqrt_le_1_alt, modulus_ratio_antitone; assumption.
Qed.

(** X24.  A higher yield stress never raises a limiting
    width-to-thickness ratio, for each of the nine table cases (case 2 with a
    non-negative [kc]); hence a W section that [w_is_slender_comp] classifies
    as slender is classified as slender for every higher yield stress. *)
Theorem slender_for_stronger_steel (elastic_modulus Fy1 Fy2 : R) :
  0 <= elastic_modulus -> 0 < Fy1 -> Fy1 <= Fy2 ->
  (forall table_case kc,
     (1 <= table_case <= 9)%Z -> 0 <= kc ->
     exists limit1 limit2,
       limiting_wt_ratio_comp table_case elastic_modulus Fy1 (Some kc) = Ok limit1
       /\ limiting_wt_ratio_comp table_case elastic_modulus Fy2 (Some kc) = Ok limit2
       /\ limit2 <= limit1)
  /\ (forall flange_width flange_thickness section_depth kdes web_thickness,
        w_is_slender_comp flange_width flange_thickness section_depth kdes web_thickness
          Fy1 elastic_modulus = Ok true ->
        w_is_slender_comp flange_width flange_thickness section_depth kdes web_thickness
          Fy2 elastic_modulus = Ok true).
Proof.
  intros HE H1 H12. assert (H2 : 0 < Fy2) by lra. split.
  - intros table_case kc Hcase Hkc.
    assert (Hcases : (table_case = 1 \/ table_case = 2 \/ table_case = 3 \/ table_case = 4
                      \/ table_case = 5 \/ table_case = 6 \/ table_case = 7
                      \/ table_case = 8 \/ table_case = 9)%Z) by lia.
    assert (HkE : 0 <= kc * elastic_modulus) by (apply Rmult_le_pos; assumption).
    pose proof (modulus_ratio_antitone _ _ _ HE H1 H12) as (Hq0 & Hq).
    pose proof (modulus_ratio_antitone _ _ _ HkE H1 H12) as (Hk0 & Hkq).
    destruct Hcases as [-> | [-> | [-> | [-> | [-> | [-> | [-> | [-> | ->]]]]]]]];
      cbn [limiting_wt_ratio_comp];
      rewrite ?limiting_wt_ratio_root by assumption;
      rewrite ?py_div_Ok by lra; cbn [bind];
      rewrite ?py_sqrt_Ok by lra; cbn [bind];
      do 2 eexists; (split; [reflexivity|]); (split; [reflexivity|]);
      try (apply limit_root_antitone; (assumption || lra)).
    unfold Rdiv in *. rewrite !Rmult_assoc. lra.
  - intros bf tf d kdes tw Hslender.
    pose proof (w_is_slender_comp_inv _ _ _ _ _ _ _ _ Hslender) as Hiff.
    assert (Htf : tf <> 0 /\ tw <> 0).
    { unfold w_is_slender_comp in Hslender.
      apply bind_Ok_inv in Hslender as (fr & Hfr & H). apply py_div_inv in Hfr as (Hd & _).
      apply bind_Ok_inv in H as (wr & Hwr & _). apply py_div_inv in Hwr as (Hw & _).
      split; [lra | assumption]. }
    destruct Htf as (Htf & Htw).
    destruct (w_is_slender_comp_Ok bf tf d kdes tw Fy2 elastic_modulus Htf Htw H2 HE)
      as (b & Hb).
    rewrite Hb. f_equal. apply (w_is_slender_comp_inv _ _ _ _ _ _ _ _ Hb).
    pose proof (limit_root_antitone 0.56 elastic_modulus Fy1 Fy2 ltac:(lra) HE H1 H12).
    pose proof (limit_root_antitone 1.49 elastic_modulus Fy1 Fy2 ltac:(lra) HE H1 H12).
    unfold w_slender_condition in *.
    destruct (proj1 Hiff eq_refl) as [Hf | Hw]; [left | right]; lra.
Qed.

(** The W10X22 of the test suite is slender at 50 ksi, and so at 65 ksi. *)
Lemma slender_for_stronger_steel_witness :
  w_is_slender_comp 5.75 0.360 10.2 0.660 0.240 50 STEEL_ELASTIC_MODULUS = Ok true
  /\ w_is_slender_comp 5.75 0.360 10.2 0.660 0.240 65 STEEL_ELASTIC_MODULUS = Ok true.
Proof.
  assert (Hslender :
    w_is_slender_comp 5.75 0.360 10.2 0.660 0.240 50 STEEL_ELASTIC_MODULUS = Ok true).
  { destruct (w_is_slender_comp_Ok 5.75 0.360 10.2 0.660 0.240 50 STEEL_ELASTIC_MODULUS)
      as (b & Hb); try (unfold STEEL_ELASTIC_MODULUS; lra).
    rewrite Hb. f_equal. apply (w_is_slender_comp_inv _ _ _ _ _ _ _ _ Hb).
    unfold w_slender_condition. right. pose proof sqrt_580_bounds. lra. }
  split; [exact Hslender|].
  apply (proj2 (slender_for_stronger_steel STEEL_ELASTIC_MODULUS 50 65
                  ltac:(unfold STEEL_ELASTIC_MODULUS; lra) ltac:(lra) ltac:(lra))).
  exact Hslender.
Defined.
